(** * datadiff: structural diff of nested Python data

    A shallow embedding of [datadiff/__init__.py] (functions [diff],
    [diff_seq], [diff_dict], [diff_set], [hashable], class [DataDiff]) and
    of the parts of the Python runtime and of [difflib] that the module
    calls, followed by the properties of the program.

    Conventions of the embedding.
    - The semantics is that of Python 3: a dict keeps the order in which
      its keys were inserted, and [<] between a [str] and an [int] raises
      [TypeError].
    - Python objects are terms of [value]; Python [int]s are [Z].  Floats
      and bools are not modelled.
    - A [dict] is its list of items in iteration order, a [set] is the list
      of its elements in iteration order.
    - A callable is [VFun name]; what calling it does is given by the
      environment [call], a variable of the development.  What a callable
      raises is an instance of [Exception] that is none of the exceptions
      of the module.
    - A raised exception is the [Err] branch of [result]; [try]/[except]
      is a [match] on it that looks at the class of the exception.
    - Mutation of a [DataDiff] ([self.diffs.append]) is a function that
      returns the updated object. *)

From Stdlib Require Import ZArith List String Ascii Bool Lia Sorted Permutation.
From Stdlib Require Import DecimalString.

#[local] Set Warnings "-register-all".
Scheme All for list.
Scheme All for prod.
Import ListNotations.
Local Open Scope string_scope.
Local Open Scope list_scope.
Local Open Scope Z_scope.

(* ================================================================== *)
(** * Python values *)

Module Py.

Inductive value : Type :=
| VNone
| VInt (n : Z)
| VStr (s : string)
| VList (xs : list value)
| VTuple (xs : list value)
| VDict (kvs : list (value * value))
| VSet (xs : list value)
| VFrozenset (xs : list value)
| VFun (name : string)          (* a callable object *)
| VExc (msg : string)           (* an exception instance *)
| VObj (id : string).           (* an unhashable object that is not iterable *)

(** [type(x)] *)
Inductive pytype : Type :=
| TNoneType | TInt | TStr | TList | TTuple | TDict | TSet | TFrozenset
| TFunction | TException | TObject.

Definition pytype_eqb (s t : pytype) : bool :=
  match s, t with
  | TNoneType, TNoneType | TInt, TInt | TStr, TStr | TList, TList
  | TTuple, TTuple | TDict, TDict | TSet, TSet | TFrozenset, TFrozenset
  | TFunction, TFunction | TException, TException | TObject, TObject => true
  | _, _ => false
  end.

Definition type_of (v : value) : pytype :=
  match v with
  | VNone => TNoneType
  | VInt _ => TInt
  | VStr _ => TStr
  | VList _ => TList
  | VTuple _ => TTuple
  | VDict _ => TDict
  | VSet _ => TSet
  | VFrozenset _ => TFrozenset
  | VFun _ => TFunction
  | VExc _ => TException
  | VObj _ => TObject
  end.

(** [t.__name__] *)
Definition type_name (t : pytype) : string :=
  match t with
  | TNoneType => "NoneType"
  | TInt => "int"
  | TStr => "str"
  | TList => "list"
  | TTuple => "tuple"
  | TDict => "dict"
  | TSet => "set"
  | TFrozenset => "frozenset"
  | TFunction => "function"
  | TException => "Exception"
  | TObject => "object"
  end.

(** [callable(x)] *)
Definition callable (v : value) : bool :=
  match v with VFun _ => true | _ => false end.

(** [isinstance(x, string_types)] *)
Definition is_string (v : value) : bool :=
  match v with VStr _ => true | _ => false end.

(** [hasattr(x, 'intersection') and hasattr(x, 'difference')] *)
Definition is_setlike (v : value) : bool :=
  match v with VSet _ | VFrozenset _ => true | _ => false end.

(** [hasattr(x, '__iter__') or hasattr(x, '__getitem__')] *)
Definition has_iter_or_getitem (v : value) : bool :=
  match v with
  | VStr _ | VList _ | VTuple _ | VDict _ | VSet _ | VFrozenset _ => true
  | _ => false
  end.

(** The items of a list or a tuple. *)
Definition sequence_items (v : value) : option (list value) :=
  match v with
  | VList xs | VTuple xs => Some xs
  | _ => None
  end.

(** [a == b].  Lists and tuples compare element by element; sets and
    frozensets compare as sets, whatever the iteration order; dicts compare
    as sets of items (for dicts whose keys are pairwise different this is
    Python's key-by-key comparison). *)
Fixpoint py_eq (a b : value) {struct a} : bool :=
  let fix all_eq (xs ys : list value) {struct xs} : bool :=
    match xs, ys with
    | [], [] => true
    | x :: xs', y :: ys' => py_eq x y && all_eq xs' ys'
    | _, _ => false
    end in
  let fix subset (xs ys : list value) {struct xs} : bool :=
    match xs with
    | [] => true
    | x :: xs' => existsb (fun y => py_eq x y) ys && subset xs' ys
    end in
  let fix subitems (kvs kvs' : list (value * value)) {struct kvs} : bool :=
    match kvs with
    | [] => true
    | (k, v) :: rest =>
        existsb (fun kv' => py_eq k (fst kv') && py_eq v (snd kv')) kvs'
        && subitems rest kvs'
    end in
  match a, b with
  | VNone, VNone => true
  | VInt m, VInt n => Z.eqb m n
  | VStr s, VStr t => String.eqb s t
  | VList xs, VList ys => all_eq xs ys
  | VTuple xs, VTuple ys => all_eq xs ys
  | VDict kvs, VDict kvs' =>
      Nat.eqb (List.length kvs) (List.length kvs') && subitems kvs kvs'
  | VSet xs, VSet ys | VSet xs, VFrozenset ys
  | VFrozenset xs, VSet ys | VFrozenset xs, VFrozenset ys =>
      Nat.eqb (List.length xs) (List.length ys) && subset xs ys
  | VFun f, VFun g => String.eqb f g
  | VExc m, VExc n => String.eqb m n
  | VObj i, VObj j => String.eqb i j
  | _, _ => false
  end.

(** [bool(x)] *)
Definition truthy (v : value) : bool :=
  match v with
  | VNone => false
  | VInt n => negb (Z.eqb n 0)
  | VStr s => negb (String.eqb s "")
  | VList xs | VTuple xs | VSet xs | VFrozenset xs =>
      match xs with [] => false | _ => true end
  | VDict kvs => match kvs with [] => false | _ => true end
  | VFun _ | VExc _ | VObj _ => true
  end.

(** [len(xs)] *)
Definition len {A : Type} (xs : list A) : Z := Z.of_nat (List.length xs).

(** A slice bound, as Python normalises it: a negative bound counts from
    the end, and the result is clamped to [0 .. len]. *)
Definition slice_bound (n i : Z) : Z :=
  if i <? 0 then Z.max (i + n) 0 else Z.min i n.

(** [xs[lo:hi]] *)
Definition slice {A : Type} (xs : list A) (lo hi : Z) : list A :=
  let lo' := slice_bound (len xs) lo in
  let hi' := slice_bound (len xs) hi in
  firstn (Z.to_nat (hi' - lo')) (skipn (Z.to_nat lo') xs).

(** [x in xs], for a set or the keys of a dict *)
Definition member (x : value) (xs : list value) : bool :=
  existsb (fun y => py_eq y x) xs.

(** [d[key]] on the items of a dict, [None] when the key is absent *)
Fixpoint lookup (key : value) (kvs : list (value * value)) : option value :=
  match kvs with
  | [] => None
  | (k, v) :: rest => if py_eq k key then Some v else lookup key rest
  end.

(** [a - b] and [a.intersection(b)] on sets.  Python iterates over the
    resulting set in the order of its hash table, which is not modelled:
    the lists here are in the iteration order of [a], and the properties of
    [diff_set] speak of the elements of the runs and of their number, not
    of their order. *)
Definition difference (xs ys : list value) : list value :=
  filter (fun x => negb (member x ys)) xs.

Definition intersection (xs ys : list value) : list value :=
  filter (fun x => member x ys) xs.

(** [frozenset(xs)]: equal elements are kept once *)
Fixpoint dedup (xs : list value) : list value :=
  match xs with
  | [] => []
  | x :: xs' => if member x xs' then dedup xs' else x :: dedup xs'
  end.

(** [str(n)] for an int *)
Definition str_of_Z (n : Z) : string :=
  NilZero.string_of_int (Z.to_int n).

(** [' ' * n] *)
Definition spaces (n : Z) : string :=
  string_of_list_ascii (repeat " "%char (Z.to_nat n)).

(** ['\n'.join(lines)] *)
Fixpoint join_lines (lines : list string) : string :=
  match lines with
  | [] => ""
  | [l] => l
  | l :: rest => (l ++ String "010"%char (join_lines rest))%string
  end.

(** ['\n' in s] *)
Fixpoint has_newline (s : string) : bool :=
  match s with
  | EmptyString => false
  | String c s' => Ascii.eqb c "010"%char || has_newline s'
  end.

(** [s.split('\n')] *)
Fixpoint split_lines (s : string) : list string :=
  match s with
  | EmptyString => [""]
  | String c s' =>
      if Ascii.eqb c "010"%char then "" :: split_lines s'
      else match split_lines s' with
           | [] => [String c ""]
           | l :: ls => String c l :: ls
           end
  end.

End Py.
Export Py.

(* ================================================================== *)
(** * difflib

    The part of the standard module [difflib] that datadiff calls:
    [SequenceMatcher(a=..., b=...)] (no junk predicate, [autojunk] on), its
    [get_grouped_opcodes], and [unified_diff].  Indices are Python ints. *)

Module Difflib.

Inductive tag : Type := Replace | Delete | Insert | Equal.

Definition tag_eqb (s t : tag) : bool :=
  match s, t with
  | Replace, Replace | Delete, Delete | Insert, Insert | Equal, Equal => true
  | _, _ => false
  end.

(** An opcode [(tag, i1, i2, j1, j2)]. *)
Record opcode : Type := Op { op_tag : tag; op_i1 : Z; op_i2 : Z; op_j1 : Z; op_j2 : Z }.

(** [range(lo, hi)] *)
Definition range (lo hi : Z) : list Z :=
  map (fun k => lo + Z.of_nat k) (seq 0 (Z.to_nat (hi - lo))).

(** [xs[i]] for an index inside the list *)
Definition item {A : Type} (xs : list A) (i : Z) : option A :=
  if i <? 0 then None else nth_error xs (Z.to_nat i).

(** A match [(i, j, size)]. *)
Definition block : Type := (Z * Z * Z)%type.

(** Order of tuples, as [list.sort] uses it on the matching blocks. *)
Definition block_ltb (x y : block) : bool :=
  let '(i1, j1, k1) := x in
  let '(i2, j2, k2) := y in
  (i1 <? i2) || ((i1 =? i2) && ((j1 <? j2) || ((j1 =? j2) && (k1 <? k2)))).

Fixpoint insert_block (x : block) (xs : list block) : list block :=
  match xs with
  | [] => [x]
  | y :: ys => if block_ltb x y then x :: xs else y :: insert_block x ys
  end.

Definition sort_blocks (xs : list block) : list block :=
  fold_right insert_block [] xs.

Section SequenceMatcher.
Context {A : Type}.
Variable eqb : A -> A -> bool.
Variables a b : list A.

(** [b2j.setdefault(elt, []).append(j)]: the dict is the list of its items
    in the order the keys were inserted; a key is found by [==]. *)
Fixpoint setdefault_append (elt : A) (j : Z) (b2j : list (A * list Z))
  : list (A * list Z) :=
  match b2j with
  | [] => [(elt, [j])]
  | (key, indices) :: rest =>
      if eqb key elt then (key, indices ++ [j]) :: rest
      else (key, indices) :: setdefault_append elt j rest
  end.

(** The loop [for i, elt in enumerate(b)] of [__chain_b]. *)
Fixpoint chain_from (j : Z) (ys : list A) (b2j : list (A * list Z))
  : list (A * list Z) :=
  match ys with
  | [] => b2j
  | elt :: ys' => chain_from (j + 1) ys' (setdefault_append elt j b2j)
  end.

(** [idxs] is the entry of a popular element: it occurs more than
    [n // 100 + 1] times. *)
Definition popular (n : Z) (idxs : list Z) : bool := n / 100 + 1 <? len idxs.

(** [__chain_b]: [self.b2j].  There is no junk predicate; in a [b] of 200
    elements or more the popular elements are deleted. *)
Definition chain_b : list (A * list Z) :=
  let b2j := chain_from 0 b [] in
  let n := len b in
  if 200 <=? n then filter (fun e => negb (popular n (snd e))) b2j else b2j.

(** [x in self.bjunk]: there is no junk predicate. *)
Definition isbjunk (x : A) : bool := false.

(** [b2j.get(x, nothing)] *)
Definition b2j_get (b2j : list (A * list Z)) (x : A) : list Z :=
  match find (fun e => eqb (fst e) x) b2j with
  | Some e => snd e
  | None => []
  end.

(** [j2len.get(j, 0)] *)
Definition j2len_get (j2len : list (Z * Z)) (j : Z) : Z :=
  match find (fun p => fst p =? j) j2len with
  | Some p => snd p
  | None => 0
  end.

(** The loop [for j in b2j.get(a[i], nothing)] of [find_longest_match]. *)
Fixpoint flm_row (i blo bhi : Z) (js : list Z) (j2len newj2len : list (Z * Z))
         (best : block) : list (Z * Z) * block :=
  match js with
  | [] => (newj2len, best)
  | j :: js' =>
      if j <? blo then flm_row i blo bhi js' j2len newj2len best
      else if bhi <=? j then (newj2len, best)
      else
        let k := j2len_get j2len (j - 1) + 1 in
        let '(_, _, bestsize) := best in
        flm_row i blo bhi js' j2len ((j, k) :: newj2len)
                (if bestsize <? k then (i - k + 1, j - k + 1, k) else best)
  end.

(** The loop [for i in range(alo, ahi)]. *)
Fixpoint flm_rows (b2j : list (A * list Z)) (idxs : list Z) (blo bhi : Z)
         (j2len : list (Z * Z)) (best : block) : block :=
  match idxs with
  | [] => best
  | i :: idxs' =>
      let js := match item a i with Some x => b2j_get b2j x | None => [] end in
      let '(newj2len, best') := flm_row i blo bhi js j2len [] best in
      flm_rows b2j idxs' blo bhi newj2len best'
  end.

Definition same_at (i j : Z) : bool :=
  match item a i, item b j with
  | Some x, Some y => eqb x y
  | _, _ => false
  end.

Definition junk_at (j : Z) : bool :=
  match item b j with Some y => isbjunk y | None => false end.

(** [while besti > alo and bestj > blo and (not) isbjunk(b[bestj-1]) and
    a[besti-1] == b[bestj-1]]; every turn lowers [besti], so the loop
    makes at most [besti - alo] turns, which is what [n] counts. *)
Fixpoint extend_down (n : nat) (junk : bool) (alo blo : Z) (best : block) : block :=
  match n with
  | O => best
  | S n' =>
      let '(besti, bestj, bestsize) := best in
      if (alo <? besti) && (blo <? bestj)
         && Bool.eqb (junk_at (bestj - 1)) junk
         && same_at (besti - 1) (bestj - 1)
      then extend_down n' junk alo blo (besti - 1, bestj - 1, bestsize + 1)
      else best
  end.

(** [while besti+bestsize < ahi and bestj+bestsize < bhi and ...]; at most
    [ahi - (besti + bestsize)] turns. *)
Fixpoint extend_up (n : nat) (junk : bool) (ahi bhi : Z) (best : block) : block :=
  match n with
  | O => best
  | S n' =>
      let '(besti, bestj, bestsize) := best in
      if (besti + bestsize <? ahi) && (bestj + bestsize <? bhi)
         && Bool.eqb (junk_at (bestj + bestsize)) junk
         && same_at (besti + bestsize) (bestj + bestsize)
      then extend_up n' junk ahi bhi (besti, bestj, bestsize + 1)
      else best
  end.

Definition find_longest_match (b2j : list (A * list Z)) (alo ahi blo bhi : Z) : block :=
  let best0 := flm_rows b2j (range alo ahi) blo bhi [] (alo, blo, 0) in
  let down (junk : bool) (best : block) :=
    let '(besti, _, _) := best in
    extend_down (Z.to_nat (besti - alo)) junk alo blo best in
  let up (junk : bool) (best : block) :=
    let '(besti, _, bestsize) := best in
    extend_up (Z.to_nat (ahi - (besti + bestsize))) junk ahi bhi best in
  up true (down true (up false (down false best0))).

(** The loop [while queue] of [get_matching_blocks]; [queue.pop()] takes
    the last element that was appended, so the head of the list is the
    end of the Python list. *)
Fixpoint matching_loop (b2j : list (A * list Z)) (fuel : nat)
         (queue : list (Z * Z * Z * Z)) (acc : list block)
  : list block :=
  match fuel, queue with
  | O, _ => acc
  | _, [] => acc
  | S fuel', (alo, ahi, blo, bhi) :: queue' =>
      let '(i, j, k) := find_longest_match b2j alo ahi blo bhi in
      if k =? 0 then matching_loop b2j fuel' queue' acc
      else
        let q1 := if (alo <? i) && (blo <? j) then (alo, i, blo, j) :: queue' else queue' in
        let q2 := if (i + k <? ahi) && (j + k <? bhi) then (i + k, ahi, j + k, bhi) :: q1 else q1 in
        matching_loop b2j fuel' q2 (acc ++ [(i, j, k)])
  end.

(** The loop that collapses adjacent blocks. *)
Fixpoint collapse (blocks : list block) (cur : block) : list block :=
  let '(i1, j1, k1) := cur in
  match blocks with
  | [] => if k1 =? 0 then [] else [cur]
  | (i2, j2, k2) :: rest =>
      if (i1 + k1 =? i2) && (j1 + k1 =? j2) then collapse rest (i1, j1, k1 + k2)
      else (if k1 =? 0 then [] else [cur]) ++ collapse rest (i2, j2, k2)
  end.

(** A block of size [k >= 1] is found at most [min la lb] times and every
    other search ends its branch, so [la + lb + 1] searches are enough. *)
Definition get_matching_blocks : list block :=
  let la := len a in
  let lb := len b in
  let found :=
    matching_loop chain_b (S (List.length a + List.length b)) [(0, la, 0, lb)] [] in
  collapse (sort_blocks found) (0, 0, 0) ++ [(la, lb, 0)].

Fixpoint opcodes_from (i j : Z) (blocks : list block) : list opcode :=
  match blocks with
  | [] => []
  | (ai, bj, size) :: rest =>
      let change :=
        if (i <? ai) && (j <? bj) then [Op Replace i ai j bj]
        else if i <? ai then [Op Delete i ai j bj]
        else if j <? bj then [Op Insert i ai j bj]
        else [] in
      let same := if size =? 0 then [] else [Op Equal ai (ai + size) bj (bj + size)] in
      change ++ same ++ opcodes_from (ai + size) (bj + size) rest
  end.

Definition get_opcodes : list opcode := opcodes_from 0 0 get_matching_blocks.

(** [codes[0] = ...] and [codes[-1] = ...] *)
Definition fix_first (n : Z) (codes : list opcode) : list opcode :=
  match codes with
  | Op Equal i1 i2 j1 j2 :: rest => Op Equal (Z.max i1 (i2 - n)) i2 (Z.max j1 (j2 - n)) j2 :: rest
  | _ => codes
  end.

Fixpoint fix_last (n : Z) (codes : list opcode) : list opcode :=
  match codes with
  | [] => []
  | [Op Equal i1 i2 j1 j2] => [Op Equal i1 (Z.min i2 (i1 + n)) j1 (Z.min j2 (j1 + n))]
  | c :: rest => c :: fix_last n rest
  end.

(** The loop of [get_grouped_opcodes]; [group] is the group being built
    and the result is the list of the groups it yields. *)
Fixpoint group_loop (n : Z) (codes : list opcode) (group : list opcode)
  : list (list opcode) :=
  match codes with
  | [] =>
      match group with
      | [] => []
      | [Op Equal _ _ _ _] => []
      | _ => [group]
      end
  | Op t i1 i2 j1 j2 :: rest =>
      if tag_eqb t Equal && (n + n <? i2 - i1) then
        (group ++ [Op t i1 (Z.min i2 (i1 + n)) j1 (Z.min j2 (j1 + n))])
        :: group_loop n rest [Op t (Z.max i1 (i2 - n)) i2 (Z.max j1 (j2 - n)) j2]
      else group_loop n rest (group ++ [Op t i1 i2 j1 j2])
  end.

Definition get_grouped_opcodes (n : Z) : list (list opcode) :=
  let codes := match get_opcodes with [] => [Op Equal 0 1 0 1] | cs => cs end in
  group_loop n (fix_last n (fix_first n codes)) [].

End SequenceMatcher.

(** [_format_range_unified(start, stop)] *)
Definition format_range_unified (start stop : Z) : string :=
  let beginning := start + 1 in
  let length := stop - start in
  if length =? 1 then str_of_Z beginning
  else
    let beginning := if length =? 0 then beginning - 1 else beginning in
    (str_of_Z beginning ++ "," ++ str_of_Z length)%string.

(** The lines one opcode contributes to a unified diff. *)
Definition unified_lines (a b : list string) (c : opcode) : list string :=
  let '(Op t i1 i2 j1 j2) := c in
  match t with
  | Equal => map (fun l => (" " ++ l)%string) (slice a i1 i2)
  | Replace =>
      map (fun l => ("-" ++ l)%string) (slice a i1 i2)
      ++ map (fun l => ("+" ++ l)%string) (slice b j1 j2)
  | Delete => map (fun l => ("-" ++ l)%string) (slice a i1 i2)
  | Insert => map (fun l => ("+" ++ l)%string) (slice b j1 j2)
  end.

Definition unified_group (a b : list string) (group : list opcode) : list string :=
  match group with
  | [] => []
  | first :: _ =>
      let last := List.last group first in
      ("@@ -" ++ format_range_unified (op_i1 first) (op_i2 last)
       ++ " +" ++ format_range_unified (op_j1 first) (op_j2 last) ++ " @@")%string
      :: flat_map (unified_lines a b) group
  end.

(** [unified_diff(a, b, fromfile, tofile, '', '', n, lineterm='')], as the
    list of the lines it yields. *)
Definition unified_diff (a b : list string) (fromfile tofile : string) (n : Z)
  : list string :=
  match get_grouped_opcodes String.eqb a b n with
  | [] => []
  | groups =>
      ("--- " ++ fromfile)%string :: ("+++ " ++ tofile)%string
      :: flat_map (unified_group a b) groups
  end.

End Difflib.

(* ================================================================== *)
(** * Exceptions *)

(** The exceptions the module raises or lets through.  The arguments are
    the values the message of the exception is formatted from. *)
Inductive exn : Type :=
| NotHashable (s : value)
| NotSequence (t : pytype)
| DiffTypeError (fromfile tofile : string) (a b : value)
| DiffNotImplementedForType (attempted_type : pytype)
| TypeError
| IndexError
| KeyError
| Raised (e : value)            (* raised by a call of a callable value *)
| OutOfFuel.                    (* not a Python exception, see [diff_fuel] *)

Inductive result (A : Type) : Type :=
| Ok (x : A)
| Err (e : exn).
Arguments Ok {A} x.
Arguments Err {A} e.

Definition bind {A B : Type} (c : result A) (k : A -> result B) : result B :=
  match c with
  | Ok x => k x
  | Err e => Err e
  end.

Notation "x <- c ;; k" := (bind c (fun x => k))
  (at level 61, c at next level, right associativity).
Notation "' pat <- c ;; k" := (bind c (fun x => match x with pat => k end))
  (at level 61, pat pattern, c at next level, right associativity).

(** [except DiffTypeError]: the class and its subclass. *)
Definition is_DiffTypeError (e : exn) : bool :=
  match e with
  | DiffTypeError _ _ _ _ | DiffNotImplementedForType _ => true
  | _ => false
  end.

(** A loop [for x in xs] whose body updates a state and may raise. *)
Fixpoint for_each {A S : Type} (body : A -> S -> result S) (xs : list A) (st : S)
  : result S :=
  match xs with
  | [] => Ok st
  | x :: xs' => st' <- body x st ;; for_each body xs' st'
  end.

(* ================================================================== *)
(** * The diff tree: class [DataDiff] *)

(** The change of a run of items: ['delete'], ['insert'] or ['equal']. *)
Inductive change : Type := CDelete | CInsert | CEqual.

(** What an entry of [diffs] can hold: a plain value, a [DataDiff], or a
    [dictitem] (a pair of a key and a value or a diff, with the attribute
    [depth] when it was set). *)
Inductive obj : Type :=
| OVal (v : value)
| ODiff (d : DataDiff)
| ODictItem (key : value) (val : obj) (depth : option Z)
with DataDiff : Type :=
| mkDataDiff (datatype : pytype) (type_start_str type_end_str : string)
             (fromfile tofile : string) (diffs : list entry)
(** An element [(change, items)] of [diffs]. *)
with entry : Type :=
| Context (a_start a_end b_start b_end : Z)   (* ('context', [..]) *)
| ContextEndContainer                         (* ('context_end_container', []) *)
| Nested (o : obj)                            (* ('datadiff', o) *)
| Multi (c : change) (items : list obj).      (* (change, items) *)

(** [s.strip()] *)
Definition is_space (c : ascii) : bool :=
  existsb (Ascii.eqb c) [" "; "009"; "010"; "011"; "012"; "013"]%char.

Fixpoint lstrip (s : string) : string :=
  match s with
  | EmptyString => EmptyString
  | String c s' => if is_space c then lstrip s' else s
  end.

Fixpoint rstrip (s : string) : string :=
  match s with
  | EmptyString => EmptyString
  | String c s' =>
      match rstrip s' with
      | EmptyString => if is_space c then EmptyString else String c EmptyString
      | t => String c t
      end
  end.

Definition strip (s : string) : string := rstrip (lstrip s).

(** The methods of the class. *)
Module DD.

Definition diffs (d : DataDiff) : list entry :=
  let '(mkDataDiff _ _ _ _ _ ds) := d in ds.

Definition set_diffs (d : DataDiff) (ds : list entry) : DataDiff :=
  let '(mkDataDiff t s e f g _) := d in mkDataDiff t s e f g ds.

(** [self.diffs.append(e)] *)
Definition append (d : DataDiff) (e : entry) : DataDiff :=
  set_diffs d (diffs d ++ [e]).

(** [DataDiff(datatype, type_start_str, type_end_str, fromfile, tofile)]
    with both delimiters or none *)
Definition __init__ (datatype : pytype) (delims : option (string * string))
           (fromfile tofile : string) : DataDiff :=
  match delims with
  | None => mkDataDiff datatype (type_name datatype ++ "([")%string "])" fromfile tofile []
  | Some (s, e) => mkDataDiff datatype s e fromfile tofile []
  end.

Definition clone (d : DataDiff) : DataDiff := set_diffs d [].

Definition context (d : DataDiff) (a_start a_end b_start b_end : Z) : DataDiff :=
  append d (Context a_start a_end b_start b_end).

Definition context_end_container (d : DataDiff) : DataDiff :=
  append d ContextEndContainer.

Definition nested (d : DataDiff) (datadiff : obj) : DataDiff :=
  append d (Nested datadiff).

Definition multi (d : DataDiff) (c : change) (items : list obj) : DataDiff :=
  append d (Multi c items).

Definition delete (d : DataDiff) (item : obj) : DataDiff := multi d CDelete [item].
Definition insert (d : DataDiff) (item : obj) : DataDiff := multi d CInsert [item].
Definition equal (d : DataDiff) (item : obj) : DataDiff := multi d CEqual [item].
Definition insert_multi (d : DataDiff) (items : list obj) : DataDiff := multi d CInsert items.
Definition delete_multi (d : DataDiff) (items : list obj) : DataDiff := multi d CDelete items.
Definition equal_multi (d : DataDiff) (items : list obj) : DataDiff := multi d CEqual items.

(** The first component of an element of [diffs]. *)
Definition entry_tag (e : entry) : string :=
  match e with
  | Context _ _ _ _ => "context"
  | ContextEndContainer => "context_end_container"
  | Nested _ => "datadiff"
  | Multi CDelete _ => "delete"
  | Multi CInsert _ => "insert"
  | Multi CEqual _ => "equal"
  end.

(** [d[0] not in ('equal', 'context_end_container', 'context')] *)
Definition is_real_change (e : entry) : bool :=
  negb (existsb (String.eqb (entry_tag e)) ["equal"; "context_end_container"; "context"]).

(** [DataDiff.__bool__] *)
Definition __bool__ (d : DataDiff) : bool :=
  match filter is_real_change (diffs d) with
  | [] => false
  | _ => true
  end.

Section Rendering.
(** [repr] of a plain value is left to Python. *)
Variable repr : value -> string.

(** [object.__repr__] of a [DataDiff], which has no [__repr__] of its own. *)
Variable repr_object : string.

(** The line ['@@ -A[,A'] +B[,B'] @@'] of a context entry. *)
Definition context_line (a_start a_end b_start b_end : Z) : string :=
  let context_a :=
    if a_start =? a_end then str_of_Z a_start
    else (str_of_Z a_start ++ "," ++ str_of_Z a_end)%string in
  let context_b :=
    if b_start =? b_end then str_of_Z b_start
    else (str_of_Z b_start ++ "," ++ str_of_Z b_end)%string in
  ("@@ -" ++ context_a ++ " +" ++ context_b ++ " @@")%string.

Definition change_char (c : change) : string :=
  match c with CDelete => "-" | CInsert => "+" | CEqual => " " end.

(** [DataDiff.stringify], with [dictitem.__repr__] and ['%r' % item].
    [diff_dict] sets the attribute [depth] of every [dictitem] that holds a
    [DataDiff]; for one without it [dictitem.__repr__] raises
    [AttributeError], which is not modelled: such an item is rendered at
    depth 0, and no property depends on how it is rendered. *)
Fixpoint stringify (d : DataDiff) (depth : Z) (include_preamble : bool) {struct d}
  : string :=
  match d with
  | mkDataDiff _ type_start_str type_end_str fromfile tofile ds =>
      match ds with
      | [] => ""
      | _ =>
          let preamble :=
            if (depth =? 0) && include_preamble
            then [("--- " ++ fromfile)%string; ("+++ " ++ tofile)%string]
            else [] in
          let body :=
            (fix lines (es : list entry) : list string :=
               match es with
               | [] => []
               | e :: es' => entry_lines e depth ++ lines es'
               end) ds in
          join_lines (preamble ++ [(spaces depth ++ type_start_str)%string]
                      ++ body ++ [(spaces depth ++ type_end_str)%string])
      end
  end
with entry_lines (e : entry) (depth : Z) {struct e} : list string :=
  match e with
  | Context a_start a_end b_start b_end =>
      [(spaces depth ++ context_line a_start a_end b_start b_end)%string]
  | ContextEndContainer => [(spaces depth ++ "@@  @@")%string]
  | Nested o =>
      match o with
      | ODiff d' => [(spaces depth ++ stringify d' (depth + 1) true ++ ",")%string]
      | _ => [(spaces depth ++ " " ++ repr_obj o ++ ",")%string]
      end
  | Multi c items =>
      (fix each (os : list obj) : list string :=
         match os with
         | [] => []
         | o :: os' => (spaces depth ++ change_char c ++ repr_obj o ++ ",")%string :: each os'
         end) items
  end
with repr_obj (o : obj) {struct o} : string :=
  match o with
  | OVal v => repr v
  | ODiff _ => repr_object
  | ODictItem key val depth =>
      match val with
      | ODiff d' =>
          (repr key ++ ": "
           ++ strip (stringify d' (match depth with Some n => n | None => 0 end) false))%string
      | _ => (repr key ++ ": " ++ repr_obj val)%string
      end
  end.

End Rendering.

End DD.

(** [bool(o)] for what [diff] returns: a [str] or a [DataDiff]; a
    [dictitem] is a tuple of two elements. *)
Definition obj_bool (o : obj) : bool :=
  match o with
  | OVal v => truthy v
  | ODiff d => DD.__bool__ d
  | ODictItem _ _ _ => true
  end.



(* ================================================================== *)
(** * The differs *)

(** [unified_diff_strings(a, b, fromfile, tofile, context=context)] *)
Definition unified_diff_strings (a b fromfile tofile : string) (context : Z) : string :=
  join_lines (Difflib.unified_diff (split_lines a) (split_lines b) fromfile tofile context).

(** [hash(x)] succeeds *)
Fixpoint hash_ok (v : value) : bool :=
  match v with
  | VNone | VInt _ | VStr _ | VFun _ | VExc _ | VFrozenset _ => true
  | VTuple xs => forallb hash_ok xs
  | VList _ | VDict _ | VSet _ | VObj _ => false
  end.

(** [hashable(s)].  Every [TypeError] raised inside, a [NotHashable] of an
    element too, is caught and raised again as the [NotHashable] of [s]. *)
Fixpoint hashable (s : value) : result value :=
  let fix each (xs : list value) : result (list value) :=
    match xs with
    | [] => Ok []
    | x :: xs' => h <- hashable x ;; hs <- each xs' ;; Ok (h :: hs)
    end in
  let fix each_item (kvs : list (value * value)) : result (list value) :=
    match kvs with
    | [] => Ok []
    | (k, v) :: rest =>
        hk <- hashable k ;; hv <- hashable v ;; hs <- each_item rest ;;
        Ok (VTuple [hk; hv] :: hs)
    end in
  let ret :=
    match s with
    | VList xs => hs <- each xs ;; Ok (VTuple hs)
    | VDict kvs => hs <- each_item kvs ;; Ok (VFrozenset (dedup hs))
    | VSet xs => Ok (VFrozenset xs)
    | VTuple xs => hs <- each xs ;; Ok (VTuple hs)
    | _ => Ok s
    end in
  match ret with
  | Ok r => if hash_ok r then Ok r else Err (NotHashable s)
  | Err _ => Err (NotHashable s)
  end.

(** [[hashable(_) for _ in xs]] *)
Fixpoint hashable_all (xs : list value) : result (list value) :=
  match xs with
  | [] => Ok []
  | x :: xs' => h <- hashable x ;; hs <- hashable_all xs' ;; Ok (h :: hs)
  end.

(** The key [list.sort] compares: a [str] or a number. *)
Inductive sortkey : Type :=
| KInt (n : Z)
| KStr (s : string).

(** [k1 < k2] for two keys of one type (Python 3 refuses the other pairs). *)
Definition sortkey_ltb (k1 k2 : sortkey) : bool :=
  match k1, k2 with
  | KInt m, KInt n => m <? n
  | KStr s, KStr t => String.ltb s t
  | _, _ => false
  end.

Definition same_kind (k1 k2 : sortkey) : bool :=
  match k1, k2 with
  | KInt _, KInt _ | KStr _, KStr _ => true
  | _, _ => false
  end.

(** [v[0]] *)
Definition subscript0 (v : value) : result value :=
  match v with
  | VStr (String c _) => Ok (VStr (String c EmptyString))
  | VStr EmptyString => Err IndexError
  | VList (x :: _) | VTuple (x :: _) => Ok x
  | VList [] | VTuple [] => Err IndexError
  | VDict kvs => match lookup (VInt 0) kvs with Some x => Ok x | None => Err KeyError end
  | _ => Err TypeError
  end.

(** [o[0]] *)
Definition obj_subscript0 (o : obj) : result value :=
  match o with
  | OVal v => subscript0 v
  | ODictItem key _ _ => Ok key
  | ODiff _ => Err TypeError
  end.

(** [list.sort(key=...)] on entries paired with their keys: the sort is
    stable, and a list that holds keys of both types makes it raise. *)
Fixpoint insert_sorted {A : Type} (x : sortkey * A) (ys : list (sortkey * A))
  : list (sortkey * A) :=
  match ys with
  | [] => [x]
  | y :: ys' =>
      if sortkey_ltb (fst y) (fst x) then y :: insert_sorted x ys'
      else x :: ys
  end.

Definition sort_by_key {A : Type} (xs : list (sortkey * A)) : result (list A) :=
  match xs with
  | [] => Ok []
  | x :: rest =>
      if forallb (fun y => same_kind (fst x) (fst y)) rest
      then Ok (map snd (fold_right insert_sorted [] xs))
      else Err TypeError
  end.

(** [dictitem((key, val))], without the attribute [depth] *)
Definition dictitem (key val : value) : obj := ODictItem key (OVal val) None.

Definition change_of_tag (t : Difflib.tag) : change :=
  match t with
  | Difflib.Insert => CInsert
  | Difflib.Equal => CEqual
  | _ => CDelete
  end.

Section Differs.
(** What a call [f(x)] of the callable named [f] does: it returns a
    value ([inl]) or raises an exception instance ([inr]). *)
Variable call : string -> value -> value + value.

(** [hash(x)] of a hashable value. *)
Variable py_hash : value -> Z.

(** The signature of [diff] after its two values:
    [context], [depth], [fromfile], [tofile], [compare_with_func]. *)
Definition differ : Type :=
  value -> value -> Z -> Z -> string -> string -> bool -> result obj.

(** [compares_with_func(a, b)]: the truth value of [callable(a) and a(b)] *)
Definition compares_with_func (a b : value) : result bool :=
  match a with
  | VFun f =>
      match call f b with
      | inl r => Ok (truthy r)
      | inr e => Err (Raised e)
      end
  | _ => Ok false
  end.

(** [diffitem_dictitem_sort_key], the key function of [diff_dict] *)
Definition diffitem_dictitem_sort_key (diffitem : entry) : result sortkey :=
  match diffitem with
  | Nested (ODiff _) => Ok (KInt 0)
  | _ =>
      key <- match diffitem with
             | Nested o => first <- obj_subscript0 o ;; subscript0 first
             | Multi _ (first :: _) => obj_subscript0 first
             | Multi _ [] | ContextEndContainer => Err IndexError
             | Context _ _ _ _ => Err TypeError
             end ;;
      match key with
      | VStr s => Ok (KStr s)
      | VInt n => Ok (KInt n)
      | _ => if hash_ok key then Ok (KInt (Z.abs (py_hash key))) else Err TypeError
      end
  end.

Section Recursive.
(** The function the recursive calls [diff(...)] go to. *)
Variable rec : differ.

Variables (context depth : Z) (compare_with_func : bool).

(** ** [diff_seq] *)

(** The state of the loop over the pairs of a [replace] opcode. *)
Record replace_state : Type := ReplaceState {
  consecutive_deletes : list value;
  consecutive_inserts : list value;
  rs_chunk : DataDiff;
  rs_realy_diffs : bool
}.

(** The body of [for a2, b2 in zip(a[i1:i2], b[j1:j2])]. *)
Definition replace_pair (p : value * value) (st : replace_state)
  : result replace_state :=
  let '(a2, b2) := p in
  skip <- compares_with_func a2 b2 ;;
  if skip then Ok st
  else
    match rec a2 b2 context (depth + 1) "a" "b" compare_with_func with
    | Ok nested_diff =>
        if negb (obj_bool nested_diff) then Ok st
        else
          let c1 := DD.delete_multi (rs_chunk st) (map OVal (consecutive_deletes st)) in
          let c2 := DD.insert_multi c1 (map OVal (consecutive_inserts st)) in
          Ok (ReplaceState [] [] (DD.nested c2 nested_diff) true)
    | Err e =>
        if is_DiffTypeError e
        then Ok (ReplaceState (consecutive_deletes st ++ [a2])
                              (consecutive_inserts st ++ [b2])
                              (rs_chunk st) true)
        else Err e
    end.

(** What follows the loop: the pending runs and the items [zip] cut off. *)
Definition replace_finish (a b : list value) (i1 i2 j1 j2 : Z) (st : replace_state)
  : DataDiff :=
  let c1 := DD.delete_multi (rs_chunk st) (map OVal (consecutive_deletes st)) in
  let c2 := if j2 - j1 <? i2 - i1
            then DD.delete_multi c1 (map OVal (slice a (i1 + (j2 - j1)) i2))
            else c1 in
  let c3 := DD.insert_multi c2 (map OVal (consecutive_inserts st)) in
  if i2 - i1 <? j2 - j1
  then DD.insert_multi c3 (map OVal (slice b (j1 + (i2 - i1)) j2))
  else c3.

(** The branch [if change == 'replace'] for one opcode. *)
Definition diff_seq_replace (a b : list value) (i1 i2 j1 j2 : Z)
           (chunk_ddiff : DataDiff) (realy_diffs : bool)
  : result (DataDiff * bool) :=
  st <- for_each replace_pair (combine (slice a i1 i2) (slice b j1 j2))
                 (ReplaceState [] [] chunk_ddiff realy_diffs) ;;
  Ok (replace_finish a b i1 i2 j1 j2 st, rs_realy_diffs st).

(** The body of [for change, i1, i2, j1, j2 in chunk]. *)
Definition diff_seq_opcode (a b : list value) (c : Difflib.opcode)
           (st : DataDiff * bool) : result (DataDiff * bool) :=
  let '(chunk_ddiff, realy_diffs) := st in
  let '(Difflib.Op t i1 i2 j1 j2) := c in
  match t with
  | Difflib.Replace => diff_seq_replace a b i1 i2 j1 j2 chunk_ddiff realy_diffs
  | _ =>
      let items := match t with
                   | Difflib.Insert => slice b j1 j2
                   | _ => slice a i1 i2
                   end in
      let realy_diffs := match t with Difflib.Equal => realy_diffs | _ => true end in
      Ok (DD.multi chunk_ddiff (change_of_tag t) (map OVal items), realy_diffs)
  end.

(** The body of [for chunk in sm.get_grouped_opcodes(context)]: the
    entries of [chunk_ddiff] at the end of the turn, and [realy_diffs]. *)
Definition diff_seq_chunk (a b : list value) (ddiff : DataDiff)
           (chunk : list Difflib.opcode) : result (DataDiff * bool) :=
  match chunk with
  | [] => Err IndexError
  | first :: _ =>
      let last := List.last chunk first in
      let chunk_ddiff :=
        DD.context (DD.clone ddiff)
                (Z.max (Difflib.op_i1 first - 1) 0) (Z.max (Difflib.op_i2 last - 1) 0)
                (Z.max (Difflib.op_j1 first - 1) 0) (Z.max (Difflib.op_j2 last - 1) 0) in
      let realy_diffs := negb compare_with_func in
      '(chunk_ddiff, realy_diffs) <-
         for_each (diff_seq_opcode a b) chunk (chunk_ddiff, realy_diffs) ;;
      let chunk_ddiff :=
        if Difflib.op_i2 last <? len a
        then DD.context_end_container chunk_ddiff
        else chunk_ddiff in
      Ok (chunk_ddiff, realy_diffs)
  end.

(** One turn of the loop over the chunks, on [ddiff]. *)
Definition diff_seq_step (a b : list value) (chunk : list Difflib.opcode)
           (ddiff : DataDiff) : result DataDiff :=
  '(chunk_ddiff, realy_diffs) <- diff_seq_chunk a b ddiff chunk ;;
  Ok (if realy_diffs then DD.set_diffs ddiff (DD.diffs ddiff ++ DD.diffs chunk_ddiff) else ddiff).

(** [diff_seq], for the values [diff] passes to it: two values of one
    type that are not both strings.  Called on a string, the Python
    function diffs it character by character; the embedding has no such
    branch ([sequence_items] is for lists and tuples), and every property
    of [diff_seq] is about lists and tuples or about values that are not
    iterable. *)
Definition diff_seq (a b : value) (fromfile tofile : string) : result DataDiff :=
  if negb (has_iter_or_getitem a) then Err (NotSequence (type_of a))
  else
    match sequence_items a, sequence_items b with
    | Some xs, Some ys =>
        hashable_a <- hashable_all xs ;;
        hashable_b <- hashable_all ys ;;
        let ddiff :=
          if pytype_eqb (type_of a) TTuple
          then DD.__init__ TTuple (Some ("(", ")")) fromfile tofile
          else if pytype_eqb (type_of b) TList
          then DD.__init__ TList (Some ("[", "]")) fromfile tofile
          else DD.__init__ (type_of a) None fromfile tofile in
        for_each (diff_seq_step xs ys)
                 (Difflib.get_grouped_opcodes py_eq hashable_a hashable_b context)
                 ddiff
    | _, _ => Err TypeError
    end.

(** [try_diff_seq]: [except NotHashable: raise], and every other
    exception becomes [NotSequence]. *)
Definition try_diff_seq (a b : value) (fromfile tofile : string) : result DataDiff :=
  match diff_seq a b fromfile tofile with
  | Ok d => Ok d
  | Err (NotHashable s) => Err (NotHashable s)
  | Err OutOfFuel => Err OutOfFuel
  | Err _ => Err (NotSequence (type_of a))
  end.

(** ** [diff_dict] *)

(** [if add_equal: ...], on the tree and the counter [context] *)
Definition add_equal (key bval : value) (st : DataDiff * Z) : DataDiff * Z :=
  let '(ddiff, context) := st in
  ((if context =? 0 then ddiff else DD.equal ddiff (dictitem key bval)), context - 1).

(** The body of [for key in a.keys()]. *)
Definition diff_dict_key (a b : list (value * value)) (key : value)
           (st : DataDiff * Z) : result (DataDiff * Z) :=
  let '(ddiff, context) := st in
  match lookup key b with
  | None =>
      match lookup key a with
      | Some aval => Ok (DD.delete ddiff (dictitem key aval), context)
      | None => Err KeyError
      end
  | Some bval =>
      match lookup key a with
      | None => Err KeyError
      | Some aval =>
          if negb (py_eq aval bval) then
            if compare_with_func && callable aval then
              match compares_with_func aval bval with
              | Ok true => Ok (add_equal key bval st)
              | Ok false =>
                  Ok (DD.insert (DD.delete ddiff (dictitem key aval)) (dictitem key bval), context)
              | Err (Raised e) =>
                  Ok (DD.insert (DD.delete ddiff (dictitem key e)) (dictitem key bval), context)
              | Err e => Err e
              end
            else
              match rec aval bval context (depth + 1) "a" "b" compare_with_func with
              | Ok nested_diff =>
                  if negb (obj_bool nested_diff) then Ok (add_equal key bval st)
                  else Ok (DD.nested ddiff (ODictItem key nested_diff (Some (depth + 1))), context)
              | Err e =>
                  if is_DiffTypeError e
                  then Ok (DD.insert (DD.delete ddiff (dictitem key aval)) (dictitem key bval), context)
                  else Err e
              end
          else Ok (add_equal key bval st)
      end
  end.

(** The body of [for key in b]. *)
Definition diff_dict_insert (a b : list (value * value)) (key : value)
           (ddiff : DataDiff) : result DataDiff :=
  if member key (map fst a) then Ok ddiff
  else match lookup key b with
       | Some bval => Ok (DD.insert ddiff (dictitem key bval))
       | None => Err KeyError
       end.

(** [ddiff.diffs.sort(key=diffitem_dictitem_sort_key)] *)
Fixpoint with_keys (es : list entry) : result (list (sortkey * entry)) :=
  match es with
  | [] => Ok []
  | e :: es' =>
      k <- diffitem_dictitem_sort_key e ;; rest <- with_keys es' ;; Ok ((k, e) :: rest)
  end.

Definition sort_diffs (es : list entry) : result (list entry) :=
  keyed <- with_keys es ;; sort_by_key keyed.

Definition diff_dict (a b : list (value * value)) (fromfile tofile : string)
  : result DataDiff :=
  let ddiff := DD.__init__ TDict (Some ("{", "}")) fromfile tofile in
  '(ddiff, context') <- for_each (diff_dict_key a b) (map fst a) (ddiff, context) ;;
  ddiff <- for_each (diff_dict_insert a b) (map fst b) ddiff ;;
  sorted <- sort_diffs (DD.diffs ddiff) ;;
  let ddiff := DD.set_diffs ddiff sorted in
  Ok (if context' <? 0 then DD.context_end_container ddiff else ddiff).

(** ** [diff_set] *)

Definition diff_set (t : pytype) (a b : list value) (fromfile tofile : string)
  : DataDiff :=
  let ddiff := DD.__init__ t None fromfile tofile in
  let ddiff := DD.delete_multi ddiff (map OVal (difference a b)) in
  let ddiff := DD.insert_multi ddiff (map OVal (difference b a)) in
  let equal := intersection a b in
  let ddiff := DD.equal_multi ddiff (map OVal (slice equal 0 context)) in
  if context <? len equal then DD.context_end_container ddiff else ddiff.

End Recursive.

(** ** [diff] *)

(** The body of [diff], its recursive calls going to [rec]. *)
Definition diff_body (rec : differ) : differ :=
  fun a b context depth fromfile tofile compare_with_func =>
    match a, b with
    | VStr s, VStr t =>
        if has_newline s || has_newline t
        then Ok (OVal (VStr (unified_diff_strings s t fromfile tofile context)))
        else Err (DiffNotImplementedForType TStr)
    | _, _ =>
        if negb (pytype_eqb (type_of a) (type_of b)) then
          if compare_with_func && callable a then
            let ddiff := DD.__init__ (type_of b) None fromfile tofile in
            match compares_with_func a b with
            | Ok false => Ok (ODiff (DD.insert (DD.delete ddiff (OVal a)) (OVal b)))
            | Ok true => Ok (ODiff (DD.equal ddiff (OVal b)))
            | Err (Raised e) => Ok (ODiff (DD.insert (DD.delete ddiff (OVal e)) (OVal b)))
            | Err e => Err e
            end
          else Err (DiffTypeError fromfile tofile a b)
        else
          match a, b with
          | VDict kvs, VDict kvs' =>
              d <- diff_dict rec context depth compare_with_func kvs kvs' fromfile tofile ;;
              Ok (ODiff d)
          | VSet xs, VSet ys | VFrozenset xs, VFrozenset ys =>
              Ok (ODiff (diff_set context (type_of a) xs ys fromfile tofile))
          | _, _ =>
              match try_diff_seq rec context depth compare_with_func a b fromfile tofile with
              | Ok d => Ok (ODiff d)
              | Err (NotSequence _) => Err (DiffNotImplementedForType (type_of a))
              | Err e => Err e
              end
          end
    end.

(** The nesting depth of a value. *)
Fixpoint height (v : value) : nat :=
  match v with
  | VList xs | VTuple xs | VSet xs | VFrozenset xs => S (list_max (map height xs))
  | VDict kvs =>
      S (list_max (map (fun kv => Nat.max (height (fst kv)) (height (snd kv))) kvs))
  | _ => O
  end.

(** [diff] with a bound on the depth of the recursive calls.  [OutOfFuel]
    stands for a call that the bound cut off; no [except] clause of the
    embedding catches it. *)
Fixpoint diff_fuel (fuel : nat) : differ :=
  match fuel with
  | O => fun _ _ _ _ _ _ _ => Err OutOfFuel
  | S fuel' => diff_body (diff_fuel fuel')
  end.

(** [diff(a, b, context, depth, fromfile, tofile, compare_with_func)].
    A recursive call is on an element of [a] or on a value of the dict
    [a], so the calls nest no deeper than [a] does. *)
Definition diff : differ :=
  fun a b => diff_fuel (S (height a)) a b.

End Differs.


(* ================================================================== *)
(** * Vocabulary of the properties *)

(** The entries that [__bool__] does not count. *)
Inductive neutral : entry -> Prop :=
| neutral_equal items : neutral (Multi CEqual items)
| neutral_context a_start a_end b_start b_end :
    neutral (Context a_start a_end b_start b_end)
| neutral_context_end : neutral ContextEndContainer.

Definition is_marker (e : entry) : bool :=
  match e with ContextEndContainer => true | _ => false end.

(** The number of [ContextEndContainer] markers among the entries. *)
Definition count_markers (es : list entry) : nat :=
  List.length (filter is_marker es).

(** The entries of what [diff] returned ([[]] for a text or an error). *)
Definition entries_of (r : result obj) : list entry :=
  match r with
  | Ok (ODiff d) => DD.diffs d
  | _ => []
  end.

(** An environment to run the program in: the callable [is_int] answers
    whether its argument is an int, every other callable raises. *)
Definition sample_call (f : string) (v : value) : value + value :=
  if String.eqb f "is_int"
  then inl (match v with VInt _ => VInt 1 | _ => VInt 0 end)
  else inr (VExc "boom").

Definition sample_hash (v : value) : Z := 0.

Definition ints (ns : list Z) : list value := map VInt ns.


(** [d'] holds the entries of [d], then entries none of which is a
    [ContextEndContainer] marker. *)
Definition grows (d d' : DataDiff) : Prop :=
  exists extra, DD.diffs d' = DD.diffs d ++ extra /\ count_markers extra = 0%nat.

(** The last opcode of the chunk ends before the end of [a]. *)
Definition ends_before (a : list value) (chunk : list Difflib.opcode) : bool :=
  match chunk with
  | [] => false
  | first :: _ => Difflib.op_i2 (List.last chunk first) <? len a
  end.

(** The [Context] entry that opens the entries of a chunk. *)
Definition chunk_context (chunk : list Difflib.opcode) : option entry :=
  match chunk with
  | [] => None
  | first :: _ =>
      let last := List.last chunk first in
      Some (Context (Z.max (Difflib.op_i1 first - 1) 0) (Z.max (Difflib.op_i2 last - 1) 0)
                    (Z.max (Difflib.op_j1 first - 1) 0) (Z.max (Difflib.op_j2 last - 1) 0))
  end.


(** The chunk is merged into the tree: [realy_diffs] is true at its end. *)
Definition chunk_kept (call : string -> value -> value + value) (rec : differ)
           (context depth : Z) (compare_with_func : bool)
           (a b : list value) (ddiff : DataDiff) (chunk : list Difflib.opcode) : bool :=
  match diff_seq_chunk call rec context depth compare_with_func a b ddiff chunk with
  | Ok (_, realy_diffs) => realy_diffs
  | Err _ => false
  end.


(** ** Sample inputs *)

(** Two lists of twenty ints that differ at the indices 2 and 12. *)
Definition seq20_a : list value :=
  ints [0; 1; 2; 3; 4; 5; 6; 7; 8; 9; 10; 11; 12; 13; 14; 15; 16; 17; 18; 19].

Definition seq20_b : list value :=
  ints [0; 1; 99; 3; 4; 5; 6; 7; 8; 9; 10; 11; 98; 13; 14; 15; 16; 17; 18; 19].

(** The entries of their diff with [context=1]. *)
Definition seq20_entries : list entry :=
  [Context 0 3 0 3;
   Multi CEqual [OVal (VInt 1)]; Multi CDelete [OVal (VInt 2)];
   Multi CInsert [OVal (VInt 99)]; Multi CEqual [OVal (VInt 3)];
   ContextEndContainer;
   Context 10 13 10 13;
   Multi CEqual [OVal (VInt 11)]; Multi CDelete [OVal (VInt 12)];
   Multi CInsert [OVal (VInt 98)]; Multi CEqual [OVal (VInt 13)];
   ContextEndContainer].

(** The [end] index for [a] of the last opcode of the last chunk. *)
Definition last_end (chunks : list (list Difflib.opcode)) : option Z :=
  match List.last chunks [] with
  | [] => None
  | first :: rest => Some (Difflib.op_i2 (List.last rest first))
  end.

(** The reading of the end marker as one trailing marker: the entries hold
    one [ContextEndContainer] marker when the last opcode ends before the
    end of [a], and none otherwise. *)
Definition one_trailing_marker (a b : list value) (context : Z) (es : list entry) : Prop :=
  forall ha hb, hashable_all a = Ok ha -> hashable_all b = Ok hb ->
    count_markers es
    = match last_end (Difflib.get_grouped_opcodes py_eq ha hb context) with
      | Some i2 => if i2 <? len a then 1%nat else 0%nat
      | None => 0%nat
      end.

(** [{'x': 1, 'y': 2}] *)
Definition dict_xy : list (value * value) :=
  [(VStr "x", VInt 1); (VStr "y", VInt 2)].

(** A dict of five items. *)
Definition dict_five : list (value * value) :=
  [(VInt 1, VInt 10); (VInt 2, VInt 20); (VInt 3, VInt 30); (VInt 4, VInt 40);
   (VInt 5, VInt 50)].

(** [{'b': {'x': n}, 'a': 1}] *)
Definition dict_nested (n : Z) : list (value * value) :=
  [(VStr "b", VDict [(VStr "x", VInt n)]); (VStr "a", VInt 1)].

(** [{1: {'x': n}}] *)
Definition dict_int_key (n : Z) : list (value * value) :=
  [(VInt 1, VDict [(VStr "x", VInt n)])].


(** An [equal] entry of one item of a dict. *)
Definition equal_item (e : entry) : Prop :=
  exists key v, e = Multi CEqual [dictitem key v].

(** ** Vocabulary for the sequence matcher *)

(** The positions of the elements of [ys] that are equal to [x], counted
    from [j]: what [b2j] holds for [x] before the popular elements are
    deleted. *)
Fixpoint indices_from {A : Type} (eqb : A -> A -> bool) (j : Z) (ys : list A) (x : A)
  : list Z :=
  match ys with
  | [] => []
  | y :: ys' =>
      if eqb y x then j :: indices_from eqb (j + 1) ys' x
      else indices_from eqb (j + 1) ys' x
  end.

(** No key of the dict is equal to a later key. *)
Fixpoint keys_apart {A B : Type} (eqb : A -> A -> bool) (m : list (A * B)) : Prop :=
  match m with
  | [] => True
  | e :: rest =>
      (forall e', In e' rest -> eqb (fst e) (fst e') = false) /\ keys_apart eqb rest
  end.

(** [eqb] is an equivalence on the elements of [xs]. *)
Definition equivalence_on {A : Type} (eqb : A -> A -> bool) (xs : list A) : Prop :=
  (forall x, In x xs -> eqb x x = true)
  /\ (forall x y, In x xs -> In y xs -> eqb x y = true -> eqb y x = true)
  /\ (forall x y z, In x xs -> In y xs -> In z xs ->
                    eqb x y = true -> eqb y z = true -> eqb x z = true).

(** The number of rows in a row, up to the row [i], whose list of columns
    is not empty: the length of the match that ends on the diagonal at
    [(i, i)] when a sequence is matched with itself. *)
Fixpoint run_nat (row : Z -> list Z) (i : nat) : Z :=
  match row (Z.of_nat i) with
  | [] => 0
  | _ => 1 + match i with O => 0 | S i' => run_nat row i' end
  end.

Definition run (row : Z -> list Z) (i : Z) : Z :=
  if i <? 0 then 0 else run_nat row (Z.to_nat i).

(** A value without a set, a frozenset or a dict inside: scalars, and lists
    and tuples of such values. *)
Fixpoint plain (v : value) : bool :=
  match v with
  | VList xs | VTuple xs => forallb plain xs
  | VDict _ | VSet _ | VFrozenset _ => false
  | _ => true
  end.

(** An unhashable object among the leaves of nested lists and tuples. *)
Fixpoint has_unhashable_leaf (v : value) : bool :=
  match v with
  | VObj _ => true
  | VList xs | VTuple xs => existsb has_unhashable_leaf xs
  | _ => false
  end.

(** ** Vocabulary for the exceptions and the entries of a result *)

(** The exceptions that can reach the caller of [diff]: [NotSequence] and
    the exceptions of a callable are caught on the way. *)
Definition surfaces (e : exn) : bool :=
  match e with
  | NotSequence _ | Raised _ | OutOfFuel => false
  | _ => true
  end.

(** Every item of the run is an element of [xs]. *)
Definition items_from (xs : list value) (items : list obj) : Prop :=
  forall o, In o items -> exists x, In x xs /\ o = OVal x.

(** An entry of a diff of the sequences [a] and [b]: the items of a
    [delete] or an [equal] run are elements of [a], the items of an
    [insert] run are elements of [b], and a nested diff is not empty. *)
Definition entry_from (a b : list value) (e : entry) : Prop :=
  match e with
  | Context _ _ _ _ | ContextEndContainer => True
  | Nested o => obj_bool o = true
  | Multi CInsert items => items_from b items
  | Multi _ items => items_from a items
  end.

(** An entry of a diff of the dicts [a] and [b]: a run of one [dictitem]
    under a key of [a] ([delete]) or with an item of [b] ([insert],
    [equal]), or a [dictitem] that holds a diff that is not empty, with its
    attribute [depth] set, under a key of [a]. *)
Definition dict_entry_from (a b : list (value * value)) (e : entry) : Prop :=
  match e with
  | ContextEndContainer => True
  | Context _ _ _ _ => False
  | Nested o =>
      exists key nested depth,
        o = ODictItem key nested (Some depth)
        /\ In key (map fst a) /\ obj_bool nested = true
  | Multi CDelete items =>
      exists key v, items = [dictitem key v] /\ In key (map fst a)
  | Multi _ items =>
      exists key v, items = [dictitem key v] /\ lookup key b = Some v
  end.


(** What a [DataDiff] holds beside its entries: the type, the two
    delimiters and the two labels. *)
Definition header (d : DataDiff) : pytype * string * string * string * string :=
  let '(mkDataDiff t s e f g _) := d in (t, s, e, f, g).

(** The delimiters [diff] gives the tree of two values of type [t]. *)
Definition delimiters (t : pytype) : string * string :=
  match t with
  | TList => ("[", "]")
  | TTuple => ("(", ")")
  | TDict => ("{", "}")
  | _ => ((type_name t ++ "([")%string, "])")
  end.


(** ** Vocabulary for the truth value of a tree and the [replace] opcode *)

(** The invariant of the tree with its last clause read as it ordinarily
    reads: an entry counts when it is a [delete] or an [insert] run, and a
    [Nested] entry counts unless its embedded tree is empty. *)
Definition counts_unless_empty (e : entry) : bool :=
  match e with
  | Nested o => obj_bool o
  | _ => DD.is_real_change e
  end.

Definition emptiness_as_stated (d : DataDiff) : Prop :=
  DD.__bool__ d = existsb counts_unless_empty (DD.diffs d).

(** A tree whose only entry is a [Nested] entry that embeds a tree without
    entries. *)
Definition nested_empty_tree : DataDiff :=
  mkDataDiff TList "[" "]" "a" "b"
             [Nested (ODiff (mkDataDiff TList "[" "]" "a" "b" []))].

(** What becomes of a pair of elements of a [replace] opcode, in the words
    of the description: it is skipped when the callable accepts it or when
    its recursive diff is empty, its diff is nested when it is not empty,
    and the pair is buffered when the recursive diff raises a type
    mismatch. *)
Inductive pair_fate : Type :=
| Skipped
| Nests (nested_diff : obj)
| Buffered.

Definition fate_of (call : string -> value -> value + value) (rec : differ)
           (context depth : Z) (compare_with_func : bool) (p : value * value)
  : result pair_fate :=
  let '(a2, b2) := p in
  accepted <- compares_with_func call a2 b2 ;;
  if accepted then Ok Skipped
  else
    match rec a2 b2 context (depth + 1) "a" "b" compare_with_func with
    | Ok nested_diff => Ok (if obj_bool nested_diff then Nests nested_diff else Skipped)
    | Err e => if is_DiffTypeError e then Ok Buffered else Err e
    end.

(** The fates of the pairs in their order, up to the first that raises. *)
Fixpoint fates_of (call : string -> value -> value + value) (rec : differ)
         (context depth : Z) (compare_with_func : bool) (pairs : list (value * value))
  : result (list (value * value * pair_fate)) :=
  match pairs with
  | [] => Ok []
  | p :: rest =>
      f <- fate_of call rec context depth compare_with_func p ;;
      fs <- fates_of call rec context depth compare_with_func rest ;;
      Ok ((p, f) :: fs)
  end.

(** The entries after the pairs: the buffered deletes, the tail of [a]
    that was not paired when [a] is the longer side, the buffered inserts,
    and the tail of [b] when [b] is the longer side. *)
Definition replace_tails (a b : list value) (i1 i2 j1 j2 : Z)
           (deletes inserts : list value) : list entry :=
  [Multi CDelete (map OVal deletes)]
  ++ (if j2 - j1 <? i2 - i1
      then [Multi CDelete (map OVal (slice a (i1 + (j2 - j1)) i2))] else [])
  ++ [Multi CInsert (map OVal inserts)]
  ++ (if i2 - i1 <? j2 - j1
      then [Multi CInsert (map OVal (slice b (j1 + (i2 - i1)) j2))] else []).

(** The entries of a [replace] opcode, from the fates of its pairs and the
    two buffers: a buffered pair waits in the buffers, a nested diff is
    preceded by the [delete] run and the [insert] run of the buffers, which
    it empties, and the [tails] close the opcode. *)
Fixpoint replace_entries (tails : list value -> list value -> list entry)
         (fates : list (value * value * pair_fate)) (deletes inserts : list value)
  : list entry :=
  match fates with
  | [] => tails deletes inserts
  | (_, Skipped) :: rest => replace_entries tails rest deletes inserts
  | ((a2, b2), Buffered) :: rest =>
      replace_entries tails rest (deletes ++ [a2]) (inserts ++ [b2])
  | (_, Nests nested_diff) :: rest =>
      Multi CDelete (map OVal deletes) :: Multi CInsert (map OVal inserts)
      :: Nested nested_diff :: replace_entries tails rest [] []
  end.

(** A pair was buffered or nested: [realy_diffs] is set. *)
Definition changes (fates : list (value * value * pair_fate)) : bool :=
  existsb (fun pf => match snd pf with Skipped => false | _ => true end) fates.

(** No element of one list is equal to an element of the other. *)
Definition no_common_element (xs ys : list value) : Prop :=
  forall x y, In x xs -> In y ys -> py_eq x y = false /\ py_eq y x = false.


(* ================================================================== *)
(** * Properties *)

(** ** The diff tree *)

Lemma filter_nil_iff {A : Type} (f : A -> bool) (xs : list A) :
  filter f xs = [] <-> forall x, In x xs -> f x = false.
Proof.
  induction xs as [|x xs IH]; simpl.
  - split; [intros _ y [] | reflexivity].
  - destruct (f x) eqn:Hx.
    + split; [discriminate|].
      intros H. rewrite (H x (or_introl eq_refl)) in Hx. discriminate.
    + rewrite IH. split.
      * intros H y [<-|Hy]; auto.
      * intros H y Hy. apply H. now right.
Qed.

Lemma is_real_change_neutral (e : entry) : DD.is_real_change e = false <-> neutral e.
Proof.
  split.
  - destruct e as [a1 a2 b1 b2| |o|[] items]; cbn; intros H;
      try discriminate; constructor.
  - intros []; reflexivity.
Qed.

Lemma bool_false_iff (d : DataDiff) :
  DD.__bool__ d = false <-> forall e, In e (DD.diffs d) -> neutral e.
Proof.
  unfold DD.__bool__.
  destruct (filter DD.is_real_change (DD.diffs d)) eqn:Hf.
  - split; [intros _ | reflexivity].
    intros e He. apply is_real_change_neutral.
    now apply (proj1 (filter_nil_iff _ _) Hf).
  - split; [discriminate|]. intros H.
    assert (Hin : In e (filter DD.is_real_change (DD.diffs d))) by (rewrite Hf; now left).
    apply filter_In in Hin. destruct Hin as [Hin Hreal].
    apply H, is_real_change_neutral in Hin. congruence.
Qed.

(** Every [Nested] entry is counted, whatever it embeds. *)
Lemma nested_entry_counts (d : DataDiff) (o : obj) :
  In (Nested o) (DD.diffs d) -> DD.__bool__ d = true.
Proof.
  intros Hin. destruct (DD.__bool__ d) eqn:Hb; [reflexivity|].
  apply (proj1 (bool_false_iff d)) in Hin; [inversion Hin | exact Hb].
Qed.

(** C4, as the code has it.  A diff tree is semantically empty ([__bool__]
    answers false) if and only if every entry is an [equal] run, a
    [Context] marker or a [ContextEndContainer] marker; a [Nested] entry
    always counts, whether the tree it embeds is empty or not. *)
Theorem emptiness_invariant (d : DataDiff) :
  (DD.__bool__ d = false <-> forall e, In e (DD.diffs d) -> neutral e)
  /\ (forall o, In (Nested o) (DD.diffs d) -> DD.__bool__ d = true).
Proof.
  split.
  - apply bool_false_iff.
  - intros o Hin. now apply nested_entry_counts with o.
Qed.

(** C10.  A tree without entries renders as the empty string at every
    depth, with or without the preamble: neither the [---]/[+++] lines nor
    the delimiters are written. *)
Theorem stringify_no_entries (repr : value -> string) (repr_object : string)
        (d : DataDiff) (depth : Z) (include_preamble : bool) :
  DD.diffs d = [] ->
  DD.stringify repr repr_object d depth include_preamble = "".
Proof.
  destruct d as [t s e f g ds]. simpl. intros ->. reflexivity.
Qed.

Lemma stringify_no_entries_witness :
  DD.diffs (DD.__init__ TList (Some ("[", "]")) "a" "b") = []
  /\ DD.stringify (fun _ => "?") "<DataDiff>"
                  (DD.__init__ TList (Some ("[", "]")) "a" "b") 0 true = "".
Proof.
  split; [reflexivity|].
  apply (stringify_no_entries (fun _ => "?") "<DataDiff>"
           (DD.__init__ TList (Some ("[", "]")) "a" "b") 0 true).
  reflexivity.
Defined.

(** ** The dispatcher *)

Section DispatcherProperties.
Variable call : string -> value -> value + value.
Variable py_hash : value -> Z.

(** C8.  Two strings without a line break are refused with
    [DiffNotImplementedForType(str)], whatever the options and whatever the
    recursive calls would do: no differ is entered. *)
Theorem single_line_text_refused (s t : string) (context depth : Z)
        (fromfile tofile : string) (compare_with_func : bool) :
  has_newline s = false -> has_newline t = false ->
  diff call py_hash (VStr s) (VStr t) context depth fromfile tofile compare_with_func
  = Err (DiffNotImplementedForType TStr)
  /\ forall rec : differ,
      diff_body call py_hash rec (VStr s) (VStr t) context depth fromfile tofile
                compare_with_func
      = Err (DiffNotImplementedForType TStr).
Proof.
  intros Hs Ht. split; [|intros rec]; cbn; rewrite Hs, Ht; reflexivity.
Qed.

(** Two strings one of which has a line break are diffed as text, whatever
    the other one is. *)
Lemma text_with_line_break_is_diffed (s t : string) (context depth : Z)
      (fromfile tofile : string) (compare_with_func : bool) :
  has_newline s || has_newline t = true ->
  diff call py_hash (VStr s) (VStr t) context depth fromfile tofile compare_with_func
  = Ok (OVal (VStr (unified_diff_strings s t fromfile tofile context))).
Proof. intros H. unfold diff. cbn [diff_fuel]. unfold diff_body. now rewrite H. Qed.


Lemma type_mismatch_not_strings (a b : value) :
  type_of a <> type_of b ->
  forall rec context depth fromfile tofile compare_with_func,
    diff_body call py_hash rec a b context depth fromfile tofile compare_with_func
    = if compare_with_func && callable a then
        let ddiff := DD.__init__ (type_of b) None fromfile tofile in
        match compares_with_func call a b with
        | Ok false => Ok (ODiff (DD.insert (DD.delete ddiff (OVal a)) (OVal b)))
        | Ok true => Ok (ODiff (DD.equal ddiff (OVal b)))
        | Err (Raised e) => Ok (ODiff (DD.insert (DD.delete ddiff (OVal e)) (OVal b)))
        | Err e => Err e
        end
      else Err (DiffTypeError fromfile tofile a b).
Proof.
  intros Hty rec context depth fromfile tofile cwf.
  assert (Hneq : pytype_eqb (type_of a) (type_of b) = false).
  { destruct (type_of a), (type_of b); try reflexivity; now elim Hty. }
  unfold diff_body.
  destruct a, b; try (now elim Hty); cbn [negb]; rewrite Hneq; reflexivity.
Qed.

(** C9.  When the two values are of different types: with the option
    [compare_with_func] on and a callable [a], the result is a tree of type
    [type(b)] that holds one [equal] entry of [b] if [a(b)] is true, the
    pair [delete(a)], [insert(b)] if [a(b)] is false, and the pair
    [delete(e)], [insert(b)] if [a(b)] raises [e]; with the option off, or
    with an [a] that is not callable, [diff] raises [DiffTypeError], whose
    message is formatted from the two labels, types and values. *)
Theorem variant_mismatch_fallback (a b : value) (context depth : Z)
        (fromfile tofile : string) (compare_with_func : bool) :
  type_of a <> type_of b ->
  let result := diff call py_hash a b context depth fromfile tofile compare_with_func in
  let tree := mkDataDiff (type_of b) (type_name (type_of b) ++ "([")%string "])"
                         fromfile tofile in
  (forall f r, compare_with_func = true -> a = VFun f -> call f b = inl r ->
               truthy r = true ->
               result = Ok (ODiff (tree [Multi CEqual [OVal b]])))
  /\ (forall f r, compare_with_func = true -> a = VFun f -> call f b = inl r ->
                  truthy r = false ->
                  result = Ok (ODiff (tree [Multi CDelete [OVal a]; Multi CInsert [OVal b]])))
  /\ (forall f e, compare_with_func = true -> a = VFun f -> call f b = inr e ->
                  result = Ok (ODiff (tree [Multi CDelete [OVal e]; Multi CInsert [OVal b]])))
  /\ (compare_with_func = false \/ callable a = false ->
      result = Err (DiffTypeError fromfile tofile a b)).
Proof.
  intros Hty result tree. subst result. unfold diff. cbn [diff_fuel].
  rewrite (type_mismatch_not_strings a b Hty).
  repeat split.
  - intros f r -> -> Hcall Hr. cbn. rewrite Hcall, Hr. reflexivity.
  - intros f r -> -> Hcall Hr. cbn. rewrite Hcall, Hr. reflexivity.
  - intros f e -> -> Hcall. cbn. rewrite Hcall. reflexivity.
  - intros [-> | ->]; [reflexivity | now rewrite andb_false_r].
Qed.

End DispatcherProperties.

(** ** Slices and loops *)

Lemma slice_inside {A : Type} (xs : list A) (lo hi : Z) :
  0 <= lo <= hi -> hi <= len xs ->
  slice xs lo hi = firstn (Z.to_nat (hi - lo)) (skipn (Z.to_nat lo) xs).
Proof.
  intros Hlo Hhi. unfold slice, slice_bound.
  destruct (Z.ltb_spec lo 0); [lia|].
  destruct (Z.ltb_spec hi 0); [lia|].
  now rewrite !Z.min_l by lia.
Qed.

Lemma slice_length {A : Type} (xs : list A) (lo hi : Z) :
  0 <= lo <= hi -> hi <= len xs -> len (slice xs lo hi) = hi - lo.
Proof.
  intros Hlo Hhi. rewrite slice_inside by assumption.
  unfold len in *. rewrite length_firstn, length_skipn. lia.
Qed.

Lemma slice_item {A : Type} (xs : list A) (lo hi k : Z) :
  0 <= lo <= hi -> hi <= len xs -> 0 <= k < hi - lo ->
  nth_error (slice xs lo hi) (Z.to_nat k) = Difflib.item xs (lo + k).
Proof.
  intros Hlo Hhi Hk. rewrite slice_inside by assumption.
  unfold Difflib.item. destruct (Z.ltb_spec (lo + k) 0); [lia|].
  rewrite nth_error_firstn, nth_error_skipn.
  destruct (Nat.ltb_spec (Z.to_nat k) (Z.to_nat (hi - lo))); [|lia].
  f_equal. lia.
Qed.

Lemma slice_split {A : Type} (xs : list A) (lo mid hi : Z) :
  0 <= lo <= mid -> mid <= hi -> hi <= len xs ->
  slice xs lo hi = slice xs lo mid ++ slice xs mid hi.
Proof.
  intros Hlo Hmid Hhi. rewrite !slice_inside by lia.
  replace (Z.to_nat (hi - lo)) with (Z.to_nat (mid - lo) + Z.to_nat (hi - mid))%nat by lia.
  replace (Z.to_nat mid) with (Z.to_nat (mid - lo) + Z.to_nat lo)%nat by lia.
  rewrite <- skipn_skipn.
  generalize (skipn (Z.to_nat lo) xs) as l.
  generalize (Z.to_nat (hi - mid)) as m.
  induction (Z.to_nat (mid - lo)) as [|n IH]; intros m l; [reflexivity|].
  destruct l as [|x l]; simpl.
  - now rewrite firstn_nil.
  - now rewrite IH.
Qed.

Lemma slice_prefix {A : Type} (xs : list A) (lo hi n : Z) :
  0 <= lo <= hi -> hi <= len xs -> 0 <= n <= hi - lo ->
  firstn (Z.to_nat n) (slice xs lo hi) = slice xs lo (lo + n).
Proof.
  intros Hlo Hhi Hn. rewrite !slice_inside by lia.
  rewrite firstn_firstn. f_equal. lia.
Qed.

Lemma map_fst_combine {A B : Type} (xs : list A) (ys : list B) :
  map fst (combine xs ys) = firstn (List.length ys) xs.
Proof.
  revert ys. induction xs as [|x xs IH]; intros [|y ys]; simpl; try reflexivity.
  now rewrite IH.
Qed.

Lemma map_snd_combine {A B : Type} (xs : list A) (ys : list B) :
  map snd (combine xs ys) = firstn (List.length xs) ys.
Proof.
  revert ys. induction xs as [|x xs IH]; intros [|y ys]; simpl; try reflexivity.
  now rewrite IH.
Qed.

Lemma firstn_more {A : Type} (n : nat) (xs : list A) :
  (List.length xs <= n)%nat -> firstn n xs = xs.
Proof. intros H. now apply firstn_all2. Qed.

Lemma for_each_app {A S : Type} (body : A -> S -> result S) (xs ys : list A) (st : S) :
  for_each body (xs ++ ys) st = (st' <- for_each body xs st ;; for_each body ys st').
Proof.
  revert st. induction xs as [|x xs IH]; intros st; simpl; [reflexivity|].
  destruct (body x st) as [st1|e]; simpl; [apply IH | reflexivity].
Qed.

(** A loop raises what its first failing turn raises. *)
Lemma for_each_raises {A S : Type} (body : A -> S -> result S)
      (xs ys : list A) (x : A) (st st1 : S) (e : exn) :
  for_each body xs st = Ok st1 -> body x st1 = Err e ->
  for_each body (xs ++ x :: ys) st = Err e.
Proof.
  intros Hxs Hx. rewrite for_each_app, Hxs. simpl. now rewrite Hx.
Qed.

Lemma diffs_append (d : DataDiff) (e : entry) :
  DD.diffs (DD.append d e) = DD.diffs d ++ [e].
Proof. destruct d; reflexivity. Qed.

Lemma diffs_set_diffs (d : DataDiff) (es : list entry) :
  DD.diffs (DD.set_diffs d es) = es.
Proof. destruct d; reflexivity. Qed.

(** ** The sequence differ: [replace] opcodes *)

Section ReplaceProperties.
Variable call : string -> value -> value + value.
Variable rec : differ.
Variables (context depth : Z) (compare_with_func : bool).

Let pair_step := replace_pair call rec context depth compare_with_func.
Let nested_call (a2 b2 : value) := rec a2 b2 context (depth + 1) "a" "b" compare_with_func.

Lemma replace_pair_callable (a2 b2 : value) (st : replace_state) :
  compares_with_func call a2 b2 = Ok true -> pair_step (a2, b2) st = Ok st.
Proof. intros H. unfold pair_step, replace_pair. now rewrite H. Qed.

Lemma replace_pair_empty (a2 b2 : value) (st : replace_state) (nested_diff : obj) :
  compares_with_func call a2 b2 = Ok false ->
  nested_call a2 b2 = Ok nested_diff -> obj_bool nested_diff = false ->
  pair_step (a2, b2) st = Ok st.
Proof.
  unfold nested_call, pair_step, replace_pair. intros H Hrec Hb.
  rewrite H. simpl. now rewrite Hrec, Hb.
Qed.

Lemma replace_pair_nested (a2 b2 : value) (st : replace_state) (nested_diff : obj) :
  compares_with_func call a2 b2 = Ok false ->
  nested_call a2 b2 = Ok nested_diff -> obj_bool nested_diff = true ->
  exists chunk,
    pair_step (a2, b2) st = Ok (ReplaceState [] [] chunk true)
    /\ DD.diffs chunk
       = DD.diffs (rs_chunk st)
         ++ [Multi CDelete (map OVal (consecutive_deletes st));
             Multi CInsert (map OVal (consecutive_inserts st));
             Nested nested_diff].
Proof.
  unfold nested_call, pair_step, replace_pair. intros H Hrec Hb.
  rewrite H. simpl. rewrite Hrec, Hb. simpl.
  eexists. split; [reflexivity|].
  unfold DD.nested, DD.insert_multi, DD.delete_multi, DD.multi.
  rewrite !diffs_append, <- !app_assoc. reflexivity.
Qed.

Lemma replace_pair_mismatch (a2 b2 : value) (st : replace_state) (e : exn) :
  compares_with_func call a2 b2 = Ok false ->
  nested_call a2 b2 = Err e -> is_DiffTypeError e = true ->
  pair_step (a2, b2) st
  = Ok (ReplaceState (consecutive_deletes st ++ [a2]) (consecutive_inserts st ++ [b2])
                     (rs_chunk st) true).
Proof.
  unfold nested_call, pair_step, replace_pair. intros H Hrec He.
  rewrite H. simpl. now rewrite Hrec, He.
Qed.

(** The loop over the pairs raises exactly what the call of a callable
    element raises, or what the recursive [diff] raises outside the class
    [DiffTypeError]. *)
Lemma replace_pair_raises (a2 b2 : value) (st : replace_state) (e : exn) :
  pair_step (a2, b2) st = Err e <->
  compares_with_func call a2 b2 = Err e
  \/ (compares_with_func call a2 b2 = Ok false
      /\ nested_call a2 b2 = Err e /\ is_DiffTypeError e = false).
Proof.
  unfold nested_call, pair_step, replace_pair.
  destruct (compares_with_func call a2 b2) as [[|]|e0]; simpl.
  - split; [discriminate | intros [H|[H _]]; discriminate].
  - destruct (rec a2 b2 context (depth + 1) "a" "b" compare_with_func) as [nd|e1].
    + split; [|intros [H|[_ [H _]]]; discriminate].
      destruct (obj_bool nd); discriminate.
    + destruct (is_DiffTypeError e1) eqn:He1.
      * split; [discriminate|]. intros [H|[_ [H H']]]; [discriminate|].
        congruence.
      * split.
        -- intros H. right. injection H as <-. auto.
        -- intros [H|[_ [H _]]]; congruence.
  - split; [intros H; left | intros [H|[H _]]; [|discriminate]]; congruence.
Qed.

Lemma replace_finish_entries (a b : list value) (i1 i2 j1 j2 : Z) (st : replace_state) :
  DD.diffs (replace_finish a b i1 i2 j1 j2 st)
  = DD.diffs (rs_chunk st)
    ++ [Multi CDelete (map OVal (consecutive_deletes st))]
    ++ (if j2 - j1 <? i2 - i1
        then [Multi CDelete (map OVal (slice a (i1 + (j2 - j1)) i2))] else [])
    ++ [Multi CInsert (map OVal (consecutive_inserts st))]
    ++ (if i2 - i1 <? j2 - j1
        then [Multi CInsert (map OVal (slice b (j1 + (i2 - i1)) j2))] else []).
Proof.
  unfold replace_finish, DD.insert_multi, DD.delete_multi, DD.multi.
  destruct (j2 - j1 <? i2 - i1), (i2 - i1 <? j2 - j1);
    rewrite !diffs_append, <- ?app_assoc; reflexivity.
Qed.

Lemma zip_slices_length (a b : list value) (i1 i2 j1 j2 : Z) :
  0 <= i1 <= i2 -> i2 <= len a -> 0 <= j1 <= j2 -> j2 <= len b ->
  len (combine (slice a i1 i2) (slice b j1 j2)) = Z.min (i2 - i1) (j2 - j1).
Proof.
  intros Hi1 Hi2 Hj1 Hj2.
  pose proof (slice_length a i1 i2 Hi1 Hi2) as Ha.
  pose proof (slice_length b j1 j2 Hj1 Hj2) as Hb.
  unfold len in *. rewrite length_combine. lia.
Qed.

Lemma zip_slices_item (a b : list value) (i1 i2 j1 j2 k : Z) :
  0 <= i1 <= i2 -> i2 <= len a -> 0 <= j1 <= j2 -> j2 <= len b ->
  0 <= k < Z.min (i2 - i1) (j2 - j1) ->
  exists a2 b2,
    Difflib.item a (i1 + k) = Some a2 /\ Difflib.item b (j1 + k) = Some b2
    /\ nth_error (combine (slice a i1 i2) (slice b j1 j2)) (Z.to_nat k) = Some (a2, b2).
Proof.
  intros Hi1 Hi2 Hj1 Hj2 Hk.
  pose proof (slice_item a i1 i2 k Hi1 Hi2 ltac:(lia)) as Ha.
  pose proof (slice_item b j1 j2 k Hj1 Hj2 ltac:(lia)) as Hb.
  pose proof (slice_length a i1 i2 Hi1 Hi2) as La.
  pose proof (slice_length b j1 j2 Hj1 Hj2) as Lb.
  unfold len in La, Lb.
  destruct (nth_error (slice a i1 i2) (Z.to_nat k)) as [a2|] eqn:Ea.
  2:{ apply nth_error_None in Ea. lia. }
  destruct (nth_error (slice b j1 j2) (Z.to_nat k)) as [b2|] eqn:Eb.
  2:{ apply nth_error_None in Eb. lia. }
  exists a2, b2. repeat split; try congruence.
  clear Ha Hb La Lb. revert Ea Eb.
  generalize (Z.to_nat k) as n, (slice a i1 i2) as xs, (slice b j1 j2) as ys.
  induction n as [|n IH]; intros [|x xs] [|y ys]; simpl; try discriminate.
  - congruence.
  - apply IH.
Qed.

Lemma zip_slices_tails (a b : list value) (i1 i2 j1 j2 : Z) :
  0 <= i1 <= i2 -> i2 <= len a -> 0 <= j1 <= j2 -> j2 <= len b ->
  let pairs := combine (slice a i1 i2) (slice b j1 j2) in
  let n := Z.min (i2 - i1) (j2 - j1) in
  slice a i1 i2 = map fst pairs ++ slice a (i1 + n) i2
  /\ slice b j1 j2 = map snd pairs ++ slice b (j1 + n) j2.
Proof.
  intros Hi1 Hi2 Hj1 Hj2 pairs n. subst pairs.
  pose proof (slice_length a i1 i2 Hi1 Hi2) as La.
  pose proof (slice_length b j1 j2 Hj1 Hj2) as Lb.
  unfold len in La, Lb.
  rewrite map_fst_combine, map_snd_combine. split.
  - rewrite (slice_split a i1 (i1 + n) i2) at 1 by lia. f_equal.
    destruct (Z.le_ge_cases (i2 - i1) (j2 - j1)).
    + rewrite firstn_more by lia. f_equal. lia.
    + replace (List.length (slice b j1 j2)) with (Z.to_nat n) by lia.
      symmetry. apply slice_prefix; lia.
  - rewrite (slice_split b j1 (j1 + n) j2) at 1 by lia. f_equal.
    destruct (Z.le_ge_cases (j2 - j1) (i2 - i1)).
    + rewrite firstn_more by lia. f_equal. lia.
    + replace (List.length (slice a i1 i2)) with (Z.to_nat n) by lia.
      symmetry. apply slice_prefix; lia.
Qed.

End ReplaceProperties.

(** ** Equality of values *)

Lemma py_eq_refl (v : value) : py_eq v v = true.
Proof.
  induction v as [ | n | s | xs IH | xs IH | kvs IH | xs IH | xs IH | f | m | i ]
    using value_ind; simpl.
  - reflexivity.
  - apply Z.eqb_refl.
  - apply String.eqb_refl.
  - induction IH as [|x Hx xs _ IHxs]; [reflexivity|]. now rewrite Hx, IHxs.
  - induction IH as [|x Hx xs _ IHxs]; [reflexivity|]. now rewrite Hx, IHxs.
  - rewrite Nat.eqb_refl. simpl.
    assert (Hincl : incl kvs kvs) by apply incl_refl.
    revert Hincl. generalize kvs at 2 4 as kvs'.
    induction IH as [|[k v] Hkv rest _ IHrest]; intros kvs' Hincl; [reflexivity|].
    rewrite IHrest by (intros x Hx; apply Hincl; now right).
    rewrite andb_true_r. apply existsb_exists. exists (k, v). split.
    + apply Hincl. now left.
    + inversion Hkv as [k' Hk v' Hv]; subst. simpl. now rewrite Hk, Hv.
  - rewrite Nat.eqb_refl. simpl.
    assert (Hincl : incl xs xs) by apply incl_refl.
    revert Hincl. generalize xs at 2 4 as ys.
    induction IH as [|x Hx rest _ IHrest]; intros ys Hincl; [reflexivity|].
    rewrite IHrest by (intros y Hy; apply Hincl; now right).
    rewrite andb_true_r. apply existsb_exists. exists x. split; [|exact Hx].
    apply Hincl. now left.
  - rewrite Nat.eqb_refl. simpl.
    assert (Hincl : incl xs xs) by apply incl_refl.
    revert Hincl. generalize xs at 2 4 as ys.
    induction IH as [|x Hx rest _ IHrest]; intros ys Hincl; [reflexivity|].
    rewrite IHrest by (intros y Hy; apply Hincl; now right).
    rewrite andb_true_r. apply existsb_exists. exists x. split; [|exact Hx].
    apply Hincl. now left.
  - apply String.eqb_refl.
  - apply String.eqb_refl.
  - apply String.eqb_refl.
Qed.

Lemma member_In (x : value) (xs : list value) : In x xs -> member x xs = true.
Proof.
  intros H. apply existsb_exists. exists x. split; [assumption | apply py_eq_refl].
Qed.

Lemma difference_self (xs : list value) : difference xs xs = [].
Proof.
  unfold difference. apply filter_nil_iff. intros x Hx. now rewrite member_In.
Qed.

Lemma intersection_self (xs : list value) : intersection xs xs = xs.
Proof.
  unfold intersection. apply forallb_filter_id, forallb_forall.
  intros x Hx. now apply member_In.
Qed.

(** ** The sequence differ: chunks and end markers *)

Lemma count_markers_app (xs ys : list entry) :
  count_markers (xs ++ ys) = (count_markers xs + count_markers ys)%nat.
Proof. unfold count_markers. now rewrite filter_app, length_app. Qed.

Lemma grows_refl (d : DataDiff) : grows d d.
Proof. exists []. now rewrite app_nil_r. Qed.

Lemma grows_trans (d1 d2 d3 : DataDiff) : grows d1 d2 -> grows d2 d3 -> grows d1 d3.
Proof.
  intros [e1 [H1 C1]] [e2 [H2 C2]]. exists (e1 ++ e2). split.
  - now rewrite H2, H1, app_assoc.
  - rewrite count_markers_app. now rewrite C1, C2.
Qed.

Lemma grows_append (d : DataDiff) (e : entry) :
  is_marker e = false -> grows d (DD.append d e).
Proof.
  intros He. exists [e]. split; [apply diffs_append|].
  unfold count_markers. simpl. now rewrite He.
Qed.

Lemma for_each_invariant {A S : Type} (body : A -> S -> result S) (P : S -> Prop) :
  (forall x st st', P st -> body x st = Ok st' -> P st') ->
  forall xs st st', P st -> for_each body xs st = Ok st' -> P st'.
Proof.
  intros Hstep xs. induction xs as [|x xs IH]; intros st st' HP; simpl.
  - now intros [= <-].
  - destruct (body x st) as [st1|e] eqn:Hx; simpl; [|discriminate].
    apply IH. now apply Hstep with x st.
Qed.

Section ChunkProperties.
Variable call : string -> value -> value + value.
Variable rec : differ.
Variables (context depth : Z) (compare_with_func : bool).

Let pair_step := replace_pair call rec context depth compare_with_func.
Let opcode_step := diff_seq_opcode call rec context depth compare_with_func.
Let chunk_step := diff_seq_chunk call rec context depth compare_with_func.
Let step := diff_seq_step call rec context depth compare_with_func.

Lemma replace_pair_grows (p : value * value) (st st' : replace_state) :
  pair_step p st = Ok st' ->
  grows (rs_chunk st) (rs_chunk st')
  /\ (rs_realy_diffs st = true -> rs_realy_diffs st' = true).
Proof.
  destruct p as [a2 b2]. unfold pair_step, replace_pair.
  destruct (compares_with_func call a2 b2) as [[|]|e0]; simpl; try discriminate.
  - intros [= <-]. split; [apply grows_refl | auto].
  - destruct (rec a2 b2 context (depth + 1) "a" "b" compare_with_func) as [nd|e1].
    + destruct (obj_bool nd); simpl; intros [= <-]; simpl.
      * split; [|reflexivity].
        eapply grows_trans; [|apply grows_append; reflexivity].
        eapply grows_trans; apply grows_append; reflexivity.
      * split; [apply grows_refl | auto].
    + destruct (is_DiffTypeError e1); [|discriminate].
      intros [= <-]. simpl. split; [apply grows_refl | reflexivity].
Qed.

Lemma replace_finish_grows (a b : list value) (i1 i2 j1 j2 : Z) (st : replace_state) :
  grows (rs_chunk st) (replace_finish a b i1 i2 j1 j2 st).
Proof.
  unfold replace_finish.
  destruct (j2 - j1 <? i2 - i1), (i2 - i1 <? j2 - j1);
    repeat (eapply grows_trans; [|apply grows_append; reflexivity]);
    apply grows_refl.
Qed.

Lemma diff_seq_opcode_grows (a b : list value) (c : Difflib.opcode)
      (st st' : DataDiff * bool) :
  opcode_step a b c st = Ok st' ->
  grows (fst st) (fst st') /\ (snd st = true -> snd st' = true).
Proof.
  destruct st as [chunk realy], c as [t i1 i2 j1 j2].
  unfold opcode_step, diff_seq_opcode.
  destruct t; try (intros [= <-]; simpl; split;
                   [apply grows_append; reflexivity | auto]).
  unfold diff_seq_replace. fold pair_step.
  destruct (for_each pair_step (combine (slice a i1 i2) (slice b j1 j2))
                     (ReplaceState [] [] chunk realy)) as [st1|e] eqn:Hloop;
    simpl; [|discriminate].
  intros [= <-]. simpl.
  assert (Hinv : grows chunk (rs_chunk st1)
                 /\ (realy = true -> rs_realy_diffs st1 = true)).
  { refine (for_each_invariant pair_step
              (fun s => grows chunk (rs_chunk s)
                        /\ (realy = true -> rs_realy_diffs s = true))
              _ _ _ _ _ Hloop).
    - intros x s s' [Hg Hr] Hs.
      destruct (replace_pair_grows x s s' Hs) as [Hg' Hr'].
      split; [now apply grows_trans with (rs_chunk s) | auto].
    - simpl. split; [apply grows_refl | auto]. }
  destruct Hinv as [Hg Hr].
  split; [|exact Hr].
  eapply grows_trans; [exact Hg | apply replace_finish_grows].
Qed.

Lemma diffs_clone_context (ddiff : DataDiff) (e : entry) :
  DD.diffs (DD.append (DD.clone ddiff) e) = [e].
Proof. destruct ddiff; reflexivity. Qed.

(** The entries one chunk gives: its [Context] entry, entries that are not
    markers, and the marker when the chunk ends before the end of [a]. *)
Lemma diff_seq_chunk_entries (a b : list value) (ddiff : DataDiff)
      (chunk : list Difflib.opcode) (chunk_ddiff : DataDiff) (realy_diffs : bool) :
  chunk_step a b ddiff chunk = Ok (chunk_ddiff, realy_diffs) ->
  exists ctx body,
    chunk_context chunk = Some ctx
    /\ count_markers body = 0%nat
    /\ DD.diffs chunk_ddiff
       = ctx :: body ++ (if ends_before a chunk then [ContextEndContainer] else [])
    /\ (compare_with_func = false -> realy_diffs = true).
Proof.
  unfold chunk_step, diff_seq_chunk. destruct chunk as [|first rest]; [discriminate|].
  set (last := List.last (first :: rest) first).
  set (start := DD.context (DD.clone ddiff) _ _ _ _).
  fold opcode_step.
  destruct (for_each (opcode_step a b) (first :: rest) (start, negb compare_with_func))
    as [[c1 r1]|e] eqn:Hloop; [|discriminate].
  cbn [bind]. intros [= <- <-].
  assert (Hinv : grows start c1 /\ (compare_with_func = false -> r1 = true)).
  { refine (for_each_invariant (opcode_step a b)
              (fun s => grows start (fst s)
                        /\ (compare_with_func = false -> snd s = true))
              _ _ _ _ _ Hloop).
    - intros x s s' [Hg Hr] Hs.
      destruct (diff_seq_opcode_grows a b x s s' Hs) as [Hg' Hr'].
      split; [now apply grows_trans with (fst s) | auto].
    - simpl. split; [apply grows_refl | now intros ->]. }
  destruct Hinv as [[body [Hbody Hcount]] Hr].
  simpl in Hbody, Hr.
  eexists. exists body. split; [reflexivity|]. split; [exact Hcount|]. split; [|exact Hr].
  unfold ends_before. fold last. unfold start, DD.context in Hbody.
  rewrite diffs_clone_context in Hbody.
  destruct (Difflib.op_i2 last <? len a).
  - unfold DD.context_end_container. rewrite diffs_append, Hbody. reflexivity.
  - rewrite Hbody, app_nil_r. reflexivity.
Qed.

Lemma diff_seq_chunk_set_diffs (a b : list value) (ddiff : DataDiff) (es : list entry)
      (chunk : list Difflib.opcode) :
  chunk_step a b (DD.set_diffs ddiff es) chunk = chunk_step a b ddiff chunk.
Proof. destruct ddiff. reflexivity. Qed.

Let kept := chunk_kept call rec context depth compare_with_func.

(** The markers of the tree after the loop over the chunks. *)
Lemma markers_of_kept_chunks (a b : list value) (chunks : list (list Difflib.opcode))
      (ddiff tree : DataDiff) :
  for_each (step a b) chunks ddiff = Ok tree ->
  count_markers (DD.diffs tree)
  = (count_markers (DD.diffs ddiff)
     + List.length (filter (fun chunk => kept a b ddiff chunk && ends_before a chunk)
                           chunks))%nat.
Proof.
  revert ddiff. induction chunks as [|chunk chunks IH]; intros ddiff; simpl.
  - intros [= <-]. lia.
  - unfold step at 1, diff_seq_step. fold chunk_step.
    destruct (chunk_step a b ddiff chunk) as [[chunk_ddiff realy]|e] eqn:Hchunk;
      [|discriminate].
    cbn [bind]. fold step.
    set (next := if realy then _ else _).
    assert (Hnext : exists es, next = DD.set_diffs ddiff es
                               /\ es = DD.diffs ddiff
                                        ++ (if realy then DD.diffs chunk_ddiff else [])).
    { subst next. destruct realy; eexists; split; try reflexivity.
      rewrite app_nil_r. now destruct ddiff. }
    destruct Hnext as [es [Hnext Hes]].
    intros Hrest. pose proof (IH next Hrest) as Hcount.
    assert (Hkept : forall c, kept a b next c = kept a b ddiff c).
    { intros c. unfold kept, chunk_kept. fold chunk_step.
      now rewrite Hnext, diff_seq_chunk_set_diffs. }
    assert (Hthis : kept a b ddiff chunk = realy).
    { unfold kept, chunk_kept. fold chunk_step. now rewrite Hchunk. }
    destruct (diff_seq_chunk_entries a b ddiff chunk chunk_ddiff realy Hchunk)
      as [ctx [body [Hctx [Hbody [Hentries _]]]]].
    rewrite Hcount.
    rewrite (filter_ext _ (fun c => kept a b ddiff c && ends_before a c))
      by (intros c; cbv beta; now rewrite Hkept).
    rewrite Hnext, diffs_set_diffs, Hes, count_markers_app.
    rewrite Hthis. destruct realy; simpl.
    + rewrite Hentries.
      change (ctx :: body ++ ?t) with ([ctx] ++ body ++ t).
      rewrite !count_markers_app, Hbody.
      replace (count_markers [ctx]) with 0%nat
        by (destruct chunk; [discriminate | now injection Hctx as <-]).
      destruct (ends_before a chunk); simpl;
        [change (count_markers [ContextEndContainer]) with 1%nat
        |change (count_markers []) with 0%nat]; lia.
    + unfold count_markers at 2. simpl. lia.
Qed.

(** C7, as the code has it.  Every chunk of grouped opcodes is diffed into
    entries of its own: its [Context] entry, entries that are not markers,
    and at their end one [ContextEndContainer] marker exactly when the last
    opcode of that chunk ends before the end of [a].  The entries of the
    chunks that are kept are appended to the tree one chunk after the
    other, so the tree receives one marker for each kept chunk that ends
    before the end of [a]. *)
Theorem end_marker_per_chunk (a b : list value) (chunks : list (list Difflib.opcode))
        (ddiff tree : DataDiff) :
  for_each (step a b) chunks ddiff = Ok tree ->
  count_markers (DD.diffs tree)
  = (count_markers (DD.diffs ddiff)
     + List.length (filter (fun chunk => kept a b ddiff chunk && ends_before a chunk)
                           chunks))%nat
  /\ forall chunk, In chunk chunks ->
       exists chunk_ddiff ctx body,
         chunk_step a b ddiff chunk = Ok (chunk_ddiff, kept a b ddiff chunk)
         /\ chunk_context chunk = Some ctx
         /\ count_markers body = 0%nat
         /\ DD.diffs chunk_ddiff
            = ctx :: body ++ (if ends_before a chunk then [ContextEndContainer] else []).
Proof.
  revert ddiff. induction chunks as [|chunk chunks IH]; intros ddiff; simpl.
  - intros [= <-]. split; [lia | intros chunk []].
  - unfold step at 1, diff_seq_step. fold chunk_step.
    destruct (chunk_step a b ddiff chunk) as [[chunk_ddiff realy]|e] eqn:Hchunk;
      [|discriminate].
    cbn [bind]. fold step.
    set (next := if realy then _ else _).
    assert (Hnext : exists es, next = DD.set_diffs ddiff es
                               /\ es = DD.diffs ddiff
                                        ++ (if realy then DD.diffs chunk_ddiff else [])).
    { subst next. destruct realy; eexists; split; try reflexivity.
      rewrite app_nil_r. now destruct ddiff. }
    destruct Hnext as [es [Hnext Hes]].
    intros Hrest. destruct (IH next Hrest) as [Hcount Heach].
    assert (Hkept : forall c, kept a b next c = kept a b ddiff c).
    { intros c. unfold kept, chunk_kept. fold chunk_step.
      now rewrite Hnext, diff_seq_chunk_set_diffs. }
    assert (Hthis : kept a b ddiff chunk = realy).
    { unfold kept, chunk_kept. fold chunk_step. now rewrite Hchunk. }
    destruct (diff_seq_chunk_entries a b ddiff chunk chunk_ddiff realy Hchunk)
      as [ctx [body [Hctx [Hbody [Hentries _]]]]].
    split.
    + rewrite Hcount.
      rewrite (filter_ext _ (fun c => kept a b ddiff c && ends_before a c))
        by (intros c; cbv beta; now rewrite Hkept).
      rewrite Hnext, diffs_set_diffs, Hes, count_markers_app.
      rewrite Hthis. destruct realy; simpl.
      * rewrite Hentries.
        change (ctx :: body ++ ?t) with ([ctx] ++ body ++ t).
        rewrite !count_markers_app, Hbody.
        replace (count_markers [ctx]) with 0%nat
          by (destruct chunk; [discriminate | now injection Hctx as <-]).
        destruct (ends_before a chunk); simpl;
          [change (count_markers [ContextEndContainer]) with 1%nat
          |change (count_markers []) with 0%nat]; lia.
      * unfold count_markers at 2. simpl. lia.
    + intros c [<-|Hc].
      * exists chunk_ddiff, ctx, body. rewrite Hthis. auto.
      * destruct (Heach c Hc) as [cd [ctx' [body' [H1 H2]]]].
        exists cd, ctx', body'. rewrite Hkept in H1.
        rewrite Hnext, diff_seq_chunk_set_diffs in H1. auto.
Qed.

End ChunkProperties.

(** ** [NotHashable] *)

(** [hashable(s)] returns or raises the [NotHashable] of [s] itself. *)
Lemma hashable_raises (s : value) (e : exn) :
  hashable s = Err e -> e = NotHashable s.
Proof.
  destruct s; cbn -[hash_ok]; unfold bind; intros H;
    repeat match type of H with
           | context [match ?x with _ => _ end] => destruct x
           end;
    congruence.
Qed.

Lemma hashable_all_raises (xs : list value) (e : exn) :
  hashable_all xs = Err e -> exists s, In s xs /\ e = NotHashable s.
Proof.
  induction xs as [|x xs IH]; simpl; [discriminate|].
  destruct (hashable x) as [h|e1] eqn:Hx; simpl.
  - destruct (hashable_all xs) as [hs|e2]; simpl; [discriminate|].
    intros [= <-]. destruct (IH eq_refl) as [s [Hs He]]. exists s. auto.
  - intros [= <-]. exists x. split; [now left | now apply hashable_raises].
Qed.

Lemma hashable_all_fails (xs : list value) (x : value) (e : exn) :
  In x xs -> hashable x = Err e -> exists e', hashable_all xs = Err e'.
Proof.
  induction xs as [|y xs IH]; simpl; [intros []|].
  intros [->|Hin] Hx.
  - rewrite Hx. simpl. eauto.
  - destruct (hashable y); simpl; [|eauto].
    destruct (IH Hin Hx) as [e' ->]. simpl. eauto.
Qed.

Section NotHashableProperties.
Variable call : string -> value -> value + value.
Variable py_hash : value -> Z.

Lemma diff_seq_unhashable (rec : differ) (context depth : Z) (cwf : bool)
      (a b : value) (xs ys : list value) (x : value) (e : exn)
      (fromfile tofile : string) :
  sequence_items a = Some xs -> sequence_items b = Some ys ->
  In x (xs ++ ys) -> hashable x = Err e ->
  exists s, In s (xs ++ ys)
            /\ diff_seq call rec context depth cwf a b fromfile tofile = Err (NotHashable s).
Proof.
  intros Ha Hb Hin Hx. unfold diff_seq.
  assert (Hiter : has_iter_or_getitem a = true) by (destruct a; try discriminate; reflexivity).
  rewrite Hiter, Ha, Hb. simpl.
  destruct (hashable_all xs) as [hxs|e1] eqn:Hxs; simpl.
  - destruct (hashable_all ys) as [hys|e2] eqn:Hys; simpl.
    + exfalso. apply in_app_or in Hin. destruct Hin as [Hin|Hin].
      * destruct (hashable_all_fails xs x e Hin Hx) as [e' He']. congruence.
      * destruct (hashable_all_fails ys x e Hin Hx) as [e' He']. congruence.
    + destruct (hashable_all_raises ys e2 Hys) as [s [Hs ->]].
      exists s. split; [apply in_or_app; now right | reflexivity].
  - destruct (hashable_all_raises xs e1 Hxs) as [s [Hs ->]].
    exists s. split; [apply in_or_app; now left | reflexivity].
Qed.

(** [try_diff_seq] raises the [NotHashable] of [diff_seq] again. *)
Lemma try_diff_seq_not_hashable (rec : differ) (context depth : Z) (cwf : bool)
      (a b : value) (fromfile tofile : string) (s : value) :
  diff_seq call rec context depth cwf a b fromfile tofile = Err (NotHashable s) ->
  try_diff_seq call rec context depth cwf a b fromfile tofile = Err (NotHashable s).
Proof. unfold try_diff_seq. now intros ->. Qed.

(** [diff] on two lists or two tuples is what [try_diff_seq] gives, a
    [NotSequence] apart. *)
Lemma diff_body_sequence (rec : differ) (a b : value) (xs : list value)
      (context depth : Z) (fromfile tofile : string) (cwf : bool) :
  sequence_items a = Some xs -> type_of a = type_of b ->
  diff_body call py_hash rec a b context depth fromfile tofile cwf
  = match try_diff_seq call rec context depth cwf a b fromfile tofile with
    | Ok d => Ok (ODiff d)
    | Err (NotSequence _) => Err (DiffNotImplementedForType (type_of a))
    | Err e => Err e
    end.
Proof.
  intros Ha Hty. unfold diff_body.
  destruct a; try discriminate; destruct b; try discriminate; reflexivity.
Qed.

Lemma diff_body_dict (rec : differ) (kvs kvs' : list (value * value))
      (context depth : Z) (fromfile tofile : string) (cwf : bool) :
  diff_body call py_hash rec (VDict kvs) (VDict kvs') context depth fromfile tofile cwf
  = (d <- diff_dict call py_hash rec context depth cwf kvs kvs' fromfile tofile ;;
     Ok (ODiff d)).
Proof. reflexivity. Qed.

(** What the value comparison of [diff_dict] does with an exception of the
    recursive [diff]. *)
Lemma diff_dict_key_raises (rec : differ) (depth : Z) (cwf : bool)
      (a b : list (value * value)) (key aval bval : value)
      (ddiff : DataDiff) (budget : Z) (e : exn) :
  lookup key a = Some aval -> lookup key b = Some bval ->
  py_eq aval bval = false -> cwf && callable aval = false ->
  rec aval bval budget (depth + 1) "a" "b" cwf = Err e ->
  diff_dict_key call rec depth cwf a b key (ddiff, budget)
  = if is_DiffTypeError e
    then Ok (DD.insert (DD.delete ddiff (dictitem key aval)) (dictitem key bval), budget)
    else Err e.
Proof.
  intros Ha Hb Hne Hcall Hrec. unfold diff_dict_key.
  now rewrite Hb, Ha, Hne, Hcall, Hrec.
Qed.

End NotHashableProperties.

(** ** The set differ and the truth value of its result *)

Section SetProperties.
Variable call : string -> value -> value + value.
Variable py_hash : value -> Z.

(** The diff of a set with itself holds a [delete] run and an [insert] run,
    both without items, and [__bool__] counts them. *)
Lemma diff_set_self (xs : list value) (context depth : Z)
      (fromfile tofile : string) (cwf : bool) :
  exists rest,
    diff call py_hash (VSet xs) (VSet xs) context depth fromfile tofile cwf
    = Ok (ODiff (mkDataDiff TSet "set([" "])" fromfile tofile
                            (Multi CDelete [] :: Multi CInsert [] :: rest)))
    /\ obj_bool (ODiff (mkDataDiff TSet "set([" "])" fromfile tofile
                                   (Multi CDelete [] :: Multi CInsert [] :: rest)))
       = true.
Proof.
  unfold diff. cbn [diff_fuel]. unfold diff_body.
  cbn [type_of pytype_eqb negb]. unfold diff_set.
  rewrite difference_self, intersection_self. cbn [map].
  destruct (context <? len xs); eexists; split; reflexivity.
Qed.

(** C1, at a set.  [diff({1, 2}, {1, 2})] is a tree with a [delete] entry
    and an [insert] entry, and its truth value is true. *)
Theorem diff_same_set_is_true :
  diff call py_hash (VSet (ints [1; 2])) (VSet (ints [1; 2])) 3 0 "a" "b" false
  = Ok (ODiff (mkDataDiff TSet "set([" "])" "a" "b"
                 [Multi CDelete []; Multi CInsert [];
                  Multi CEqual [OVal (VInt 1); OVal (VInt 2)]]))
  /\ DD.__bool__ (mkDataDiff TSet "set([" "])" "a" "b"
                    [Multi CDelete []; Multi CInsert [];
                     Multi CEqual [OVal (VInt 1); OVal (VInt 2)]]) = true.
Proof. split; reflexivity. Qed.

End SetProperties.

(** ** The mapping differ *)

Section MappingProperties.
Variable call : string -> value -> value + value.
Variable py_hash : value -> Z.

(** An equal key is shown whenever the counter is not zero, a negative
    counter included. *)
Lemma add_equal_shown (key bval : value) (ddiff : DataDiff) (budget : Z) :
  add_equal key bval (ddiff, budget)
  = (if budget =? 0 then ddiff else DD.equal ddiff (dictitem key bval), budget - 1).
Proof. reflexivity. Qed.

(** C2, at two inputs.  With [context=0] the second equal key of
    [{'x': 1, 'y': 2}] is shown; with [context=3] the fifth equal key of a
    dict of five items is shown, the fourth is not. *)
Theorem equal_keys_after_the_budget :
  entries_of (diff call py_hash (VDict dict_xy) (VDict dict_xy) 0 0 "a" "b" false)
  = [Multi CEqual [dictitem (VStr "y") (VInt 2)]; ContextEndContainer]
  /\ entries_of (diff call py_hash (VDict dict_five) (VDict dict_five) 3 0 "a" "b" false)
     = [Multi CEqual [dictitem (VInt 1) (VInt 10)];
        Multi CEqual [dictitem (VInt 2) (VInt 20)];
        Multi CEqual [dictitem (VInt 3) (VInt 30)];
        Multi CEqual [dictitem (VInt 5) (VInt 50)];
        ContextEndContainer].
Proof. split; reflexivity. Qed.

(** C3, at two inputs.  The [Nested] entry of the key ['b'] is sorted by
    ['b'[0]] and comes after the [equal] entry of the key ['a']; with the
    int key [1] the key function subscripts the int and the sort raises
    [TypeError]. *)
Theorem nested_entry_not_sorted_first :
  (exists nested_diff,
      entries_of (diff call py_hash (VDict (dict_nested 1)) (VDict (dict_nested 2))
                       3 0 "a" "b" false)
      = [Multi CEqual [dictitem (VStr "a") (VInt 1)];
         Nested (ODictItem (VStr "b") (ODiff nested_diff) (Some 1))])
  /\ diff call py_hash (VDict (dict_int_key 1)) (VDict (dict_int_key 2)) 3 0 "a" "b" false
     = Err TypeError.
Proof. split; [eexists|]; reflexivity. Qed.

End MappingProperties.

(** ** The sort of the entries of a dict diff *)

Lemma insert_sorted_permutation {A : Type} (x : sortkey * A) (ys : list (sortkey * A)) :
  Permutation (x :: ys) (insert_sorted x ys).
Proof.
  induction ys as [|y ys IH]; simpl; [apply Permutation_refl|].
  destruct (sortkey_ltb (fst y) (fst x)); [|apply Permutation_refl].
  eapply perm_trans; [apply perm_swap|]. now apply perm_skip.
Qed.

Lemma insertion_sort_permutation {A : Type} (l : list (sortkey * A)) :
  Permutation l (fold_right insert_sorted [] l).
Proof.
  induction l as [|y l IH]; simpl; [apply perm_nil|].
  eapply perm_trans; [apply perm_skip, IH | apply insert_sorted_permutation].
Qed.

Lemma sort_by_key_permutation {A : Type} (xs : list (sortkey * A)) (sorted : list A) :
  sort_by_key xs = Ok sorted -> Permutation (map snd xs) sorted.
Proof.
  unfold sort_by_key. destruct xs as [|x0 rest]; [intros [= <-]; apply perm_nil|].
  destruct (forallb _ rest); [|discriminate]. intros [= <-].
  apply Permutation_map. exact (insertion_sort_permutation (x0 :: rest)).
Qed.

Section SortProperties.
Variable py_hash : value -> Z.

(** The key of a run of items of a dict: the key of its first item, as it
    is when it is a [str] or an int, and the absolute value of its hash
    otherwise. *)
Lemma sort_key_of_items (c : change) (key : value) (val : obj) (depth : option Z)
      (rest : list obj) :
  diffitem_dictitem_sort_key py_hash (Multi c (ODictItem key val depth :: rest))
  = match key with
    | VStr s => Ok (KStr s)
    | VInt n => Ok (KInt n)
    | _ => if hash_ok key then Ok (KInt (Z.abs (py_hash key))) else Err TypeError
    end.
Proof. reflexivity. Qed.

(** The key of a [Nested] entry of [diff_dict], whose payload is a
    [dictitem]: it is computed from [key[0]], not from the rank 0. *)
Lemma sort_key_of_nested (key : value) (val : obj) (depth : option Z) :
  diffitem_dictitem_sort_key py_hash (Nested (ODictItem key val depth))
  = (key0 <- subscript0 key ;;
     match key0 with
     | VStr s => Ok (KStr s)
     | VInt n => Ok (KInt n)
     | _ => if hash_ok key0 then Ok (KInt (Z.abs (py_hash key0))) else Err TypeError
     end).
Proof. reflexivity. Qed.

(** The rank 0 is for an entry whose payload is a [DataDiff] itself. *)
Lemma sort_key_of_tree (d : DataDiff) :
  diffitem_dictitem_sort_key py_hash (Nested (ODiff d)) = Ok (KInt 0).
Proof. reflexivity. Qed.

Lemma with_keys_entries (es : list entry) (keyed : list (sortkey * entry)) :
  with_keys py_hash es = Ok keyed -> map snd keyed = es.
Proof.
  revert keyed. induction es as [|e es IH]; simpl; intros keyed; [now intros [= <-]|].
  destruct (diffitem_dictitem_sort_key py_hash e) as [k|]; [|discriminate]. simpl.
  destruct (with_keys py_hash es) as [rest|]; [|discriminate]. simpl.
  intros [= <-]. simpl. now rewrite (IH rest eq_refl).
Qed.

(** When the sort returns, it returns the entries in another order. *)
Lemma sort_diffs_permutation (es sorted : list entry) :
  sort_diffs py_hash es = Ok sorted -> Permutation es sorted.
Proof.
  unfold sort_diffs.
  destruct (with_keys py_hash es) as [keyed|] eqn:Hkeys; [|discriminate]. simpl.
  intros Hsort. rewrite <- (with_keys_entries es keyed Hkeys).
  now apply sort_by_key_permutation.
Qed.

End SortProperties.

(** ** The bound on the depth of the recursion *)

Lemma for_each_ext {A S : Type} (body1 body2 : A -> S -> result S) (xs : list A) :
  (forall x st, In x xs -> body1 x st = body2 x st) ->
  forall st, for_each body1 xs st = for_each body2 xs st.
Proof.
  induction xs as [|x xs IH]; intros Hext st; simpl; [reflexivity|].
  rewrite (Hext x st) by now left.
  destruct (body2 x st) as [st'|e]; simpl; [|reflexivity].
  apply IH. intros y st1 Hy. apply Hext. now right.
Qed.

Lemma In_slice {A : Type} (x : A) (xs : list A) (lo hi : Z) :
  In x (slice xs lo hi) -> In x xs.
Proof.
  unfold slice. intros H.
  rewrite <- (firstn_skipn (Z.to_nat (slice_bound (len xs) lo)) xs).
  apply in_or_app. right.
  set (l := skipn _ xs) in *. clearbody l.
  rewrite <- (firstn_skipn (Z.to_nat (slice_bound (len xs) hi - slice_bound (len xs) lo)) l).
  apply in_or_app. now left.
Qed.

Lemma height_element (x : value) (xs : list value) :
  In x xs -> (height x <= list_max (map height xs))%nat.
Proof.
  intros Hin.
  assert (H : Forall (fun k => (k <= list_max (map height xs))%nat) (map height xs))
    by now apply list_max_le.
  rewrite Forall_forall in H. apply H. now apply in_map.
Qed.

Lemma lookup_In (key v : value) (kvs : list (value * value)) :
  lookup key kvs = Some v -> exists k, In (k, v) kvs.
Proof.
  induction kvs as [|[k v'] rest IH]; simpl; [discriminate|].
  destruct (py_eq k key).
  - intros [= ->]. exists k. now left.
  - intros H. destruct (IH H) as [k' Hk']. exists k'. now right.
Qed.

Lemma height_dict_value (key v : value) (kvs : list (value * value)) :
  lookup key kvs = Some v -> (height v < height (VDict kvs))%nat.
Proof.
  intros H. destruct (lookup_In _ _ _ H) as [k Hk]. simpl.
  assert (Hall : Forall (fun n => (n <= list_max (map (fun kv => Nat.max (height (fst kv))
                                                               (height (snd kv))) kvs))%nat)
                        (map (fun kv => Nat.max (height (fst kv)) (height (snd kv))) kvs))
    by now apply list_max_le.
  rewrite Forall_forall in Hall.
  specialize (Hall _ (in_map (fun kv => Nat.max (height (fst kv)) (height (snd kv)))
                             _ _ Hk)).
  simpl in Hall. lia.
Qed.

Section FuelProperties.
Variable call : string -> value -> value + value.
Variable py_hash : value -> Z.

(** Two functions that agree on the values nested in [a] give the same
    [diff] of [a]: every recursive call is on an element of the sequence
    [a] or on a value of the dict [a]. *)
Lemma diff_body_ext (rec1 rec2 : differ) (a : value) :
  (forall a2 b2 context depth fromfile tofile cwf,
      (height a2 < height a)%nat ->
      rec1 a2 b2 context depth fromfile tofile cwf
      = rec2 a2 b2 context depth fromfile tofile cwf) ->
  forall b context depth fromfile tofile cwf,
    diff_body call py_hash rec1 a b context depth fromfile tofile cwf
    = diff_body call py_hash rec2 a b context depth fromfile tofile cwf.
Proof.
  intros Hext b context depth fromfile tofile cwf.
  assert (Hseq : forall xs, sequence_items a = Some xs ->
            try_diff_seq call rec1 context depth cwf a b fromfile tofile
            = try_diff_seq call rec2 context depth cwf a b fromfile tofile).
  { intros xs Ha. unfold try_diff_seq, diff_seq. rewrite Ha.
    destruct (negb (has_iter_or_getitem a)); [reflexivity|].
    destruct (sequence_items b) as [ys|]; [|reflexivity].
    destruct (hashable_all xs) as [hxs|]; [|reflexivity].
    destruct (hashable_all ys) as [hys|]; [|reflexivity].
    cbn [bind].
    rewrite (for_each_ext (diff_seq_step call rec1 context depth cwf xs ys)
                          (diff_seq_step call rec2 context depth cwf xs ys));
      [reflexivity|].
    intros chunk ddiff _. unfold diff_seq_step, diff_seq_chunk.
    destruct chunk as [|first rest]; [reflexivity|].
    rewrite (for_each_ext (diff_seq_opcode call rec1 context depth cwf xs ys)
                          (diff_seq_opcode call rec2 context depth cwf xs ys));
      [reflexivity|].
    intros [t i1 i2 j1 j2] [c r] _. unfold diff_seq_opcode, diff_seq_replace.
    destruct t; try reflexivity.
    rewrite (for_each_ext (replace_pair call rec1 context depth cwf)
                          (replace_pair call rec2 context depth cwf));
      [reflexivity|].
    intros [a2 b2] st Hin. unfold replace_pair.
    rewrite Hext; [reflexivity|].
    apply in_combine_l, In_slice in Hin.
    pose proof (height_element a2 xs Hin).
    destruct a; try discriminate; injection Ha as ->; simpl; lia. }
  unfold diff_body.
  destruct a as [ | n | s | xs | xs | kvs | xs | xs | f | m | i ],
           b as [ | n' | s' | ys | ys | kvs' | ys | ys | f' | m' | i' ];
    try reflexivity.
  - now rewrite (Hseq xs eq_refl).
  - now rewrite (Hseq xs eq_refl).
  - cbn [type_of pytype_eqb negb]. unfold diff_dict.
    rewrite (for_each_ext (diff_dict_key call rec1 depth cwf kvs kvs')
                          (diff_dict_key call rec2 depth cwf kvs kvs'));
      [reflexivity|].
    intros key [ddiff budget] _. unfold diff_dict_key.
    destruct (lookup key kvs') as [bval|]; [|reflexivity].
    destruct (lookup key kvs) as [aval|] eqn:Ha; [|reflexivity].
    rewrite Hext; [reflexivity|]. now apply height_dict_value with key.
Qed.

Lemma diff_fuel_stable (n m : nat) (a : value) :
  (height a < n)%nat -> (height a < m)%nat ->
  forall b context depth fromfile tofile cwf,
    diff_fuel call py_hash n a b context depth fromfile tofile cwf
    = diff_fuel call py_hash m a b context depth fromfile tofile cwf.
Proof.
  revert m a. induction n as [|n IH]; intros m a Hn Hm; [lia|].
  destruct m as [|m]; [lia|]. cbn [diff_fuel].
  apply diff_body_ext. intros a2 b2 context depth fromfile tofile cwf Hlt.
  apply IH; lia.
Qed.

(** [diff] satisfies the equation of the Python function: its body, with
    the recursive calls going to [diff] itself. *)
Theorem diff_equation (a b : value) (context depth : Z) (fromfile tofile : string)
        (cwf : bool) :
  diff call py_hash a b context depth fromfile tofile cwf
  = diff_body call py_hash (diff call py_hash) a b context depth fromfile tofile cwf.
Proof.
  unfold diff at 1. cbn [diff_fuel].
  apply diff_body_ext. intros a2 b2 c d f t w Hlt.
  unfold diff. apply diff_fuel_stable; lia.
Qed.

End FuelProperties.

(** ** [OutOfFuel] never comes out of [diff] *)

Lemma for_each_err {A S : Type} (body : A -> S -> result S) (xs : list A) (st : S)
      (e : exn) :
  for_each body xs st = Err e -> exists x st', In x xs /\ body x st' = Err e.
Proof.
  revert st. induction xs as [|x xs IH]; intros st; simpl; [discriminate|].
  destruct (body x st) as [st1|e1] eqn:Hx; simpl.
  - intros H. destruct (IH st1 H) as [y [st' [Hy Hb]]]. exists y, st'. auto.
  - intros [= <-]. exists x, st. auto.
Qed.

Ltac case_split :=
  repeat match goal with
         | |- context [match ?x with _ => _ end] => destruct x eqn:?
         | H : context [match ?x with _ => _ end] |- _ => destruct x eqn:?
         end.

Lemma subscript0_python (v : value) : subscript0 v <> Err OutOfFuel.
Proof. unfold subscript0. case_split; discriminate. Qed.

Lemma obj_subscript0_python (o : obj) : obj_subscript0 o <> Err OutOfFuel.
Proof. destruct o; simpl; try discriminate. apply subscript0_python. Qed.

Lemma compares_with_func_python (call : string -> value -> value + value) (a b : value) :
  compares_with_func call a b <> Err OutOfFuel.
Proof. unfold compares_with_func. case_split; discriminate. Qed.

Lemma sort_key_python (py_hash : value -> Z) (e : entry) :
  diffitem_dictitem_sort_key py_hash e <> Err OutOfFuel.
Proof.
  unfold diffitem_dictitem_sort_key, bind.
  case_split; try discriminate; intros [= ->];
    repeat match goal with
           | H : Err _ = Err OutOfFuel |- _ => injection H as ->
           end;
    try discriminate;
    solve [eapply subscript0_python; eassumption
          |eapply obj_subscript0_python; eassumption].
Qed.

Lemma sort_diffs_python (py_hash : value -> Z) (es : list entry) :
  sort_diffs py_hash es <> Err OutOfFuel.
Proof.
  unfold sort_diffs, bind.
  assert (H : with_keys py_hash es <> Err OutOfFuel).
  { induction es as [|e es IH]; simpl; [discriminate|]. unfold bind.
    pose proof (sort_key_python py_hash e). case_split; congruence. }
  destruct (with_keys py_hash es) as [keyed|e]; [|congruence].
  unfold sort_by_key. case_split; discriminate.
Qed.

Lemma hashable_all_python (xs : list value) : hashable_all xs <> Err OutOfFuel.
Proof.
  intros H. destruct (hashable_all_raises xs _ H) as [s [_ Hs]]. discriminate.
Qed.

Section NoOutOfFuel.
Variable call : string -> value -> value + value.
Variable py_hash : value -> Z.

Lemma diff_body_python (rec : differ) (a : value) :
  (forall a2 b2 context depth fromfile tofile cwf,
      (height a2 < height a)%nat ->
      rec a2 b2 context depth fromfile tofile cwf <> Err OutOfFuel) ->
  forall b context depth fromfile tofile cwf,
    diff_body call py_hash rec a b context depth fromfile tofile cwf <> Err OutOfFuel.
Proof.
  intros Hrec b context depth fromfile tofile cwf.
  assert (Hseq : forall xs, sequence_items a = Some xs ->
            try_diff_seq call rec context depth cwf a b fromfile tofile <> Err OutOfFuel).
  { intros xs Ha. unfold try_diff_seq.
    destruct (diff_seq call rec context depth cwf a b fromfile tofile) as [d|e] eqn:Hd;
      [discriminate|].
    destruct e; try discriminate. exfalso. revert Hd. unfold diff_seq. rewrite Ha.
    destruct (negb (has_iter_or_getitem a)); [discriminate|].
    destruct (sequence_items b) as [ys|]; [|discriminate].
    pose proof (hashable_all_python xs). pose proof (hashable_all_python ys).
    destruct (hashable_all xs) as [hxs|]; [|cbn [bind]; congruence].
    destruct (hashable_all ys) as [hys|]; [|cbn [bind]; congruence].
    cbn [bind]. intros Hloop.
    apply for_each_err in Hloop. destruct Hloop as [chunk [ddiff [_ Hstep]]].
    revert Hstep. unfold diff_seq_step, diff_seq_chunk.
    destruct chunk as [|first rest]; [discriminate|].
    destruct (for_each _ (first :: rest) _) as [[c r]|e] eqn:Hops; [discriminate|].
    cbn [bind]. intros [= ->].
    apply for_each_err in Hops. destruct Hops as [[t i1 i2 j1 j2] [[c r] [_ Hop]]].
    revert Hop. unfold diff_seq_opcode, diff_seq_replace.
    destruct t; try discriminate.
    destruct (for_each _ (combine _ _) _) as [st|e] eqn:Hpairs; [discriminate|].
    cbn [bind]. intros [= ->].
    apply for_each_err in Hpairs. destruct Hpairs as [[a2 b2] [st [Hin Hpair]]].
    revert Hpair. unfold replace_pair.
    pose proof (compares_with_func_python call a2 b2).
    destruct (compares_with_func call a2 b2) as [[|]|e]; cbn [bind];
      [discriminate| |congruence].
    assert (Hlt : (height a2 < height a)%nat).
    { apply in_combine_l, In_slice in Hin.
      pose proof (height_element a2 xs Hin).
      destruct a; try discriminate; injection Ha as ->; simpl; lia. }
    pose proof (Hrec a2 b2 context (depth + 1) "a" "b" cwf Hlt).
    case_split; congruence. }
  unfold diff_body.
  destruct a as [ | n | s | xs | xs | kvs | xs | xs | f | m | i ],
           b as [ | n' | s' | ys | ys | kvs' | ys | ys | f' | m' | i' ];
    try (cbn; case_split; discriminate).
  - specialize (Hseq xs eq_refl). cbn [type_of pytype_eqb negb]. case_split; congruence.
  - specialize (Hseq xs eq_refl). cbn [type_of pytype_eqb negb]. case_split; congruence.
  - cbn [type_of pytype_eqb negb]. unfold diff_dict.
    destruct (for_each _ (map fst kvs) _) as [[ddiff budget]|e] eqn:Hkeys; cbn [bind].
    + destruct (for_each _ (map fst kvs') ddiff) as [ddiff'|e] eqn:Hins; cbn [bind].
      * pose proof (sort_diffs_python py_hash (DD.diffs ddiff')).
        destruct (sort_diffs py_hash (DD.diffs ddiff')); cbn [bind]; congruence.
      * apply for_each_err in Hins. destruct Hins as [key [d [_ Hins]]].
        revert Hins. unfold diff_dict_insert. case_split; congruence.
    + apply for_each_err in Hkeys. destruct Hkeys as [key [[d c] [_ Hkey]]].
      revert Hkey. unfold diff_dict_key.
      destruct (lookup key kvs') as [bval|]; [|case_split; congruence].
      destruct (lookup key kvs) as [aval|] eqn:Ha; [|congruence].
      pose proof (Hrec aval bval c (depth + 1) "a" "b" cwf
                       (height_dict_value key aval kvs Ha)).
      pose proof (compares_with_func_python call aval bval).
      case_split; congruence.
Qed.

(** [diff] returns a result or raises a Python exception: the bound on
    the recursion is never reached. *)
Theorem diff_never_out_of_fuel (a b : value) (context depth : Z)
        (fromfile tofile : string) (cwf : bool) :
  diff call py_hash a b context depth fromfile tofile cwf <> Err OutOfFuel.
Proof.
  revert b context depth fromfile tofile cwf.
  induction a as [a IH] using (induction_ltof1 _ height). unfold ltof in IH.
  intros b context depth fromfile tofile cwf.
  rewrite diff_equation. apply diff_body_python.
  intros a2 b2 c d f t w Hlt. now apply IH.
Qed.

End NoOutOfFuel.

(** ** [diff(x, x)] for a dict *)

Lemma for_each_total {A S : Type} (body : A -> S -> result S) (P : S -> Prop)
      (xs : list A) :
  (forall x st, In x xs -> P st -> exists st', body x st = Ok st' /\ P st') ->
  forall st, P st -> exists st', for_each body xs st = Ok st' /\ P st'.
Proof.
  induction xs as [|x xs IH]; intros Hbody st HP; simpl; [eauto|].
  destruct (Hbody x st (or_introl eq_refl) HP) as [st1 [-> HP1]]. simpl.
  apply IH; [|exact HP1]. intros y st2 Hy. apply Hbody. now right.
Qed.

Lemma lookup_own_key (key : value) (kvs : list (value * value)) :
  In key (map fst kvs) -> exists v, lookup key kvs = Some v.
Proof.
  induction kvs as [|[k v] rest IH]; simpl; [intros []|].
  intros [->|Hin].
  - rewrite py_eq_refl. eauto.
  - destruct (py_eq k key); eauto.
Qed.

Lemma member_own_key (key : value) (kvs : list (value * value)) :
  In key (map fst kvs) -> member key (map fst kvs) = true.
Proof. apply member_In. Qed.

Lemma insert_sorted_In {A : Type} (x y : sortkey * A) (ys : list (sortkey * A)) :
  In y (insert_sorted x ys) -> y = x \/ In y ys.
Proof.
  induction ys as [|z ys IH]; simpl.
  - intros [<-|[]]. now left.
  - destruct (sortkey_ltb (fst z) (fst x)); simpl.
    + intros [<-|H]; [right; now left|]. destruct (IH H); auto.
    + intros [<-|[<-|H]]; auto.
Qed.

Lemma insertion_sort_In {A : Type} (y : sortkey * A) (l : list (sortkey * A)) :
  In y (fold_right insert_sorted [] l) -> In y l.
Proof.
  induction l as [|z l IH]; simpl; intros Hin; [exact Hin|].
  apply insert_sorted_In in Hin. destruct Hin as [->|Hin]; [now left|].
  right. now apply IH.
Qed.

Lemma sort_by_key_In {A : Type} (xs : list (sortkey * A)) (sorted : list A) (x : A) :
  sort_by_key xs = Ok sorted -> In x sorted -> In x (map snd xs).
Proof.
  unfold sort_by_key. destruct xs as [|x0 rest]; [intros [= <-] H; destruct H|].
  destruct (forallb _ rest); [|discriminate]. intros [= <-] Hin.
  apply in_map_iff in Hin. destruct Hin as [y [<- Hin]].
  apply in_map. now apply insertion_sort_In.
Qed.

Lemma sort_by_key_raises {A : Type} (xs : list (sortkey * A)) (e : exn) :
  sort_by_key xs = Err e -> e = TypeError.
Proof.
  unfold sort_by_key. destruct xs as [|x0 rest]; [discriminate|].
  destruct (forallb _ rest); [discriminate|]. now intros [= <-].
Qed.

Section SameDict.
Variable call : string -> value -> value + value.
Variable py_hash : value -> Z.

Lemma with_keys_equal_items (es : list entry) :
  Forall equal_item es ->
  match with_keys py_hash es with
  | Ok keyed => map snd keyed = es
  | Err e => e = TypeError
  end.
Proof.
  induction 1 as [|e es [key [v ->]] _ IH]; simpl; [reflexivity|].
  destruct key; simpl;
    destruct (with_keys py_hash es) as [keyed|e']; simpl; subst;
    try reflexivity;
    try (destruct (forallb hash_ok _)); simpl; subst; reflexivity.
Qed.

(** X2.  The diff of a dict with itself shows no difference: it is a tree
    of [equal] entries and perhaps the end marker, which is false; the only
    exception is the [TypeError] of the sort of the entries, on keys that
    cannot be ordered. *)
Theorem diff_same_dict_is_empty (kvs : list (value * value)) (context depth : Z)
        (fromfile tofile : string) (cwf : bool) :
  match diff call py_hash (VDict kvs) (VDict kvs) context depth fromfile tofile cwf with
  | Ok r => obj_bool r = false
  | Err e => e = TypeError
  end.
Proof.
  rewrite diff_equation. unfold diff_body. cbn [type_of pytype_eqb negb].
  unfold diff_dict.
  set (rec := diff call py_hash).
  set (start := DD.__init__ TDict (Some ("{", "}")) fromfile tofile).
  destruct (for_each_total (diff_dict_key call rec depth cwf kvs kvs)
              (fun st => Forall equal_item (DD.diffs (fst st))) (map fst kvs))
    with (st := (start, context)) as [[ddiff budget] [-> Hitems]].
  { intros key [d c] Hin Hd.
    destruct (lookup_own_key key kvs Hin) as [v Hv].
    unfold diff_dict_key. rewrite Hv, py_eq_refl. cbn [negb].
    eexists. split; [reflexivity|]. unfold add_equal. cbn [fst].
    destruct (c =? 0); [exact Hd|].
    unfold DD.equal, DD.multi. rewrite diffs_append.
    apply Forall_app. split; [exact Hd|]. constructor; [|constructor].
    now exists key, v. }
  { constructor. }
  cbn [bind fst] in *.
  destruct (for_each_total (diff_dict_insert kvs kvs) (fun d => d = ddiff) (map fst kvs))
    with (st := ddiff) as [ddiff' [-> ->]].
  { intros key d Hin ->. unfold diff_dict_insert.
    rewrite (member_own_key key kvs Hin). eauto. }
  { reflexivity. }
  cbn [bind]. unfold sort_diffs.
  pose proof (with_keys_equal_items (DD.diffs ddiff) Hitems) as Hkeys.
  destruct (with_keys py_hash (DD.diffs ddiff)) as [keyed|e]; cbn [bind]; [|exact Hkeys].
  destruct (sort_by_key keyed) as [sorted|e] eqn:Hsort; cbn [bind].
  - cbn [obj_bool]. apply bool_false_iff. intros e He.
    assert (Hneutral : forall e', In e' sorted -> neutral e').
    { intros e' He'. apply (sort_by_key_In keyed sorted e' Hsort) in He'.
      rewrite Hkeys in He'. rewrite Forall_forall in Hitems.
      destruct (Hitems e' He') as [key [v ->]]. constructor. }
    destruct (budget <? 0).
    + unfold DD.context_end_container in He. rewrite diffs_append, diffs_set_diffs in He.
      apply in_app_or in He. destruct He as [He|[<-|[]]]; [auto | constructor].
    + rewrite diffs_set_diffs in He. auto.
  - now apply sort_by_key_raises with keyed.
Qed.

End SameDict.

(** ** The sequence matcher on two equal sequences *)

Section MatcherDict.
Context {A : Type}.
Variable eqb : A -> A -> bool.
Variable xs : list A.
Hypothesis eqb_equiv : equivalence_on eqb xs.

Let eqb_refl := proj1 eqb_equiv.
Let eqb_sym := proj1 (proj2 eqb_equiv).
Let eqb_trans := proj2 (proj2 eqb_equiv).

Let get := Difflib.b2j_get eqb.
Let keys (m : list (A * list Z)) : list A := map fst m.

Lemma setdefault_append_get (elt x : A) (j : Z) (m : list (A * list Z)) :
  incl (keys m) xs -> In elt xs -> In x xs ->
  get (Difflib.setdefault_append eqb elt j m) x
  = get m x ++ (if eqb elt x then [j] else []).
Proof.
  intros Hm Helt Hx. unfold get, Difflib.b2j_get.
  induction m as [|[k idxs] rest IH]; simpl.
  - destruct (eqb elt x); reflexivity.
  - assert (Hk : In k xs) by (apply Hm; now left).
    assert (Hrest : incl (keys rest) xs) by (intros y Hy; apply Hm; now right).
    destruct (eqb k elt) eqn:Hkelt; simpl.
    + destruct (eqb k x) eqn:Hkx.
      * rewrite (eqb_trans elt k x) by auto. reflexivity.
      * destruct (eqb elt x) eqn:Heltx; [|now rewrite app_nil_r].
        rewrite (eqb_trans k elt x) in Hkx by auto. discriminate.
    + destruct (eqb k x) eqn:Hkx.
      * destruct (eqb elt x) eqn:Heltx; [|now rewrite app_nil_r].
        rewrite (eqb_trans k x elt) in Hkelt by auto. discriminate.
      * now apply IH.
Qed.

Lemma setdefault_append_keys (elt : A) (j : Z) (m : list (A * list Z)) (k : A) :
  In k (keys (Difflib.setdefault_append eqb elt j m)) -> In k (keys m) \/ k = elt.
Proof.
  induction m as [|[k0 idxs] rest IH]; simpl.
  - intros [<-|[]]. now right.
  - destruct (eqb k0 elt); simpl; [tauto|].
    intros [<-|H]; [tauto|]. destruct (IH H); tauto.
Qed.

Lemma setdefault_append_apart (elt : A) (j : Z) (m : list (A * list Z)) :
  keys_apart eqb m -> keys_apart eqb (Difflib.setdefault_append eqb elt j m).
Proof.
  induction m as [|[k idxs] rest IH]; simpl.
  - intros _. split; [intros e []|exact I].
  - intros [Hk Hrest]. destruct (eqb k elt) eqn:Hkelt; simpl.
    + split; assumption.
    + split; [|now apply IH]. intros e He.
      assert (Hkey : In (fst e) (keys (Difflib.setdefault_append eqb elt j rest)))
        by (unfold keys; now apply in_map).
      apply setdefault_append_keys in Hkey. destruct Hkey as [Hkey| ->]; [|exact Hkelt].
      unfold keys in Hkey. apply in_map_iff in Hkey. destruct Hkey as [e0 [<- He0]].
      now apply Hk.
Qed.

Lemma chain_from_get (ys : list A) (j : Z) (m : list (A * list Z)) (x : A) :
  incl (keys m) xs -> incl ys xs -> In x xs ->
  get (Difflib.chain_from eqb j ys m) x = get m x ++ indices_from eqb j ys x.
Proof.
  revert j m. induction ys as [|elt ys IH]; intros j m Hm Hys Hx; simpl.
  - now rewrite app_nil_r.
  - assert (Helt : In elt xs) by (apply Hys; now left).
    rewrite IH; auto.
    + rewrite setdefault_append_get by auto. rewrite <- app_assoc.
      destruct (eqb elt x); reflexivity.
    + intros k Hk. apply setdefault_append_keys in Hk. destruct Hk as [Hk| ->]; auto.
    + intros y Hy. apply Hys. now right.
Qed.

Lemma chain_from_keys (ys : list A) (j : Z) (m : list (A * list Z)) :
  incl (keys m) xs -> incl ys xs -> incl (keys (Difflib.chain_from eqb j ys m)) xs.
Proof.
  revert j m. induction ys as [|elt ys IH]; intros j m Hm Hys; simpl; [exact Hm|].
  apply IH.
  - intros k Hk. apply setdefault_append_keys in Hk. destruct Hk as [Hk| ->]; auto.
    apply Hys. now left.
  - intros y Hy. apply Hys. now right.
Qed.

Lemma chain_from_apart (ys : list A) (j : Z) (m : list (A * list Z)) :
  keys_apart eqb m -> keys_apart eqb (Difflib.chain_from eqb j ys m).
Proof.
  revert j m. induction ys as [|elt ys IH]; intros j m Hm; simpl; [exact Hm|].
  apply IH. now apply setdefault_append_apart.
Qed.

(** Deleting entries of a dict whose keys are apart: a key is found as
    before unless its entry was deleted. *)
Lemma filter_get (keep : A * list Z -> bool) (m : list (A * list Z)) (x : A) :
  keys_apart eqb m -> incl (keys m) xs -> In x xs ->
  get (filter keep m) x
  = match find (fun e => eqb (fst e) x) m with
    | Some e => if keep e then snd e else []
    | None => []
    end.
Proof.
  intros Hapart Hm Hx. unfold get, Difflib.b2j_get.
  induction m as [|e rest IH]; simpl; [reflexivity|].
  destruct Hapart as [He Hrest].
  assert (Hk : In (fst e) xs) by (apply Hm; now left).
  assert (Hkeys : incl (keys rest) xs) by (intros y Hy; apply Hm; now right).
  destruct (eqb (fst e) x) eqn:Hex.
  - destruct (keep e); simpl; [now rewrite Hex|].
    destruct (find (fun e0 => eqb (fst e0) x) (filter keep rest)) as [e'|] eqn:Hfind;
      [|reflexivity].
    apply find_some in Hfind. destruct Hfind as [Hin Hmatch].
    apply filter_In in Hin. destruct Hin as [Hin _].
    assert (Hk' : In (fst e') xs) by (apply Hkeys; unfold keys; now apply in_map).
    specialize (He e' Hin).
    rewrite (eqb_trans (fst e) x (fst e')) in He; auto. discriminate.
  - destruct (keep e); simpl; [rewrite Hex|]; now apply IH.
Qed.

(** What [b2j] gives for an element of a sequence matched with itself. *)
Lemma chain_b_get (x : A) :
  In x xs ->
  get (Difflib.chain_b eqb xs) x
  = if (200 <=? len xs) && Difflib.popular (len xs) (indices_from eqb 0 xs x)
    then [] else indices_from eqb 0 xs x.
Proof.
  intros Hx. unfold Difflib.chain_b.
  assert (Hget : get (Difflib.chain_from eqb 0 xs []) x = indices_from eqb 0 xs x).
  { rewrite chain_from_get; auto using incl_refl. intros y []. }
  destruct (200 <=? len xs); simpl; [|exact Hget].
  rewrite filter_get; auto.
  - unfold get, Difflib.b2j_get in Hget.
    destruct (find (fun e => eqb (fst e) x) (Difflib.chain_from eqb 0 xs [])) as [e|].
    + rewrite Hget. now destruct (Difflib.popular (len xs) (indices_from eqb 0 xs x)).
    + rewrite <- Hget. now destruct (Difflib.popular (len xs) []).
  - apply chain_from_apart. exact I.
  - apply chain_from_keys; auto using incl_refl. intros y [].
Qed.

End MatcherDict.

Lemma range_cons (lo hi : Z) :
  lo < hi -> Difflib.range lo hi = lo :: Difflib.range (lo + 1) hi.
Proof.
  intros H. unfold Difflib.range.
  replace (Z.to_nat (hi - lo)) with (S (Z.to_nat (hi - (lo + 1)))) by lia.
  simpl. rewrite <- seq_shift, map_map. f_equal; [lia|].
  apply map_ext. intros k. lia.
Qed.

Lemma range_nil (lo hi : Z) : hi <= lo -> Difflib.range lo hi = [].
Proof.
  intros H. unfold Difflib.range. now replace (Z.to_nat (hi - lo)) with O by lia.
Qed.

Lemma j2len_get_cons (j k j' : Z) (m : list (Z * Z)) :
  Difflib.j2len_get ((j, k) :: m) j'
  = if j =? j' then k else Difflib.j2len_get m j'.
Proof. unfold Difflib.j2len_get. simpl. now destruct (j =? j'). Qed.

Section Diagonal.
Variable n : Z.
Variable row : Z -> list Z.
Hypothesis row_self : forall i, 0 <= i < n -> row i = [] \/ In i (row i).
Hypothesis row_class : forall i j, 0 <= i < n -> In j (row i) -> 0 <= j < n /\ row j = row i.
Context {A : Type}.
Variable eqb : A -> A -> bool.
Variable a : list A.
Variable b2j : list (A * list Z).
Hypothesis row_sorted : forall i, 0 <= i < n -> StronglySorted Z.lt (row i).
Hypothesis row_def :
  forall i, match Difflib.item a i with
            | Some x => Difflib.b2j_get eqb b2j x
            | None => []
            end = row i.


Let K := run row.
Let get := Difflib.j2len_get.

Lemma run_negative (i : Z) : i < 0 -> K i = 0.
Proof. intros H. unfold K, run. now destruct (Z.ltb_spec i 0); [|lia]. Qed.

Lemma run_nat_eq (m : nat) :
  run_nat row m
  = match row (Z.of_nat m) with
    | [] => 0
    | _ => 1 + match m with O => 0 | S m' => run_nat row m' end
    end.
Proof. destruct m; reflexivity. Qed.

Lemma run_empty (i : Z) : 0 <= i -> row i = [] -> K i = 0.
Proof.
  intros Hi Hrow. unfold K, run. destruct (Z.ltb_spec i 0); [lia|].
  rewrite run_nat_eq, Z2Nat.id by lia. now rewrite Hrow.
Qed.

Lemma run_step (i : Z) : 0 <= i -> row i <> [] -> K i = K (i - 1) + 1.
Proof.
  intros Hi Hrow. unfold K, run. destruct (Z.ltb_spec i 0); [lia|].
  rewrite run_nat_eq, Z2Nat.id by lia.
  destruct (row i); [congruence|].
  destruct (Z.ltb_spec (i - 1) 0).
  - replace (Z.to_nat i) with O by lia. lia.
  - replace (Z.to_nat i) with (S (Z.to_nat (i - 1))) by lia. lia.
Qed.

Lemma run_bounds (i : Z) : 0 <= K i /\ (-1 <= i -> K i <= i + 1).
Proof.
  destruct (Z.ltb_spec i 0) as [Hneg|Hpos]; [rewrite run_negative; lia|].
  rewrite <- (Z2Nat.id i Hpos). induction (Z.to_nat i) as [|m IH].
  - destruct (row (Z.of_nat 0)) eqn:Hrow.
    + rewrite run_empty by (auto; lia). lia.
    + rewrite run_step by (try congruence; lia).
      rewrite run_negative by lia. lia.
  - destruct (row (Z.of_nat (S m))) eqn:Hrow.
    + rewrite run_empty by (auto; lia). lia.
    + rewrite run_step by (try congruence; lia).
      replace (Z.of_nat (S m) - 1) with (Z.of_nat m) by lia. lia.
Qed.

(** The columns of one row: the best match stays on the diagonal. *)
Lemma flm_row_diagonal (i : Z) (js : list Z) (j2len : list (Z * Z)) :
  0 <= i < n -> row i <> [] ->
  (forall j, 0 <= get j2len j <= Z.min (K (i - 1)) (K j)) ->
  get j2len (i - 1) = K (i - 1) ->
  StronglySorted Z.lt js -> (forall j, In j js -> In j (row i)) ->
  forall newj2len bi bs,
    (forall j, 0 <= get newj2len j <= Z.min (K i) (K j)) ->
    0 <= bi -> 0 <= bs -> bi + bs <= n -> (forall m, 0 <= m < i -> K m <= bs) ->
    In i js \/ (get newj2len i = K i /\ K i <= bs) ->
    exists newj2len' bi' bs',
      Difflib.flm_row i 0 n js j2len newj2len (bi, bi, bs) = (newj2len', (bi', bi', bs'))
      /\ (forall j, 0 <= get newj2len' j <= Z.min (K i) (K j))
      /\ get newj2len' i = K i
      /\ 0 <= bi' /\ 0 <= bs' /\ bi' + bs' <= n
      /\ (forall m, 0 <= m < i + 1 -> K m <= bs').
Proof.
  intros Hi Hrow Hprev Hdiag Hsorted Hjs.
  induction js as [|j js IH]; intros newj2len bi bs Hcur Hbi Hbs Hsum Hbest Hstatus.
  - simpl. destruct Hstatus as [[]|[Hget Hle]].
    exists newj2len, bi, bs. repeat split; auto; try apply Hcur.
    intros m Hm. destruct (Z.eq_dec m i) as [->|]; [exact Hle | apply Hbest; lia].
  - apply StronglySorted_inv in Hsorted. destruct Hsorted as [Hsorted Hlt].
    rewrite Forall_forall in Hlt.
    destruct (row_class i j Hi (Hjs j (or_introl eq_refl))) as [Hj Hrowj].
    assert (Hki : K i = K (i - 1) + 1) by (apply run_step; [lia | exact Hrow]).
    assert (Hkj : K j = K (j - 1) + 1) by (apply run_step; [lia | congruence]).
    pose proof (Hprev (j - 1)) as Hentry.
    simpl. destruct (Z.ltb_spec j 0); [lia|]. destruct (Z.leb_spec n j); [lia|].
    fold get. set (k := get j2len (j - 1) + 1).
    assert (Hk : 1 <= k <= Z.min (K i) (K j)) by (unfold k; lia).
    assert (Hcur' : forall j', 0 <= get ((j, k) :: newj2len) j' <= Z.min (K i) (K j')).
    { intros j'. unfold get. rewrite j2len_get_cons.
      destruct (Z.eqb_spec j j') as [<-|]; [lia | apply Hcur]. }
    destruct (Z.ltb_spec bs k) as [Hup|Hno].
    + assert (Hji : j = i).
      { destruct (Z.lt_trichotomy j i) as [Hlo|[Heq|Hhi]]; [|exact Heq|].
        - specialize (Hbest j ltac:(lia)). lia.
        - destruct Hstatus as [[Heq|Hin]|[_ Hle]]; [lia| |lia].
          specialize (Hlt i Hin). lia. }
      subst j. assert (Hk_eq : k = K i) by (unfold k; lia).
      pose proof (run_bounds i) as [_ Hrun].
      apply (IH Hsorted); auto; try lia.
      * intros j' Hj'. apply Hjs. now right.
      * intros m Hm. specialize (Hbest m Hm). lia.
      * right. unfold get. rewrite j2len_get_cons, Z.eqb_refl. lia.
    + apply (IH Hsorted); auto.
      * intros j' Hj'. apply Hjs. now right.
      * unfold get. rewrite j2len_get_cons.
        destruct (Z.eqb_spec j i) as [->|Hne].
        -- right. unfold k. lia.
        -- destruct Hstatus as [[Heq|Hin]|Hdone]; [congruence | now left | now right].
Qed.

(** All the rows: the best match is on the diagonal. *)
Lemma flm_rows_diagonal (m : nat) :
  forall i j2len bi bs,
    0 <= i -> i + Z.of_nat m = n ->
    (forall j, 0 <= get j2len j <= Z.min (K (i - 1)) (K j)) ->
    get j2len (i - 1) = K (i - 1) ->
    0 <= bi -> 0 <= bs -> bi + bs <= n -> (forall m', 0 <= m' < i -> K m' <= bs) ->
    exists bi' bs',
      Difflib.flm_rows eqb a b2j (Difflib.range i n) 0 n j2len (bi, bi, bs)
      = (bi', bi', bs')
      /\ 0 <= bi' /\ 0 <= bs' /\ bi' + bs' <= n.
Proof.
  induction m as [|m IH]; intros i j2len bi bs Hi Hm Hprev Hdiag Hbi Hbs Hsum Hbest.
  - rewrite range_nil by lia. simpl. exists bi, bs. auto.
  - rewrite range_cons by lia. simpl. rewrite row_def.
    destruct (row i) as [|j0 js0] eqn:Hrow.
    + simpl. apply IH; auto; try lia.
      * intros j. replace (i + 1 - 1) with i by lia.
        rewrite (run_empty i) by (auto; lia).
        pose proof (run_bounds j). unfold get, Difflib.j2len_get. simpl. lia.
      * replace (i + 1 - 1) with i by lia.
        rewrite (run_empty i) by (auto; lia). reflexivity.
      * intros m' Hm'. destruct (Z.eq_dec m' i) as [->|];
          [rewrite (run_empty i) by (auto; lia); lia | apply Hbest; lia].
    + rewrite <- Hrow.
      assert (Hne : row i <> []) by congruence.
      destruct (flm_row_diagonal i (row i) j2len ltac:(lia) Hne Hprev Hdiag
                  (row_sorted i ltac:(lia)) (fun j H => H) [] bi bs)
        as [new [bi1 [bs1 [-> [Hcur [Hget [Hbi1 [Hbs1 [Hsum1 Hbest1]]]]]]]]]; auto.
      * intros j. pose proof (run_bounds i). pose proof (run_bounds j).
        unfold get, Difflib.j2len_get. simpl. lia.
      * left. destruct (row_self i ltac:(lia)); [contradiction | assumption].
      * apply IH; auto; try lia; replace (i + 1 - 1) with i by lia; auto.
Qed.

End Diagonal.

Lemma indices_from_In {A : Type} (eqb : A -> A -> bool) (ys : list A) (x : A) :
  forall j0 j,
    In j (indices_from eqb j0 ys x)
    <-> j0 <= j /\ exists y, nth_error ys (Z.to_nat (j - j0)) = Some y /\ eqb y x = true.
Proof.
  induction ys as [|y ys IH]; intros j0 j; simpl.
  - split; [intros [] | intros [_ [y [Hy _]]]]. now destruct (Z.to_nat (j - j0)).
  - assert (Hrest : In j (indices_from eqb (j0 + 1) ys x)
                    <-> j0 < j /\ exists y', nth_error (y :: ys) (Z.to_nat (j - j0)) = Some y'
                                             /\ eqb y' x = true).
    { rewrite IH. split.
      - intros [Hle [y' [Hy' He]]]. split; [lia|]. exists y'. split; [|exact He].
        replace (Z.to_nat (j - j0)) with (S (Z.to_nat (j - (j0 + 1)))) by lia. exact Hy'.
      - intros [Hlt [y' [Hy' He]]]. split; [lia|]. exists y'. split; [|exact He].
        replace (Z.to_nat (j - j0)) with (S (Z.to_nat (j - (j0 + 1)))) in Hy' by lia.
        exact Hy'. }
    destruct (eqb y x) eqn:Hyx; simpl; rewrite ?Hrest.
    + split.
      * intros [<-|[Hlt H]]; (split; [lia|]); [|exact H].
        exists y. now rewrite Z.sub_diag.
      * intros [Hle [y' [Hy' He]]].
        destruct (Z.eq_dec j0 j) as [->|Hne]; [now left|].
        right. split; [lia|]. eauto.
    + split.
      * intros [Hlt H]. split; [lia | exact H].
      * intros [Hle [y' [Hy' He]]]. split; [|eauto].
        destruct (Z.eq_dec j0 j) as [->|Hne]; [|lia].
        rewrite Z.sub_diag in Hy'. simpl in Hy'. congruence.
Qed.

Lemma indices_from_sorted {A : Type} (eqb : A -> A -> bool) (ys : list A) (x : A) :
  forall j0, StronglySorted Z.lt (indices_from eqb j0 ys x).
Proof.
  induction ys as [|y ys IH]; intros j0; simpl; [constructor|].
  destruct (eqb y x); [|apply IH].
  constructor; [apply IH|]. apply Forall_forall. intros j Hj.
  apply indices_from_In in Hj. lia.
Qed.

Lemma indices_from_ext {A : Type} (eqb : A -> A -> bool) (ys : list A) (x y : A) :
  (forall z, In z ys -> eqb z x = eqb z y) ->
  forall j0, indices_from eqb j0 ys x = indices_from eqb j0 ys y.
Proof.
  induction ys as [|z ys IH]; intros Hext j0; simpl; [reflexivity|].
  rewrite (Hext z) by now left.
  rewrite IH by (intros z' Hz'; apply Hext; now right). reflexivity.
Qed.

Lemma item_Some {A : Type} (xs : list A) (i : Z) (x : A) :
  Difflib.item xs i = Some x <-> 0 <= i /\ nth_error xs (Z.to_nat i) = Some x.
Proof.
  unfold Difflib.item. destruct (Z.ltb_spec i 0); split;
    try discriminate; try tauto; lia.
Qed.

Lemma item_inside {A : Type} (xs : list A) (i : Z) :
  0 <= i < len xs -> exists x, Difflib.item xs i = Some x /\ In x xs.
Proof.
  intros Hi. unfold len in Hi.
  destruct (nth_error xs (Z.to_nat i)) as [x|] eqn:Hx.
  - exists x. split; [apply item_Some; split; [lia | exact Hx]|].
    now apply nth_error_In with (Z.to_nat i).
  - apply nth_error_None in Hx. lia.
Qed.

Section MatcherSame.
Context {A : Type}.
Variable eqb : A -> A -> bool.
Variable xs : list A.
Hypothesis eqb_equiv : equivalence_on eqb xs.

Let eqb_refl := proj1 eqb_equiv.
Let eqb_sym := proj1 (proj2 eqb_equiv).
Let eqb_trans := proj2 (proj2 eqb_equiv).
Let n := len xs.
Let b2j := Difflib.chain_b eqb xs.
Let indices := indices_from eqb 0 xs.

Let row (i : Z) : list Z :=
  match Difflib.item xs i with
  | Some x => Difflib.b2j_get eqb b2j x
  | None => []
  end.

Lemma indices_same_class (x y : A) :
  In x xs -> In y xs -> eqb y x = true -> indices y = indices x.
Proof.
  intros Hx Hy Hyx. apply indices_from_ext. intros z Hz.
  destruct (eqb z x) eqn:Hzx.
  - apply (eqb_trans z x y); auto.
  - destruct (eqb z y) eqn:Hzy; [|reflexivity].
    rewrite (eqb_trans z y x) in Hzx; auto.
Qed.

Lemma row_indices (i : Z) (x : A) :
  Difflib.item xs i = Some x -> In x xs ->
  row i = if (200 <=? n) && Difflib.popular n (indices x) then [] else indices x.
Proof.
  intros Hitem Hx. unfold row. rewrite Hitem. now apply chain_b_get.
Qed.

Lemma row_self (i : Z) : 0 <= i < n -> row i = [] \/ In i (row i).
Proof.
  intros Hi. destruct (item_inside xs i Hi) as [x [Hitem Hx]].
  rewrite (row_indices i x Hitem Hx).
  destruct ((200 <=? n) && Difflib.popular n (indices x)); [now left|]. right.
  apply indices_from_In. split; [lia|]. exists x. rewrite Z.sub_0_r.
  apply item_Some in Hitem. split; [tauto | now apply eqb_refl].
Qed.

Lemma row_class (i j : Z) : 0 <= i < n -> In j (row i) -> 0 <= j < n /\ row j = row i.
Proof.
  intros Hi Hj. destruct (item_inside xs i Hi) as [x [Hitem Hx]].
  rewrite (row_indices i x Hitem Hx) in *.
  destruct ((200 <=? n) && Difflib.popular n (indices x)) eqn:Hpop; [destruct Hj|].
  apply indices_from_In in Hj. destruct Hj as [Hj0 [y [Hy Hyx]]].
  rewrite Z.sub_0_r in Hy.
  assert (Hyin : In y xs) by now apply nth_error_In with (Z.to_nat j).
  assert (Hjn : j < n).
  { assert (Hsome : nth_error xs (Z.to_nat j) <> None) by congruence.
    apply nth_error_Some in Hsome. unfold n, len. lia. }
  split; [lia|].
  rewrite (row_indices j y) by (auto; apply item_Some; auto).
  now rewrite (indices_same_class x y Hx Hyin Hyx), Hpop.
Qed.

Lemma row_sorted (i : Z) : 0 <= i < n -> StronglySorted Z.lt (row i).
Proof.
  intros Hi. destruct (item_inside xs i Hi) as [x [Hitem Hx]].
  rewrite (row_indices i x Hitem Hx).
  destruct ((200 <=? n) && Difflib.popular n (indices x)); [constructor|].
  apply indices_from_sorted.
Qed.

Lemma same_at_diagonal (i : Z) : 0 <= i < n -> Difflib.same_at eqb xs xs i i = true.
Proof.
  intros Hi. destruct (item_inside xs i Hi) as [x [Hitem Hx]].
  unfold Difflib.same_at. rewrite Hitem. now apply eqb_refl.
Qed.

Lemma junk_at_false (j : Z) : Difflib.junk_at xs j = false.
Proof. unfold Difflib.junk_at, Difflib.isbjunk. now destruct (Difflib.item xs j). Qed.

Lemma extend_down_diagonal (fuel : nat) :
  forall bi bs, fuel = Z.to_nat bi -> 0 <= bi <= n ->
    Difflib.extend_down eqb xs xs fuel false 0 0 (bi, bi, bs) = (0, 0, bs + bi).
Proof.
  induction fuel as [|fuel IH]; intros bi bs Hfuel Hbi; cbn [Difflib.extend_down].
  - replace bi with 0 by lia. f_equal. lia.
  - rewrite junk_at_false, same_at_diagonal by lia.
    replace (0 <? bi) with true by (symmetry; apply Z.ltb_lt; lia).
    cbn [andb Bool.eqb]. rewrite IH by lia. f_equal. lia.
Qed.

Lemma extend_up_diagonal (fuel : nat) :
  forall bs, fuel = Z.to_nat (n - bs) -> 0 <= bs <= n ->
    Difflib.extend_up eqb xs xs fuel false n n (0, 0, bs) = (0, 0, n).
Proof.
  induction fuel as [|fuel IH]; intros bs Hfuel Hbs; cbn [Difflib.extend_up].
  - f_equal. lia.
  - rewrite junk_at_false, same_at_diagonal by lia.
    replace (0 + bs <? n) with true by (symmetry; apply Z.ltb_lt; lia).
    cbn [andb Bool.eqb]. apply IH; lia.
Qed.

Lemma extend_down_junk (fuel : nat) (alo blo : Z) (best : Difflib.block) :
  Difflib.extend_down eqb xs xs fuel true alo blo best = best.
Proof.
  destruct fuel; cbn [Difflib.extend_down]; [reflexivity|].
  destruct best as [[bi bj] bs]. rewrite junk_at_false.
  cbn [Bool.eqb]. now rewrite andb_false_r.
Qed.

Lemma extend_up_junk (fuel : nat) (ahi bhi : Z) (best : Difflib.block) :
  Difflib.extend_up eqb xs xs fuel true ahi bhi best = best.
Proof.
  destruct fuel; cbn [Difflib.extend_up]; [reflexivity|].
  destruct best as [[bi bj] bs]. rewrite junk_at_false.
  cbn [Bool.eqb]. now rewrite andb_false_r.
Qed.

(** The longest match of a sequence with itself is the whole sequence. *)
Lemma find_longest_match_same :
  Difflib.find_longest_match eqb xs xs b2j 0 n 0 n = (0, 0, n).
Proof.
  unfold Difflib.find_longest_match.
  assert (Hn : 0 <= n) by (unfold n, len; lia).
  destruct (flm_rows_diagonal n row row_self row_class eqb xs b2j row_sorted
              (fun i => eq_refl) (Z.to_nat n) 0 [] 0 0)
    as [bi [bs [-> [Hbi [Hbs Hsum]]]]]; try lia.
  - intros j. rewrite (run_negative row (0 - 1)) by lia.
    pose proof (run_bounds row j). unfold Difflib.j2len_get. simpl. lia.
  - rewrite (run_negative row (0 - 1)) by lia. reflexivity.
  - rewrite Z.sub_0_r, extend_down_diagonal by lia.
    replace (n - (0 + (bs + bi))) with (n - (bs + bi)) by lia.
    rewrite extend_up_diagonal by lia.
    now rewrite extend_down_junk, extend_up_junk.
Qed.

Lemma matching_loop_done (fuel : nat) (acc : list Difflib.block) :
  Difflib.matching_loop eqb xs xs b2j fuel [] acc = acc.
Proof. destruct fuel; reflexivity. Qed.

Lemma get_opcodes_same :
  Difflib.get_opcodes eqb xs xs
  = if n =? 0 then [] else [Difflib.Op Difflib.Equal 0 n 0 n].
Proof.
  unfold Difflib.get_opcodes, Difflib.get_matching_blocks.
  cbn [Difflib.matching_loop]. fold b2j. fold n.
  rewrite find_longest_match_same.
  assert (Hn : 0 <= n) by (unfold n, len; lia).
  destruct (Z.eqb_spec n 0) as [Hz|Hnz].
  - rewrite matching_loop_done. rewrite Hz. reflexivity.
  - replace (0 + n <? n) with false by (symmetry; apply Z.ltb_ge; lia).
    cbn [Z.ltb Z.compare andb app]. rewrite matching_loop_done.
    cbn [Difflib.sort_blocks fold_right Difflib.insert_block Difflib.collapse
         Z.add Z.eqb andb].
    destruct (Z.eqb_spec n 0) as [|_]; [contradiction|].
    cbn [app Difflib.opcodes_from Z.ltb Z.compare andb Z.add Z.eqb].
    destruct (Z.eqb_spec n 0) as [|_]; [contradiction|].
    rewrite Z.ltb_irrefl. reflexivity.
Qed.

(** With a context that is not negative, two equal sequences have no
    group of opcodes to show. *)
Lemma get_grouped_opcodes_same (c : Z) :
  0 <= c -> Difflib.get_grouped_opcodes eqb xs xs c = [].
Proof.
  intros Hc. unfold Difflib.get_grouped_opcodes. rewrite get_opcodes_same.
  assert (Hn : 0 <= n) by (unfold n, len; lia).
  assert (Hsingle : forall m, 1 <= m ->
            Difflib.group_loop c
              (Difflib.fix_last c (Difflib.fix_first c [Difflib.Op Difflib.Equal 0 m 0 m]))
              [] = []).
  { intros m Hm. cbn [Difflib.fix_first Difflib.fix_last Difflib.group_loop
                      Difflib.tag_eqb andb].
    replace (c + c <? Z.min m (Z.max 0 (m - c) + c) - Z.max 0 (m - c)) with false
      by (symmetry; apply Z.ltb_ge; lia).
    reflexivity. }
  destruct (Z.eqb_spec n 0); apply Hsingle; lia.
Qed.

End MatcherSame.

(** ** [diff(x, x)] for a multi-line string, a list and a tuple *)

Lemma string_eqb_equivalence (lines : list string) : equivalence_on String.eqb lines.
Proof.
  repeat split.
  - intros x _. apply String.eqb_refl.
  - intros x y _ _ H. apply String.eqb_eq in H. subst. apply String.eqb_refl.
  - intros x y z _ _ _ H1 H2. apply String.eqb_eq in H1. now subst.
Qed.

Lemma py_eq_plain (x : value) :
  plain x = true -> forall y, py_eq x y = true -> x = y.
Proof.
  induction x as [ | n | s | xs IH | xs IH | kvs IH | xs IH | xs IH | f | m | i ]
    using value_ind; intros Hplain y; try discriminate Hplain;
    destruct y; try discriminate; simpl.
  - reflexivity.
  - intros H. apply Z.eqb_eq in H. now subst.
  - intros H. apply String.eqb_eq in H. now subst.
  - intros H. f_equal. simpl in Hplain. revert xs0 H.
    induction IH as [|x Hx xs _ IHxs]; intros [|y ys]; try discriminate; [reflexivity|].
    simpl in Hplain. apply andb_true_iff in Hplain. destruct Hplain as [Hp Hps].
    intros H. apply andb_true_iff in H. destruct H as [H1 H2].
    f_equal; [now apply Hx | now apply IHxs].
  - intros H. f_equal. simpl in Hplain. revert xs0 H.
    induction IH as [|x Hx xs _ IHxs]; intros [|y ys]; try discriminate; [reflexivity|].
    simpl in Hplain. apply andb_true_iff in Hplain. destruct Hplain as [Hp Hps].
    intros H. apply andb_true_iff in H. destruct H as [H1 H2].
    f_equal; [now apply Hx | now apply IHxs].
  - intros H. apply String.eqb_eq in H. now subst.
  - intros H. apply String.eqb_eq in H. now subst.
  - intros H. apply String.eqb_eq in H. now subst.
Qed.

Lemma py_eq_equivalence_plain (xs : list value) :
  forallb plain xs = true -> equivalence_on py_eq xs.
Proof.
  intros Hplain. rewrite forallb_forall in Hplain. repeat split.
  - intros x _. apply py_eq_refl.
  - intros x y Hx _ H. apply (py_eq_plain x (Hplain x Hx)) in H. subst. apply py_eq_refl.
  - intros x y z Hx _ _ H1 H2. apply (py_eq_plain x (Hplain x Hx)) in H1. now subst.
Qed.

Lemma hashable_sequence (xs : list value) (s : value) :
  s = VList xs \/ s = VTuple xs ->
  hashable s
  = match hashable_all xs with
    | Ok hs => if hash_ok (VTuple hs) then Ok (VTuple hs) else Err (NotHashable s)
    | Err _ => Err (NotHashable s)
    end.
Proof.
  assert (Heach : forall l,
            (fix each (xs : list value) : result (list value) :=
               match xs with
               | [] => Ok []
               | x :: xs' => h <- hashable x ;; hs <- each xs' ;; Ok (h :: hs)
               end) l = hashable_all l).
  { induction l as [|x l IHl]; [reflexivity|]. simpl. now rewrite IHl. }
  intros [->| ->]; cbn -[hash_ok]; rewrite Heach;
    destruct (hashable_all xs); reflexivity.
Qed.

Lemma hashable_plain (x : value) :
  plain x = true -> forall h, hashable x = Ok h -> plain h = true.
Proof.
  induction x as [ | n | s | xs IH | xs IH | kvs IH | xs IH | xs IH | f | m | i ]
    using value_ind; intros Hplain h; try discriminate Hplain;
    try (cbn; intros [= <-]; reflexivity).
  - rewrite (hashable_sequence xs) by now left.
    destruct (hashable_all xs) as [hs|] eqn:Hall; [|discriminate].
    destruct (hash_ok (VTuple hs)); [|discriminate]. intros [= <-].
    simpl in *. revert hs Hall.
    induction IH as [|x Hx xs _ IHxs]; simpl; intros hs; [now intros [= <-]|].
    apply andb_true_iff in Hplain. destruct Hplain as [Hp Hps].
    destruct (hashable x) as [hx|] eqn:Hhx; [|discriminate]. simpl.
    destruct (hashable_all xs) as [hxs|]; [|discriminate]. simpl. intros [= <-].
    simpl. rewrite (Hx Hp hx eq_refl). simpl. now apply IHxs.
  - rewrite (hashable_sequence xs) by now right.
    destruct (hashable_all xs) as [hs|] eqn:Hall; [|discriminate].
    destruct (hash_ok (VTuple hs)); [|discriminate]. intros [= <-].
    simpl in *. revert hs Hall.
    induction IH as [|x Hx xs _ IHxs]; simpl; intros hs; [now intros [= <-]|].
    apply andb_true_iff in Hplain. destruct Hplain as [Hp Hps].
    destruct (hashable x) as [hx|] eqn:Hhx; [|discriminate]. simpl.
    destruct (hashable_all xs) as [hxs|]; [|discriminate]. simpl. intros [= <-].
    simpl. rewrite (Hx Hp hx eq_refl). simpl. now apply IHxs.
Qed.

Lemma hashable_all_plain (xs hs : list value) :
  forallb plain xs = true -> hashable_all xs = Ok hs -> forallb plain hs = true.
Proof.
  revert hs. induction xs as [|x xs IH]; simpl; intros hs Hplain; [now intros [= <-]|].
  apply andb_true_iff in Hplain. destruct Hplain as [Hp Hps].
  destruct (hashable x) as [hx|] eqn:Hhx; [|discriminate]. simpl.
  destruct (hashable_all xs) as [hxs|]; [|discriminate]. simpl. intros [= <-].
  simpl. rewrite (hashable_plain x Hp hx Hhx). simpl. now apply IH.
Qed.

(** X14.  [hashable] raises [NotHashable] for a value with an unhashable
    object among the leaves of its nested lists and tuples, and the
    exception names the value [hashable] was called on, not the leaf. *)
Lemma unhashable_leaf_fails (v : value) :
  has_unhashable_leaf v = true -> hashable v = Err (NotHashable v).
Proof.
  induction v as [ | n | s | xs IH | xs IH | kvs IH | xs IH | xs IH | f | m | i ]
    using value_ind; intros Hleaf; try discriminate Hleaf; [| |reflexivity].
  - rewrite (hashable_sequence xs) by now left.
    assert (Hfail : exists e, hashable_all xs = Err e).
    { simpl in Hleaf. induction IH as [|x Hx xs _ IHxs]; [discriminate|].
      simpl in Hleaf. apply orb_true_iff in Hleaf. simpl.
      destruct Hleaf as [Hl|Hl].
      - rewrite (Hx Hl). simpl. eauto.
      - destruct (hashable x); simpl; [|eauto].
        destruct (IHxs Hl) as [e ->]. simpl. eauto. }
    destruct Hfail as [e ->]. reflexivity.
  - rewrite (hashable_sequence xs) by now right.
    assert (Hfail : exists e, hashable_all xs = Err e).
    { simpl in Hleaf. induction IH as [|x Hx xs _ IHxs]; [discriminate|].
      simpl in Hleaf. apply orb_true_iff in Hleaf. simpl.
      destruct Hleaf as [Hl|Hl].
      - rewrite (Hx Hl). simpl. eauto.
      - destruct (hashable x); simpl; [|eauto].
        destruct (IHxs Hl) as [e ->]. simpl. eauto. }
    destruct Hfail as [e ->]. reflexivity.
Qed.


Section SameSequence.
Variable call : string -> value -> value + value.
Variable py_hash : value -> Z.

(** X3.  The diff of a multi-line string with itself is the empty string,
    for every [context] that is not negative. *)
Theorem diff_same_text_is_empty (s : string) (context depth : Z)
        (fromfile tofile : string) (cwf : bool) :
  has_newline s = true -> 0 <= context ->
  diff call py_hash (VStr s) (VStr s) context depth fromfile tofile cwf
  = Ok (OVal (VStr "")).
Proof.
  intros Hs Hc. unfold diff. cbn [diff_fuel]. unfold diff_body. rewrite Hs. cbn [orb].
  unfold unified_diff_strings, Difflib.unified_diff.
  now rewrite (get_grouped_opcodes_same String.eqb (split_lines s)
                 (string_eqb_equivalence _) context Hc).
Qed.

(** The sequence differ on a sequence and itself, when [==] is an
    equivalence on the hashable forms of the elements. *)
Lemma diff_seq_same (rec : differ) (context depth : Z) (cwf : bool)
      (a : value) (xs hs : list value) (fromfile tofile : string) :
  sequence_items a = Some xs -> hashable_all xs = Ok hs ->
  equivalence_on py_eq hs -> 0 <= context ->
  exists d, diff_seq call rec context depth cwf a a fromfile tofile = Ok d
            /\ DD.diffs d = [].
Proof.
  intros Ha Hhs Hequiv Hc. unfold diff_seq.
  assert (Hiter : has_iter_or_getitem a = true) by (destruct a; try discriminate; reflexivity).
  rewrite Hiter, Ha, Hhs. cbn [negb bind].
  rewrite (get_grouped_opcodes_same py_eq hs Hequiv context Hc). cbn [for_each].
  eexists. split; [reflexivity|].
  destruct (pytype_eqb (type_of a) TTuple); [reflexivity|].
  destruct (pytype_eqb (type_of a) TList); reflexivity.
Qed.

(** X1.  The diff of a list or a tuple of plain values (scalars, and lists
    and tuples of them) with itself is a tree without entries, which is
    false, for every [context] that is not negative; it raises
    [NotHashable] when an element is not hashable. *)
Theorem diff_same_list_is_empty (a : value) (xs : list value) (context depth : Z)
        (fromfile tofile : string) (cwf : bool) :
  sequence_items a = Some xs -> forallb plain xs = true -> 0 <= context ->
  match diff call py_hash a a context depth fromfile tofile cwf with
  | Ok r => obj_bool r = false /\ exists d, r = ODiff d /\ DD.diffs d = []
  | Err e => exists s, In s xs /\ e = NotHashable s
  end.
Proof.
  intros Ha Hplain Hc. unfold diff. cbn [diff_fuel].
  rewrite (diff_body_sequence call py_hash _ a a xs) by auto.
  unfold try_diff_seq.
  destruct (hashable_all xs) as [hs|e] eqn:Hall.
  - destruct (diff_seq_same (diff_fuel call py_hash (height a)) context depth cwf
                a xs hs fromfile tofile Ha Hall) as [d [-> Hd]]; auto.
    + apply py_eq_equivalence_plain. now apply hashable_all_plain with xs.
    + split; [|eauto]. cbn [obj_bool]. unfold DD.__bool__. now rewrite Hd.
  - destruct (hashable_all_raises xs e Hall) as [s [Hs ->]].
    unfold diff_seq.
    assert (Hiter : has_iter_or_getitem a = true)
      by (destruct a; try discriminate; reflexivity).
    rewrite Hiter, Ha, Hall. cbn [negb bind]. eauto.
Qed.

End SameSequence.

(** ** The end markers of a diff of two lists *)

Section ListMarkers.
Variable call : string -> value -> value + value.
Variable py_hash : value -> Z.

Lemma diff_seq_chunks (rec : differ) (context depth : Z) (cwf : bool)
      (a b : value) (xs ys hxs hys : list value) (fromfile tofile : string) :
  sequence_items a = Some xs -> sequence_items b = Some ys ->
  hashable_all xs = Ok hxs -> hashable_all ys = Ok hys ->
  exists ddiff,
    DD.diffs ddiff = []
    /\ diff_seq call rec context depth cwf a b fromfile tofile
       = for_each (diff_seq_step call rec context depth cwf xs ys)
                  (Difflib.get_grouped_opcodes py_eq hxs hys context) ddiff.
Proof.
  intros Ha Hb Hxs Hys. unfold diff_seq.
  assert (Hiter : has_iter_or_getitem a = true) by (destruct a; try discriminate; reflexivity).
  rewrite Hiter, Ha, Hb, Hxs, Hys. cbn [negb bind].
  eexists. split; [|reflexivity].
  destruct (pytype_eqb (type_of a) TTuple); [reflexivity|].
  destruct (pytype_eqb (type_of b) TList); reflexivity.
Qed.

(** X17.  In the diff of two lists there are as many end markers as there
    are kept chunks that end before the end of [a]. *)
Lemma diff_list_markers (xs ys hxs hys : list value) (context depth : Z)
      (fromfile tofile : string) (cwf : bool) (d : DataDiff) :
  hashable_all xs = Ok hxs -> hashable_all ys = Ok hys ->
  diff call py_hash (VList xs) (VList ys) context depth fromfile tofile cwf = Ok (ODiff d) ->
  exists ddiff,
    DD.diffs ddiff = []
    /\ count_markers (DD.diffs d)
       = List.length
           (filter (fun chunk =>
                      chunk_kept call (diff call py_hash) context depth cwf xs ys ddiff chunk
                      && ends_before xs chunk)
                   (Difflib.get_grouped_opcodes py_eq hxs hys context)).
Proof.
  intros Hxs Hys. rewrite diff_equation.
  rewrite (diff_body_sequence call py_hash _ (VList xs) (VList ys) xs) by reflexivity.
  unfold try_diff_seq.
  destruct (diff_seq_chunks (diff call py_hash) context depth cwf (VList xs) (VList ys)
              xs ys hxs hys fromfile tofile eq_refl eq_refl Hxs Hys)
    as [ddiff [Hempty ->]].
  destruct (for_each _ _ ddiff) as [tree|e] eqn:Hloop.
  - intros [= <-]. exists ddiff. split; [exact Hempty|].
    rewrite (markers_of_kept_chunks call (diff call py_hash) context depth cwf xs ys
               _ ddiff tree Hloop).
    rewrite Hempty. reflexivity.
  - destruct e; discriminate.
Qed.

End ListMarkers.

(** ** The exceptions that reach the caller of [diff] *)

Lemma compares_with_func_raises (call : string -> value -> value + value)
      (a b : value) (e : exn) :
  compares_with_func call a b = Err e -> exists v, e = Raised v.
Proof.
  unfold compares_with_func. destruct a; try discriminate.
  destruct (call name b) as [r|v]; [discriminate|]. intros [= <-]. eauto.
Qed.

Lemma subscript0_raises (v : value) (e : exn) :
  subscript0 v = Err e -> e = TypeError \/ e = IndexError \/ e = KeyError.
Proof. unfold subscript0. case_split; intros [= <-]; auto. Qed.

Lemma sort_key_raises (py_hash : value -> Z) (en : entry) (e : exn) :
  diffitem_dictitem_sort_key py_hash en = Err e ->
  e = TypeError \/ e = IndexError \/ e = KeyError.
Proof.
  assert (Hobj : forall o e', obj_subscript0 o = Err e' ->
                   e' = TypeError \/ e' = IndexError \/ e' = KeyError).
  { intros [v|d|key val dep] e'; simpl; [apply subscript0_raises| |discriminate].
    intros [= <-]. auto. }
  assert (Hkey : forall (key : value) e',
             match key with
             | VStr s => Ok (KStr s)
             | VInt n => Ok (KInt n)
             | _ => if hash_ok key then Ok (KInt (Z.abs (py_hash key))) else Err TypeError
             end = Err e' -> e' = TypeError).
  { intros key e'. destruct key; try discriminate;
      try (destruct (hash_ok _); [discriminate|]); now intros [= <-]. }
  unfold diffitem_dictitem_sort_key.
  destruct en as [a1 a2 b1 b2| |o|c items].
  - cbn [bind]. intros [= <-]. auto.
  - cbn [bind]. intros [= <-]. auto.
  - destruct o as [v|d|key val dep]; [|discriminate|].
    + cbn [obj_subscript0]. unfold bind at 2.
      destruct (subscript0 v) as [first|e1] eqn:H1.
      * unfold bind. destruct (subscript0 first) as [k|e2] eqn:H2.
        -- intros H. left. now apply (Hkey k).
        -- intros [= <-]. now apply (subscript0_raises first).
      * cbn [bind]. intros [= <-]. now apply (subscript0_raises v).
    + cbn [obj_subscript0 bind].
      unfold bind. destruct (subscript0 key) as [k|e2] eqn:H2.
      * intros H. left. now apply (Hkey k).
      * intros [= <-]. now apply (subscript0_raises key).
  - destruct items as [|first rest].
    + cbn [bind]. intros [= <-]. auto.
    + unfold bind. destruct (obj_subscript0 first) as [k|e2] eqn:H2.
      * intros H. left. now apply (Hkey k).
      * intros [= <-]. now apply (Hobj first).
Qed.

Lemma sort_diffs_raises (py_hash : value -> Z) (es : list entry) (e : exn) :
  sort_diffs py_hash es = Err e -> e = TypeError \/ e = IndexError \/ e = KeyError.
Proof.
  unfold sort_diffs.
  assert (H : forall e', with_keys py_hash es = Err e' ->
                e' = TypeError \/ e' = IndexError \/ e' = KeyError).
  { induction es as [|en es IH]; simpl; [discriminate|]. intros e'.
    destruct (diffitem_dictitem_sort_key py_hash en) as [k|e1] eqn:Hk; cbn [bind].
    - destruct (with_keys py_hash es) as [rest|e2]; cbn [bind]; [discriminate|].
      intros [= <-]. now apply IH.
    - intros [= <-]. now apply (sort_key_raises py_hash en). }
  destruct (with_keys py_hash es) as [keyed|e1]; cbn [bind].
  - intros Hs. left. now apply (sort_by_key_raises keyed).
  - intros [= <-]. now apply H.
Qed.

Lemma pytype_eqb_neq (s t : pytype) : pytype_eqb s t = false -> s <> t.
Proof. intros H ->. now destruct t. Qed.

Section Exceptions.
Variable call : string -> value -> value + value.
Variable py_hash : value -> Z.

(** What the body of [diff] raises, when its recursive calls raise only
    exceptions that reach a caller. *)
Lemma diff_body_raises (rec : differ) (a : value) :
  (forall a2 b2 context depth fromfile tofile cwf e,
      (height a2 < height a)%nat ->
      rec a2 b2 context depth fromfile tofile cwf = Err e -> surfaces e = true) ->
  forall b context depth fromfile tofile cwf e,
    diff_body call py_hash rec a b context depth fromfile tofile cwf = Err e ->
    match e with
    | DiffTypeError f g x y =>
        type_of a <> type_of b /\ f = fromfile /\ g = tofile /\ x = a /\ y = b
    | DiffNotImplementedForType t => t = type_of a
    | NotSequence _ | Raised _ | OutOfFuel => False
    | _ => True
    end.
Proof.
  intros Hrec b context depth fromfile tofile cwf e Hbody.
  assert (Hfuel : e <> OutOfFuel).
  { intros ->. revert Hbody. apply diff_body_python.
    intros a2 b2 c d f t w Hlt Hout.
    now pose proof (Hrec a2 b2 c d f t w _ Hlt Hout). }
  revert Hbody. unfold diff_body.
  assert (Hseq : forall r : result obj,
            match try_diff_seq call rec context depth cwf a b fromfile tofile with
            | Ok d => Ok (ODiff d)
            | Err (NotSequence _) => Err (DiffNotImplementedForType (type_of a))
            | Err e' => Err e'
            end = Err e ->
            match e with
            | DiffTypeError f g x y =>
                type_of a <> type_of b /\ f = fromfile /\ g = tofile /\ x = a /\ y = b
            | DiffNotImplementedForType t => t = type_of a
            | NotSequence _ | Raised _ | OutOfFuel => False
            | _ => True
            end).
  { intros _. unfold try_diff_seq.
    destruct (diff_seq call rec context depth cwf a b fromfile tofile) as [d|e'];
      [discriminate|].
    destruct e'; intros [= <-]; try reflexivity; try exact I. now elim Hfuel. }
  assert (Hmis : pytype_eqb (type_of a) (type_of b) = false ->
            (if cwf && callable a
             then
               match compares_with_func call a b with
               | Ok false =>
                   Ok (ODiff (DD.insert (DD.delete (DD.__init__ (type_of b) None fromfile tofile)
                                                   (OVal a)) (OVal b)))
               | Ok true => Ok (ODiff (DD.equal (DD.__init__ (type_of b) None fromfile tofile)
                                                (OVal b)))
               | Err (Raised e') =>
                   Ok (ODiff (DD.insert (DD.delete (DD.__init__ (type_of b) None fromfile tofile)
                                                   (OVal e')) (OVal b)))
               | Err e' => Err e'
               end
             else Err (DiffTypeError fromfile tofile a b)) = Err e ->
            match e with
            | DiffTypeError f g x y =>
                type_of a <> type_of b /\ f = fromfile /\ g = tofile /\ x = a /\ y = b
            | DiffNotImplementedForType t => t = type_of a
            | NotSequence _ | Raised _ | OutOfFuel => False
            | _ => True
            end).
  { intros Hneq. destruct (cwf && callable a).
    - destruct (compares_with_func call a b) as [[|]|e'] eqn:Hcmp; try discriminate.
      destruct (compares_with_func_raises call a b e' Hcmp) as [v ->]. discriminate.
    - intros [= <-]. repeat split. now apply pytype_eqb_neq. }
  destruct a as [ | n | s | xs | xs | kvs | xs | xs | f | m | i ],
           b as [ | n' | s' | ys | ys | kvs' | ys | ys | f' | m' | i' ];
    try (cbn [type_of pytype_eqb negb]; apply (Hseq (Err e)));
    try (cbn [type_of pytype_eqb negb]; apply Hmis; reflexivity);
    try discriminate.
  - destruct (has_newline s || has_newline s'); [discriminate|]. now intros [= <-].
  - cbn [type_of pytype_eqb negb]. unfold diff_dict.
    destruct (for_each _ (map fst kvs) _) as [[ddiff budget]|e1] eqn:Hkeys; cbn [bind].
    + destruct (for_each _ (map fst kvs') ddiff) as [ddiff'|e2] eqn:Hins; cbn [bind].
      * destruct (sort_diffs py_hash (DD.diffs ddiff')) as [sorted|e3] eqn:Hsort;
          cbn [bind]; [discriminate|].
        intros [= <-].
        destruct (sort_diffs_raises py_hash _ _ Hsort) as [->|[->| ->]]; exact I.
      * intros [= <-]. apply for_each_err in Hins. destruct Hins as [key [d [_ Hins]]].
        revert Hins. unfold diff_dict_insert.
        destruct (member key (map fst kvs)); [discriminate|].
        destruct (lookup key kvs'); [discriminate|]. now intros [= <-].
    + intros [= <-]. apply for_each_err in Hkeys. destruct Hkeys as [key [[d c] [_ Hkey]]].
      revert Hkey. unfold diff_dict_key.
      destruct (lookup key kvs') as [bval|].
      * destruct (lookup key kvs) as [aval|] eqn:Ha; [|now intros [= <-]].
        destruct (negb (py_eq aval bval)); [|discriminate].
        destruct (cwf && callable aval).
        -- destruct (compares_with_func call aval bval) as [[|]|e'] eqn:Hcmp;
             try discriminate.
           destruct (compares_with_func_raises call aval bval e' Hcmp) as [v ->].
           discriminate.
        -- destruct (rec aval bval c (depth + 1) "a" "b" cwf) as [nested|e'] eqn:Hr.
           ++ destruct (negb (obj_bool nested)); discriminate.
           ++ pose proof (Hrec aval bval c (depth + 1) "a" "b" cwf e'
                                (height_dict_value key aval kvs Ha) Hr) as Hs.
              destruct e'; try discriminate; intros [= <-]; exact I.
      * destruct (lookup key kvs); [discriminate|]. now intros [= <-].
Qed.

Lemma diff_raises (a b : value) (context depth : Z) (fromfile tofile : string)
      (cwf : bool) (e : exn) :
  diff call py_hash a b context depth fromfile tofile cwf = Err e ->
  match e with
  | DiffTypeError f g x y =>
      type_of a <> type_of b /\ f = fromfile /\ g = tofile /\ x = a /\ y = b
  | DiffNotImplementedForType t => t = type_of a
  | NotSequence _ | Raised _ | OutOfFuel => False
  | _ => True
  end.
Proof.
  revert b context depth fromfile tofile cwf e.
  induction a as [a IH] using (induction_ltof1 _ height). unfold ltof in IH.
  intros b context depth fromfile tofile cwf e. rewrite diff_equation.
  apply diff_body_raises.
  intros a2 b2 c d f t w e2 Hlt He2.
  pose proof (IH a2 Hlt b2 c d f t w e2 He2) as H.
  destruct e2; try reflexivity; now elim H.
Qed.

(** X5.  [NotSequence] and the exception that a callable raises (an
    [Exception] that is none of the module's own) never reach the caller
    of [diff]: [diff] turns the first into [DiffNotImplementedForType], and
    the second is caught where the callable is called or by
    [try_diff_seq]. *)
Theorem internal_exceptions_never_escape (a b : value) (context depth : Z)
        (fromfile tofile : string) (cwf : bool) :
  (forall t, diff call py_hash a b context depth fromfile tofile cwf <> Err (NotSequence t))
  /\ (forall v, diff call py_hash a b context depth fromfile tofile cwf <> Err (Raised v)).
Proof.
  split; intros x H; exact (diff_raises a b context depth fromfile tofile cwf _ H).
Qed.

(** X6.  The type errors that [diff] raises are about its own arguments:
    a [DiffTypeError] carries the two labels and the two values of the
    call, whose types differ, and a [DiffNotImplementedForType] carries the
    type of [a].  A type error of a recursive call never reaches the
    caller. *)
Theorem type_errors_are_about_the_arguments (a b : value) (context depth : Z)
        (fromfile tofile : string) (cwf : bool) (e : exn) :
  diff call py_hash a b context depth fromfile tofile cwf = Err e ->
  is_DiffTypeError e = true ->
  e = DiffNotImplementedForType (type_of a)
  \/ (e = DiffTypeError fromfile tofile a b /\ type_of a <> type_of b).
Proof.
  intros H Hclass. pose proof (diff_raises a b context depth fromfile tofile cwf e H) as He.
  destruct e; try discriminate Hclass.
  - right. destruct He as [Hne [-> [-> [-> ->]]]]. now split.
  - left. now rewrite He.
Qed.

(** X7.  Two values of one type that is neither a string, a dict, a set
    nor a sequence (two ints, two functions, [None] and [None]) are
    refused with [DiffNotImplementedForType] of that type, equal or not. *)
Theorem diff_of_scalars_not_implemented (a b : value) (context depth : Z)
        (fromfile tofile : string) (cwf : bool) :
  has_iter_or_getitem a = false -> type_of a = type_of b ->
  diff call py_hash a b context depth fromfile tofile cwf
  = Err (DiffNotImplementedForType (type_of a)).
Proof.
  intros Ha Hty. rewrite diff_equation.
  destruct a, b; try discriminate Ha; try discriminate Hty; reflexivity.
Qed.

(** X8.  Whatever [diff_seq] raises on two lists or two tuples, apart from
    [NotHashable], reaches the caller of [diff] as
    [DiffNotImplementedForType] of the type of [a]; the exception that an
    element of [a] raises when [compares_with_func] calls it is one. *)
Theorem sequence_failure_is_not_implemented (a b : value) (xs : list value)
        (context depth : Z) (fromfile tofile : string) (cwf : bool) (e : exn) :
  sequence_items a = Some xs -> type_of a = type_of b ->
  diff_seq call (diff call py_hash) context depth cwf a b fromfile tofile = Err e ->
  (forall s, e <> NotHashable s) ->
  diff call py_hash a b context depth fromfile tofile cwf
  = Err (DiffNotImplementedForType (type_of a)).
Proof.
  intros Ha Hty Hseq Hnot.
  pose proof (diff_raises a b context depth fromfile tofile cwf) as Hout.
  revert Hout. rewrite diff_equation.
  assert (Hbody : diff_body call py_hash (diff call py_hash) a b context depth
                            fromfile tofile cwf
                  = match try_diff_seq call (diff call py_hash) context depth cwf a b
                                       fromfile tofile with
                    | Ok d => Ok (ODiff d)
                    | Err (NotSequence _) => Err (DiffNotImplementedForType (type_of a))
                    | Err e' => Err e'
                    end).
  { destruct a, b; try discriminate Ha; try discriminate Hty; reflexivity. }
  rewrite Hbody. unfold try_diff_seq. rewrite Hseq.
  destruct e; try reflexivity.
  - now elim (Hnot s).
  - intros Hout. now elim (Hout OutOfFuel).
Qed.

End Exceptions.


(** ** [hashable] *)

(** X13.  What [hashable] returns is hashable, and [hashable] leaves it as
    it is: a second conversion changes nothing. *)
Theorem hashable_idempotent (s r : value) :
  hashable s = Ok r -> hash_ok r = true /\ hashable r = Ok r.
Proof.
  revert r.
  induction s as [ | n | t | xs IH | xs IH | kvs IH | xs IH | xs IH | f | m | i ]
    using value_ind; intros r;
    try (cbn; intros [= <-]; split; reflexivity);
    try discriminate.
  - rewrite (hashable_sequence xs) by now left.
    destruct (hashable_all xs) as [hs|] eqn:Hall; [|discriminate].
    destruct (hash_ok (VTuple hs)) eqn:Hok; [|discriminate]. intros [= <-].
    split; [exact Hok|].
    rewrite (hashable_sequence hs) by now right.
    assert (Hhs : hashable_all hs = Ok hs).
    { clear Hok. revert hs Hall. induction IH as [|x Hx xs _ IHxs]; simpl; intros hs.
      - now intros [= <-].
      - destruct (hashable x) as [h|] eqn:Hh; [|discriminate]. simpl.
        destruct (hashable_all xs) as [hs'|]; [|discriminate]. simpl. intros [= <-].
        simpl. destruct (Hx h eq_refl) as [_ ->]. simpl.
        now rewrite (IHxs hs' eq_refl). }
    now rewrite Hhs, Hok.
  - rewrite (hashable_sequence xs) by now right.
    destruct (hashable_all xs) as [hs|] eqn:Hall; [|discriminate].
    destruct (hash_ok (VTuple hs)) eqn:Hok; [|discriminate]. intros [= <-].
    split; [exact Hok|].
    rewrite (hashable_sequence hs) by now right.
    assert (Hhs : hashable_all hs = Ok hs).
    { clear Hok. revert hs Hall. induction IH as [|x Hx xs _ IHxs]; simpl; intros hs.
      - now intros [= <-].
      - destruct (hashable x) as [h|] eqn:Hh; [|discriminate]. simpl.
        destruct (hashable_all xs) as [hs'|]; [|discriminate]. simpl. intros [= <-].
        simpl. destruct (Hx h eq_refl) as [_ ->]. simpl.
        now rewrite (IHxs hs' eq_refl). }
    now rewrite Hhs, Hok.
  - cbn -[hash_ok].
    match goal with
    | |- context [bind ?c _] => destruct c as [hs|]; [|discriminate]
    end.
    cbn. intros [= <-]. split; reflexivity.
Qed.

(** ** The set differ on any two sets *)

Section SetsAreTrue.
Variable call : string -> value -> value + value.
Variable py_hash : value -> Z.

(** X4.  The diff of two sets, and of two frozensets, holds a [delete] run
    of the elements of [a] that are not in [b] and an [insert] run of the
    elements of [b] that are not in [a], empty or not, and it is true:
    [diff] never returns a false tree for two sets. *)
Theorem diff_of_sets_is_true (xs ys : list value) (context depth : Z)
        (fromfile tofile : string) (cwf : bool) :
  (exists d rest,
      diff call py_hash (VSet xs) (VSet ys) context depth fromfile tofile cwf = Ok (ODiff d)
      /\ DD.diffs d = Multi CDelete (map OVal (difference xs ys))
                      :: Multi CInsert (map OVal (difference ys xs)) :: rest
      /\ DD.__bool__ d = true)
  /\ (exists d rest,
         diff call py_hash (VFrozenset xs) (VFrozenset ys) context depth fromfile tofile cwf
         = Ok (ODiff d)
         /\ DD.diffs d = Multi CDelete (map OVal (difference xs ys))
                         :: Multi CInsert (map OVal (difference ys xs)) :: rest
         /\ DD.__bool__ d = true).
Proof.
  split; rewrite diff_equation; unfold diff_body; cbn [type_of pytype_eqb negb];
    unfold diff_set;
    destruct (context <? len (intersection xs ys));
    eexists; eexists; (split; [reflexivity|split; reflexivity]).
Qed.

End SetsAreTrue.

(** ** Rendering *)

Lemma append_nil_l (s t : string) : (s ++ t)%string = "" -> t = "".
Proof. destruct s; [trivial|discriminate]. Qed.

Lemma join_two_lines (l1 l2 : string) (rest : list string) :
  join_lines (l1 :: l2 :: rest) <> "".
Proof.
  cbn [join_lines]. intros H. apply append_nil_l in H. discriminate.
Qed.

Lemma join_lines_delimiters (first last : string) (body : list string) :
  join_lines (first :: body ++ [last]) <> "".
Proof. destruct body; apply join_two_lines. Qed.

(** X16.  [stringify] returns the empty string for a tree without entries
    only: a tree that holds an entry is rendered as its two delimiter lines
    at least. *)
Theorem stringify_empty_iff (repr : value -> string) (repr_object : string)
        (d : DataDiff) (depth : Z) (include_preamble : bool) :
  DD.stringify repr repr_object d depth include_preamble = "" <-> DD.diffs d = [].
Proof.
  destruct d as [t s e f g ds]. cbn [DD.diffs]. split.
  - destruct ds as [|en ds]; [reflexivity|]. cbn [DD.stringify].
    intros H. exfalso. revert H.
    destruct ((depth =? 0) && include_preamble).
    + apply join_two_lines.
    + cbn [app]. apply join_lines_delimiters.
  - intros ->. reflexivity.
Qed.


(** ** The entries of a diff of two sequences *)

Lemma items_from_map (xs l : list value) :
  (forall x, In x l -> In x xs) -> items_from xs (map OVal l).
Proof.
  intros H o Ho. apply in_map_iff in Ho. destruct Ho as [x [<- Hx]]. eauto.
Qed.

Lemma Forall_append_entry (P : entry -> Prop) (d : DataDiff) (e : entry) :
  Forall P (DD.diffs d) -> P e -> Forall P (DD.diffs (DD.append d e)).
Proof.
  intros Hd He. rewrite diffs_append. apply Forall_app. split; [exact Hd|].
  now constructor.
Qed.

Section SequenceEntries.
Variable call : string -> value -> value + value.
Variable py_hash : value -> Z.
Variable rec : differ.
Variables (context depth : Z) (cwf : bool).
Variables a b : list value.

(** What the loop over the pairs of a [replace] opcode keeps. *)
Let pairs_invariant (st : replace_state) : Prop :=
  Forall (entry_from a b) (DD.diffs (rs_chunk st))
  /\ (forall x, In x (consecutive_deletes st) -> In x a)
  /\ (forall y, In y (consecutive_inserts st) -> In y b).

Lemma replace_pair_entries (p : value * value) (st st' : replace_state) :
  In (fst p) a -> In (snd p) b -> pairs_invariant st ->
  replace_pair call rec context depth cwf p st = Ok st' -> pairs_invariant st'.
Proof.
  destruct p as [a2 b2]. cbn [fst snd]. intros Ha Hb [Hd [Hdel Hins]].
  unfold replace_pair.
  destruct (compares_with_func call a2 b2) as [[|]|e]; cbn [bind];
    [intros [= <-]; now repeat split| |discriminate].
  destruct (rec a2 b2 context (depth + 1) "a" "b" cwf) as [nested|e].
  - destruct (obj_bool nested) eqn:Hb'; cbn [negb]; intros [= <-];
      [|now repeat split].
    repeat split; cbn [rs_chunk consecutive_deletes consecutive_inserts];
      try (intros ? []).
    unfold DD.nested, DD.insert_multi, DD.delete_multi, DD.multi.
    repeat apply Forall_append_entry; try assumption.
    + now apply items_from_map.
    + now apply items_from_map.
  - destruct (is_DiffTypeError e); [|discriminate]. intros [= <-].
    repeat split; cbn [rs_chunk consecutive_deletes consecutive_inserts];
      [assumption| |].
    + intros x Hx. apply in_app_iff in Hx. destruct Hx as [Hx|[<-|[]]]; auto.
    + intros y Hy. apply in_app_iff in Hy. destruct Hy as [Hy|[<-|[]]]; auto.
Qed.

Lemma replace_finish_entries_from (i1 i2 j1 j2 : Z) (st : replace_state) :
  pairs_invariant st ->
  Forall (entry_from a b) (DD.diffs (replace_finish a b i1 i2 j1 j2 st)).
Proof.
  intros [Hd [Hdel Hins]]. unfold replace_finish.
  unfold DD.insert_multi, DD.delete_multi, DD.multi.
  destruct (i2 - i1 <? j2 - j1), (j2 - j1 <? i2 - i1);
    repeat apply Forall_append_entry; try assumption;
    apply items_from_map; try assumption; intros x; apply In_slice.
Qed.

Lemma for_each_pairs (ps : list (value * value)) (st st' : replace_state) :
  (forall p, In p ps -> In (fst p) a /\ In (snd p) b) -> pairs_invariant st ->
  for_each (replace_pair call rec context depth cwf) ps st = Ok st' ->
  pairs_invariant st'.
Proof.
  revert st. induction ps as [|p ps IH]; simpl; intros st Hps Hst.
  - now intros [= <-].
  - destruct (replace_pair call rec context depth cwf p st) as [st1|] eqn:Hp;
      [|discriminate].
    cbn [bind]. apply IH; [intros q Hq; apply Hps; now right|].
    destruct (Hps p (or_introl eq_refl)) as [Ha Hb].
    exact (replace_pair_entries p st st1 Ha Hb Hst Hp).
Qed.

Lemma diff_seq_opcode_entries (c : Difflib.opcode) (st st' : DataDiff * bool) :
  Forall (entry_from a b) (DD.diffs (fst st)) ->
  diff_seq_opcode call rec context depth cwf a b c st = Ok st' ->
  Forall (entry_from a b) (DD.diffs (fst st')).
Proof.
  destruct st as [chunk realy], c as [t i1 i2 j1 j2]. cbn [fst]. intros Hd.
  unfold diff_seq_opcode.
  destruct t;
    try (intros [= <-]; cbn [fst]; unfold DD.multi;
         apply Forall_append_entry; [assumption|];
         cbn [change_of_tag entry_from]; apply items_from_map;
         intros x; apply In_slice).
  unfold diff_seq_replace.
  destruct (for_each _ _ _) as [st|] eqn:Hpairs; [|discriminate]. cbn [bind].
  intros [= <-]. cbn [fst]. apply replace_finish_entries_from.
  apply (for_each_pairs _ _ st) in Hpairs; [exact Hpairs| |].
  - intros [a2 b2] Hin. split.
    + apply in_combine_l in Hin. now apply In_slice in Hin.
    + apply in_combine_r in Hin. now apply In_slice in Hin.
  - repeat split; cbn [rs_chunk consecutive_deletes consecutive_inserts];
      [assumption| |]; intros ? [].
Qed.

Lemma diff_seq_step_entries (chunk : list Difflib.opcode) (ddiff ddiff' : DataDiff) :
  Forall (entry_from a b) (DD.diffs ddiff) ->
  diff_seq_step call rec context depth cwf a b chunk ddiff = Ok ddiff' ->
  Forall (entry_from a b) (DD.diffs ddiff').
Proof.
  intros Hd. unfold diff_seq_step, diff_seq_chunk.
  destruct chunk as [|first rest]; [discriminate|].
  destruct (for_each _ (first :: rest) _) as [[chunk_ddiff realy]|] eqn:Hops;
    [|discriminate].
  cbn [bind]. intros [= <-].
  assert (Hchunk : Forall (entry_from a b) (DD.diffs chunk_ddiff)).
  { change chunk_ddiff with (fst (chunk_ddiff, realy)).
    revert Hops.
    apply (for_each_invariant (diff_seq_opcode call rec context depth cwf a b)
             (fun st => Forall (entry_from a b) (DD.diffs (fst st)))).
    - intros c st st'. apply diff_seq_opcode_entries.
    - cbn [fst]. unfold DD.context. rewrite diffs_clone_context.
      constructor; [exact I|constructor]. }
  destruct realy; [|exact Hd].
  rewrite diffs_set_diffs. apply Forall_app. split; [exact Hd|].
  destruct (_ <? _); [|exact Hchunk].
  unfold DD.context_end_container. now apply Forall_append_entry.
Qed.

End SequenceEntries.

Section SequenceEntriesOfDiff.
Variable call : string -> value -> value + value.
Variable py_hash : value -> Z.

(** X11.  A diff of two lists or two tuples holds nothing that is not in
    its arguments: the items of a [delete] run and of an [equal] run are
    elements of [a], the items of an [insert] run are elements of [b], and
    a nested entry holds a diff that is true, never an empty one. *)
Theorem sequence_entries_from_inputs (a b : value) (xs ys : list value)
        (context depth : Z) (fromfile tofile : string) (cwf : bool) (r : obj) :
  sequence_items a = Some xs -> sequence_items b = Some ys ->
  diff call py_hash a b context depth fromfile tofile cwf = Ok r ->
  exists d, r = ODiff d /\ Forall (entry_from xs ys) (DD.diffs d).
Proof.
  intros Ha Hb. rewrite diff_equation.
  destruct (pytype_eqb (type_of a) (type_of b)) eqn:Hty.
  - assert (Heq : type_of a = type_of b).
    { destruct a, b; try discriminate Ha; try discriminate Hb;
        try discriminate Hty; reflexivity. }
    rewrite (diff_body_sequence call py_hash _ a b xs) by assumption.
    unfold try_diff_seq.
    destruct (diff_seq _ _ _ _ _ a b fromfile tofile) as [d|e] eqn:Hseq;
      [|destruct e; discriminate].
    intros [= <-]. exists d. split; [reflexivity|].
    revert Hseq. unfold diff_seq. rewrite Ha, Hb.
    destruct (negb (has_iter_or_getitem a)); [discriminate|].
    destruct (hashable_all xs) as [hxs|]; [|discriminate].
    destruct (hashable_all ys) as [hys|]; [|discriminate].
    cbn [bind].
    apply (for_each_invariant
             (diff_seq_step call (diff call py_hash) context depth cwf xs ys)
             (fun d => Forall (entry_from xs ys) (DD.diffs d))).
    + intros chunk st st'. apply diff_seq_step_entries.
    + destruct (pytype_eqb (type_of a) TTuple); [constructor|].
      destruct (pytype_eqb (type_of b) TList); [constructor|].
      destruct (type_of a); constructor.
  - unfold diff_body.
    destruct a, b; try discriminate Ha; try discriminate Hb; try discriminate Hty;
      destruct cwf; cbn; discriminate.
Qed.

End SequenceEntriesOfDiff.


(** ** The entries of a diff of two dicts *)

Lemma for_each_invariant_In {A S : Type} (body : A -> S -> result S) (P : S -> Prop)
      (xs : list A) :
  (forall x st st', In x xs -> P st -> body x st = Ok st' -> P st') ->
  forall st st', P st -> for_each body xs st = Ok st' -> P st'.
Proof.
  induction xs as [|x xs IH]; simpl; intros Hbody st st' HP.
  - now intros [= <-].
  - destruct (body x st) as [st1|] eqn:Hx; [|discriminate]. cbn [bind].
    apply IH; [intros y s s' Hy; apply Hbody; now right|].
    exact (Hbody x st st1 (or_introl eq_refl) HP Hx).
Qed.

(** A loop whose turns keep [Q], and whose turn for [x0] makes it true,
    ends with [Q] when it comes by [x0]. *)
Lemma for_each_establishes {A S : Type} (body : A -> S -> result S) (Q : S -> Prop)
      (x0 : A) (xs : list A) :
  (forall x st st', Q st -> body x st = Ok st' -> Q st') ->
  (forall st st', body x0 st = Ok st' -> Q st') ->
  In x0 xs ->
  forall st st', for_each body xs st = Ok st' -> Q st'.
Proof.
  intros Hkeep Hmake. induction xs as [|x xs IH]; simpl; [intros []|].
  intros Hin st st'.
  destruct (body x st) as [st1|] eqn:Hx; [|discriminate]. cbn [bind].
  destruct Hin as [->|Hin].
  - apply (for_each_invariant body Q); [exact Hkeep|]. exact (Hmake st st1 Hx).
  - now apply IH.
Qed.

Lemma In_append_entry (d : DataDiff) (e e' : entry) :
  In e (DD.diffs d) -> In e (DD.diffs (DD.append d e')).
Proof. intros H. rewrite diffs_append. apply in_or_app. now left. Qed.

Lemma In_appended_entry (d : DataDiff) (e : entry) :
  In e (DD.diffs (DD.append d e)).
Proof. rewrite diffs_append. apply in_or_app. right. now left. Qed.

Lemma lookup_member (key : value) (kvs : list (value * value)) :
  lookup key kvs = None <-> member key (map fst kvs) = false.
Proof.
  induction kvs as [|[k v] rest IH]; simpl; [tauto|].
  destruct (py_eq k key); simpl; [split; discriminate|exact IH].
Qed.

Section DictEntries.
Variable call : string -> value -> value + value.
Variable py_hash : value -> Z.
Variable rec : differ.
Variables (depth : Z) (cwf : bool).
Variables a b : list (value * value).

Lemma add_equal_entries (key bval : value) (st : DataDiff * Z) :
  lookup key b = Some bval ->
  Forall (dict_entry_from a b) (DD.diffs (fst st)) ->
  Forall (dict_entry_from a b) (DD.diffs (fst (add_equal key bval st))).
Proof.
  destruct st as [d c]. cbn [fst add_equal]. intros Hb Hd.
  destruct (c =? 0); [exact Hd|].
  unfold DD.equal, DD.multi. apply Forall_append_entry; [exact Hd|].
  now exists key, bval.
Qed.

Lemma diff_dict_key_entries (key : value) (st st' : DataDiff * Z) :
  In key (map fst a) ->
  Forall (dict_entry_from a b) (DD.diffs (fst st)) ->
  diff_dict_key call rec depth cwf a b key st = Ok st' ->
  Forall (dict_entry_from a b) (DD.diffs (fst st')).
Proof.
  intros Hkey Hd. destruct st as [d c]. unfold diff_dict_key.
  destruct (lookup key b) as [bval|] eqn:Hb.
  - pose proof (add_equal_entries key bval (d, c) Hb Hd) as Hequal.
    cbn [fst] in Hd.
    assert (Hpair : forall v,
              Forall (dict_entry_from a b)
                     (DD.diffs (DD.insert (DD.delete d (dictitem key v))
                                          (dictitem key bval)))).
    { intros v. unfold DD.insert, DD.delete, DD.multi.
      repeat apply Forall_append_entry; [exact Hd| |].
      - now exists key, v.
      - now exists key, bval. }
    destruct (lookup key a) as [aval|]; [|discriminate].
    destruct (negb (py_eq aval bval)).
    + destruct (cwf && callable aval).
      * destruct (compares_with_func call aval bval) as [[|]|[]]; try discriminate;
          intros [= <-]; [exact Hequal| |]; apply Hpair.
      * destruct (rec aval bval c (depth + 1) "a" "b" cwf) as [nested|e].
        -- destruct (obj_bool nested) eqn:Hn; cbn [negb]; intros [= <-];
             [|exact Hequal].
           cbn [fst]. unfold DD.nested. apply Forall_append_entry; [exact Hd|].
           now exists key, nested, (depth + 1).
        -- destruct (is_DiffTypeError e); [|discriminate]. intros [= <-].
           apply Hpair.
    + intros [= <-]. exact Hequal.
  - cbn [fst] in Hd.
    destruct (lookup key a) as [aval|]; [|discriminate]. intros [= <-].
    cbn [fst]. unfold DD.delete, DD.multi. apply Forall_append_entry; [exact Hd|].
    now exists key, aval.
Qed.

Lemma diff_dict_insert_entries (key : value) (d d' : DataDiff) :
  Forall (dict_entry_from a b) (DD.diffs d) ->
  diff_dict_insert a b key d = Ok d' ->
  Forall (dict_entry_from a b) (DD.diffs d').
Proof.
  intros Hd. unfold diff_dict_insert.
  destruct (member key (map fst a)); [now intros [= <-]|].
  destruct (lookup key b) as [bval|] eqn:Hb; [|discriminate]. intros [= <-].
  unfold DD.insert, DD.multi. apply Forall_append_entry; [exact Hd|].
  now exists key, bval.
Qed.

(** No turn of the two loops removes an entry. *)
Lemma diff_dict_key_keeps (key : value) (st st' : DataDiff * Z) (e : entry) :
  diff_dict_key call rec depth cwf a b key st = Ok st' ->
  In e (DD.diffs (fst st)) -> In e (DD.diffs (fst st')).
Proof.
  destruct st as [d c]. unfold diff_dict_key, add_equal. intros H Hin.
  case_split; try discriminate; injection H as <-; cbn [fst];
    unfold DD.insert, DD.delete, DD.equal, DD.nested, DD.multi;
    repeat apply In_append_entry; exact Hin.
Qed.

Lemma diff_dict_insert_keeps (key : value) (d d' : DataDiff) (e : entry) :
  diff_dict_insert a b key d = Ok d' -> In e (DD.diffs d) -> In e (DD.diffs d').
Proof.
  unfold diff_dict_insert. intros H Hin.
  case_split; try discriminate; injection H as <-; [exact Hin|].
  unfold DD.insert, DD.multi. now apply In_append_entry.
Qed.

End DictEntries.

Section DictEntriesOfDiff.
Variable call : string -> value -> value + value.
Variable py_hash : value -> Z.

(** X10.  Every entry of a diff of two dicts is about one key: a run
    holds one [dictitem], under a key of [a] when it is a [delete] run and
    with an item of [b] when it is an [insert] or an [equal] run; a nested
    entry holds a [dictitem] under a key of [a], with its [depth] set and
    with a diff that is true, never an empty one. *)
Theorem dict_entries_are_items (kvs kvs' : list (value * value)) (context depth : Z)
        (fromfile tofile : string) (cwf : bool) (r : obj) :
  diff call py_hash (VDict kvs) (VDict kvs') context depth fromfile tofile cwf = Ok r ->
  exists d, r = ODiff d /\ Forall (dict_entry_from kvs kvs') (DD.diffs d).
Proof.
  rewrite diff_equation, diff_body_dict. unfold diff_dict.
  destruct (for_each _ (map fst kvs) _) as [[ddiff budget]|] eqn:Hkeys; [|discriminate].
  cbn [bind].
  destruct (for_each _ (map fst kvs') ddiff) as [ddiff'|] eqn:Hins; [|discriminate].
  cbn [bind].
  destruct (sort_diffs py_hash (DD.diffs ddiff')) as [sorted|] eqn:Hsort; [|discriminate].
  cbn [bind]. intros [= <-]. eexists. split; [reflexivity|].
  assert (H1 : Forall (dict_entry_from kvs kvs') (DD.diffs ddiff)).
  { change ddiff with (fst (ddiff, budget)). revert Hkeys.
    apply (for_each_invariant_In _
             (fun st => Forall (dict_entry_from kvs kvs') (DD.diffs (fst st)))).
    - intros key st st' Hin. now apply diff_dict_key_entries.
    - constructor. }
  assert (H2 : Forall (dict_entry_from kvs kvs') (DD.diffs ddiff')).
  { revert Hins.
    apply (for_each_invariant _ (fun d => Forall (dict_entry_from kvs kvs') (DD.diffs d)));
      [|exact H1].
    intros key st st'. apply diff_dict_insert_entries. }
  assert (H3 : Forall (dict_entry_from kvs kvs') sorted).
  { apply (Permutation_Forall (sort_diffs_permutation py_hash _ _ Hsort) H2). }
  destruct (budget <? 0).
  - unfold DD.context_end_container. apply Forall_append_entry; [|exact I].
    now rewrite diffs_set_diffs.
  - now rewrite diffs_set_diffs.
Qed.

(** X9.  When the diff of two dicts returns, no key that is in one dict
    only is passed over: a key of [a] that is not in [b] has a [delete]
    entry with its item, and a key of [b] that is not in [a] has an
    [insert] entry with its item, whatever [context] is. *)
Theorem diff_dict_reports_missing_keys (kvs kvs' : list (value * value))
        (context depth : Z) (fromfile tofile : string) (cwf : bool) (r : obj) :
  diff call py_hash (VDict kvs) (VDict kvs') context depth fromfile tofile cwf = Ok r ->
  exists d,
    r = ODiff d
    /\ (forall key aval,
           In key (map fst kvs) -> lookup key kvs = Some aval -> lookup key kvs' = None ->
           In (Multi CDelete [dictitem key aval]) (DD.diffs d))
    /\ (forall key bval,
           In key (map fst kvs') -> lookup key kvs' = Some bval -> lookup key kvs = None ->
           In (Multi CInsert [dictitem key bval]) (DD.diffs d)).
Proof.
  rewrite diff_equation, diff_body_dict. unfold diff_dict.
  destruct (for_each _ (map fst kvs) _) as [[ddiff budget]|] eqn:Hkeys; [|discriminate].
  cbn [bind].
  destruct (for_each _ (map fst kvs') ddiff) as [ddiff'|] eqn:Hins; [|discriminate].
  cbn [bind].
  destruct (sort_diffs py_hash (DD.diffs ddiff')) as [sorted|] eqn:Hsort; [|discriminate].
  cbn [bind]. intros [= <-]. eexists. split; [reflexivity|].
  assert (Hlast : forall e, In e (DD.diffs ddiff') ->
            In e (DD.diffs (if budget <? 0
                            then DD.context_end_container (DD.set_diffs ddiff' sorted)
                            else DD.set_diffs ddiff' sorted))).
  { intros e He.
    apply (Permutation_in _ (sort_diffs_permutation py_hash _ _ Hsort)) in He.
    destruct (budget <? 0).
    - unfold DD.context_end_container. apply In_append_entry. now rewrite diffs_set_diffs.
    - now rewrite diffs_set_diffs. }
  split.
  - intros key aval Hin Ha Hb. apply Hlast.
    revert Hins.
    apply (for_each_invariant _
             (fun d => In (Multi CDelete [dictitem key aval]) (DD.diffs d))).
    { intros k st st' Hst Hk. exact (diff_dict_insert_keeps kvs kvs' k st st' _ Hk Hst). }
    change ddiff with (fst (ddiff, budget)). revert Hkeys.
    apply (for_each_establishes _
             (fun st => In (Multi CDelete [dictitem key aval]) (DD.diffs (fst st))) key).
    + intros k st st' Hst Hk.
      exact (diff_dict_key_keeps call _ depth cwf kvs kvs' k st st' _ Hk Hst).
    + intros [d c] st'. unfold diff_dict_key. rewrite Hb, Ha. intros [= <-].
      cbn [fst]. apply In_appended_entry.
    + exact Hin.
  - intros key bval Hin Hb Ha. apply Hlast.
    revert Hins.
    apply (for_each_establishes _
             (fun d => In (Multi CInsert [dictitem key bval]) (DD.diffs d)) key).
    + intros k st st' Hst Hk. exact (diff_dict_insert_keeps kvs kvs' k st st' _ Hk Hst).
    + intros d st'. unfold diff_dict_insert.
      apply lookup_member in Ha. rewrite Ha, Hb. intros [= <-].
      apply In_appended_entry.
    + exact Hin.
Qed.

End DictEntriesOfDiff.


(** ** The order of the entries of a dict diff *)

Lemma string_ltb_asym (s t : string) : String.ltb s t = true -> String.ltb t s = false.
Proof.
  unfold String.ltb. rewrite (String.compare_antisym s t).
  destruct (String.compare t s); simpl; congruence.
Qed.

Lemma sortkey_ltb_asym (k1 k2 : sortkey) :
  sortkey_ltb k1 k2 = true -> sortkey_ltb k2 k1 = false.
Proof.
  destruct k1 as [m|s], k2 as [n|t]; simpl; try reflexivity.
  - intros H. apply Z.ltb_lt in H. apply Z.ltb_ge. lia.
  - apply string_ltb_asym.
Qed.

Section SortOrder.
Context {A : Type}.

(** No element has a key smaller than the key of the element before. *)
Let in_order (p q : sortkey * A) : Prop := sortkey_ltb (fst q) (fst p) = false.

Lemma insert_sorted_head (x y : sortkey * A) (l : list (sortkey * A)) :
  in_order y x -> HdRel in_order y l -> HdRel in_order y (insert_sorted x l).
Proof.
  intros Hyx Hl. destruct l as [|z l]; simpl; [now constructor|].
  destruct (sortkey_ltb (fst z) (fst x)); constructor; [|exact Hyx].
  now inversion Hl.
Qed.

Lemma insert_sorted_sorted (x : sortkey * A) (l : list (sortkey * A)) :
  Sorted in_order l -> Sorted in_order (insert_sorted x l).
Proof.
  induction 1 as [|y l Hl IH Hy]; simpl; [repeat constructor|].
  destruct (sortkey_ltb (fst y) (fst x)) eqn:Hlt.
  - constructor; [exact IH|]. apply insert_sorted_head; [|exact Hy].
    now apply sortkey_ltb_asym.
  - constructor; [now constructor|]. now constructor.
Qed.

Lemma insertion_sort_sorted (l : list (sortkey * A)) :
  Sorted in_order (fold_right insert_sorted [] l).
Proof.
  induction l as [|x l IH]; simpl; [constructor|]. now apply insert_sorted_sorted.
Qed.

End SortOrder.

Section SortedEntries.
Variable py_hash : value -> Z.

Lemma with_keys_keyed (es : list entry) (keyed : list (sortkey * entry)) :
  with_keys py_hash es = Ok keyed ->
  Forall (fun p => diffitem_dictitem_sort_key py_hash (snd p) = Ok (fst p)) keyed.
Proof.
  revert keyed. induction es as [|e es IH]; simpl; intros keyed.
  - intros [= <-]. constructor.
  - destruct (diffitem_dictitem_sort_key py_hash e) as [k|] eqn:Hk; [|discriminate].
    cbn [bind]. destruct (with_keys py_hash es) as [rest|]; [|discriminate].
    cbn [bind]. intros [= <-]. constructor; [exact Hk|]. now apply IH.
Qed.

Lemma with_keys_of_keyed (keyed : list (sortkey * entry)) :
  Forall (fun p => diffitem_dictitem_sort_key py_hash (snd p) = Ok (fst p)) keyed ->
  with_keys py_hash (map snd keyed) = Ok keyed.
Proof.
  induction 1 as [|[k e] l Hp _ IH]; simpl; [reflexivity|].
  cbn [fst snd] in Hp. now rewrite Hp, IH.
Qed.

(** X12.  When the sort of [diff_dict] returns, it returns the entries it
    was given, each once, in the order of their keys: the key function
    succeeds on every entry, and no entry has a key smaller than the key of
    the entry before it. *)
Theorem sort_diffs_sorted (es sorted : list entry) :
  sort_diffs py_hash es = Ok sorted ->
  Permutation es sorted
  /\ exists keyed,
       with_keys py_hash sorted = Ok keyed
       /\ Sorted (fun p q => sortkey_ltb (fst q) (fst p) = false) keyed.
Proof.
  intros Hsort. split; [now apply (sort_diffs_permutation py_hash)|].
  revert Hsort. unfold sort_diffs.
  destruct (with_keys py_hash es) as [keyed|] eqn:Hkeys; [|discriminate]. cbn [bind].
  unfold sort_by_key. destruct keyed as [|x0 rest].
  - intros [= <-]. exists []. split; [reflexivity|constructor].
  - destruct (forallb _ rest); [|discriminate]. intros [= <-].
    exists (fold_right insert_sorted [] (x0 :: rest)). split.
    + apply with_keys_of_keyed.
      apply (Permutation_Forall (insertion_sort_permutation (x0 :: rest))).
      now apply with_keys_keyed with es.
    + exact (insertion_sort_sorted (x0 :: rest)).
Qed.

End SortedEntries.


(** ** The sequence differ when one sequence is empty *)

Section MatcherEmpty.
Context {A : Type}.
Variable eqb : A -> A -> bool.

Lemma flm_rows_no_columns (a : list A) (idxs : list Z) (blo bhi : Z)
      (j2len : list (Z * Z)) (best : Difflib.block) :
  Difflib.flm_rows eqb a [] idxs blo bhi j2len best = best.
Proof.
  revert j2len. induction idxs as [|i idxs IH]; intros j2len; simpl; [reflexivity|].
  destruct (Difflib.item a i); simpl; apply IH.
Qed.

Lemma extend_up_empty_b (a : list A) (n : nat) (junk : bool) (ahi : Z) :
  Difflib.extend_up eqb a [] n junk ahi 0 (0, 0, 0) = (0, 0, 0).
Proof.
  destruct n as [|n]; simpl; [reflexivity|].
  now rewrite andb_false_r.
Qed.

Lemma find_longest_match_empty_b (a : list A) (ahi : Z) :
  Difflib.find_longest_match eqb a [] [] 0 ahi 0 0 = (0, 0, 0).
Proof.
  unfold Difflib.find_longest_match. rewrite flm_rows_no_columns.
  cbv beta zeta iota. cbn [Difflib.extend_down Z.sub Z.opp Z.to_nat Z.add].
  rewrite extend_up_empty_b.
  cbv beta zeta iota. cbn [Difflib.extend_down Z.sub Z.opp Z.to_nat Z.add].
  now rewrite extend_up_empty_b.
Qed.

(** Nothing matches an empty [b]: all of [a] is deleted. *)
Lemma get_grouped_opcodes_empty_b (a : list A) (n : Z) :
  a <> [] ->
  Difflib.get_grouped_opcodes eqb a [] n = [[Difflib.Op Difflib.Delete 0 (len a) 0 0]].
Proof.
  intros Ha.
  assert (Hlen : (0 <? len a) = true).
  { apply Z.ltb_lt. unfold len. destruct a; [congruence|]. simpl. lia. }
  unfold Difflib.get_grouped_opcodes, Difflib.get_opcodes, Difflib.get_matching_blocks.
  unfold Difflib.chain_b. cbn [Difflib.chain_from len List.length Z.of_nat].
  cbn [Z.leb Z.compare]. cbn [Difflib.matching_loop].
  rewrite find_longest_match_empty_b.
  cbn [Z.eqb]. destruct (List.length a + 0)%nat; cbn [Difflib.matching_loop];
    cbn [Difflib.sort_blocks fold_right Difflib.collapse Z.eqb app Difflib.opcodes_from];
    rewrite Hlen; cbn; reflexivity.
Qed.

(** Nothing matches an empty [a]: all of [b] is inserted. *)
Lemma get_grouped_opcodes_empty_a (b : list A) (n : Z) :
  b <> [] ->
  Difflib.get_grouped_opcodes eqb [] b n = [[Difflib.Op Difflib.Insert 0 0 0 (len b)]].
Proof.
  intros Hb.
  assert (Hlen : (0 <? len b) = true).
  { apply Z.ltb_lt. unfold len. destruct b; [congruence|]. simpl. lia. }
  unfold Difflib.get_grouped_opcodes, Difflib.get_opcodes, Difflib.get_matching_blocks.
  cbn [len List.length Z.of_nat Nat.add Difflib.matching_loop].
  unfold Difflib.find_longest_match.
  cbn [Difflib.range Z.sub Z.to_nat Z.add Z.opp seq map Difflib.flm_rows
       Difflib.extend_down Difflib.extend_up Z.eqb].
  destruct (List.length b); cbn [Difflib.matching_loop];
    cbn [Difflib.sort_blocks fold_right Difflib.collapse Z.eqb app Difflib.opcodes_from];
    fold (len b); rewrite Hlen; cbn; reflexivity.
Qed.

End MatcherEmpty.

Lemma hashable_all_length (xs hs : list value) :
  hashable_all xs = Ok hs -> List.length hs = List.length xs.
Proof.
  revert hs. induction xs as [|x xs IH]; simpl; intros hs; [now intros [= <-]|].
  destruct (hashable x); [|discriminate]. cbn [bind].
  destruct (hashable_all xs) as [hs'|]; [|discriminate]. cbn [bind].
  intros [= <-]. simpl. now rewrite (IH hs' eq_refl).
Qed.

Lemma slice_all {A : Type} (xs : list A) : slice xs 0 (len xs) = xs.
Proof.
  unfold slice, slice_bound. cbn [Z.ltb Z.compare].
  assert (0 <= len xs) by (unfold len; lia).
  replace (len xs <? 0) with false by (symmetry; apply Z.ltb_ge; lia).
  rewrite Z.min_id, Z.min_l by lia. rewrite Z.sub_0_r. cbn [Z.to_nat skipn].
  unfold len. rewrite Nat2Z.id. apply firstn_all.
Qed.

Section EmptySequence.
Variable call : string -> value -> value + value.
Variable py_hash : value -> Z.

(** X15.  The diff of the empty list and a list [ys] that is not empty is a
    [Context] entry and one [insert] run of all of [ys]; the diff of [ys]
    and the empty list is a [Context] entry and one [delete] run of all of
    [ys], without an end marker.  The elements of [ys] have to be
    hashable. *)
Theorem diff_with_empty_list (ys hs : list value) (context depth : Z)
        (fromfile tofile : string) (cwf : bool) :
  ys <> [] -> hashable_all ys = Ok hs ->
  diff call py_hash (VList []) (VList ys) context depth fromfile tofile cwf
  = Ok (ODiff (mkDataDiff TList "[" "]" fromfile tofile
                          [Context 0 0 0 (len ys - 1); Multi CInsert (map OVal ys)]))
  /\ diff call py_hash (VList ys) (VList []) context depth fromfile tofile cwf
     = Ok (ODiff (mkDataDiff TList "[" "]" fromfile tofile
                             [Context 0 (len ys - 1) 0 0; Multi CDelete (map OVal ys)])).
Proof.
  intros Hys Hhs.
  assert (Hne : hs <> []).
  { intros ->. apply hashable_all_length in Hhs. destruct ys; [congruence|discriminate]. }
  assert (Hlen : len hs = len ys).
  { unfold len. now rewrite (hashable_all_length ys hs Hhs). }
  assert (Hpos : 1 <= len ys).
  { unfold len. destruct ys; [congruence|]. simpl. lia. }
  split; rewrite diff_equation;
    [rewrite (diff_body_sequence call py_hash _ (VList []) (VList ys) [])
       by reflexivity
    |rewrite (diff_body_sequence call py_hash _ (VList ys) (VList []) ys)
       by reflexivity];
    unfold try_diff_seq, diff_seq;
    cbn [has_iter_or_getitem negb sequence_items type_of pytype_eqb hashable_all bind];
    rewrite Hhs; cbn [bind].
  - rewrite (get_grouped_opcodes_empty_a py_eq hs context Hne).
    cbn [for_each bind]. unfold diff_seq_step, diff_seq_chunk.
    cbn [List.last Difflib.op_i1 Difflib.op_i2 Difflib.op_j1 Difflib.op_j2
         for_each diff_seq_opcode bind len List.length Z.of_nat Z.ltb Z.compare].
    rewrite Hlen, slice_all.
    replace (Z.max (len ys - 1) 0) with (len ys - 1) by lia.
    reflexivity.
  - rewrite (get_grouped_opcodes_empty_b py_eq hs context Hne).
    cbn [for_each bind]. unfold diff_seq_step, diff_seq_chunk.
    cbn [List.last Difflib.op_i1 Difflib.op_i2 Difflib.op_j1 Difflib.op_j2
         for_each diff_seq_opcode bind].
    rewrite Hlen, slice_all, Z.ltb_irrefl.
    replace (Z.max (len ys - 1) 0) with (len ys - 1) by lia.
    reflexivity.
Qed.

End EmptySequence.


(** ** The common elements of two sets *)

Lemma difference_In (xs ys : list value) (x : value) :
  In x (difference xs ys) <-> In x xs /\ member x ys = false.
Proof.
  unfold difference. rewrite filter_In. now rewrite negb_true_iff.
Qed.

(** X18.  With a [context] that is not negative, the diff of two sets
    holds the [delete] run of the elements of [a] that are not in [b], the
    [insert] run of the elements of [b] that are not in [a], and an [equal]
    run of common elements, [context] of them or all of them when there
    are no more; the end marker is there exactly when [context] is less
    than the number of common elements.  Nothing is said of the order of
    the runs, nor of which common elements are shown. *)
Theorem diff_set_marker_means_hidden (t : pytype) (xs ys : list value) (context : Z)
        (fromfile tofile : string) :
  0 <= context ->
  let common := len (intersection xs ys) in
  exists deleted inserted shown,
    DD.diffs (diff_set context t xs ys fromfile tofile)
    = [Multi CDelete (map OVal deleted); Multi CInsert (map OVal inserted);
       Multi CEqual (map OVal shown)]
      ++ (if context <? common then [ContextEndContainer] else [])
    /\ (forall x, In x deleted <-> In x xs /\ member x ys = false)
    /\ (forall x, In x inserted <-> In x ys /\ member x xs = false)
    /\ (forall x, In x shown -> In x xs /\ member x ys = true)
    /\ len shown = Z.min context common.
Proof.
  intros Hc common. set (equal := intersection xs ys).
  set (k := Z.to_nat (Z.min context (len equal))).
  assert (Hn : 0 <= len equal) by (unfold len; lia).
  assert (Hslice : slice equal 0 context = firstn k equal).
  { unfold slice, slice_bound. cbn [Z.ltb Z.compare].
    replace (context <? 0) with false by (symmetry; apply Z.ltb_ge; lia).
    rewrite (Z.min_l 0) by lia. rewrite Z.sub_0_r. reflexivity. }
  exists (difference xs ys), (difference ys xs), (firstn k equal).
  split; [|split; [|split; [|split]]].
  - unfold diff_set, common. fold equal. rewrite Hslice.
    destruct (context <? len equal); destruct t; reflexivity.
  - apply difference_In.
  - apply difference_In.
  - intros x Hx. rewrite <- Hslice in Hx. apply In_slice in Hx.
    unfold equal, intersection in Hx.
    now apply filter_In in Hx.
  - unfold len. rewrite length_firstn. unfold k, common, len. fold equal. lia.
Qed.

(** ** The header of the tree *)

Lemma header_set_diffs (d : DataDiff) (es : list entry) :
  header (DD.set_diffs d es) = header d.
Proof. now destruct d. Qed.

Lemma header_append (d : DataDiff) (e : entry) : header (DD.append d e) = header d.
Proof. now destruct d. Qed.

Section Header.
Variable call : string -> value -> value + value.
Variable py_hash : value -> Z.

Lemma diff_seq_step_header (rec : differ) (context depth : Z) (cwf : bool)
      (xs ys : list value) (chunk : list Difflib.opcode) (ddiff ddiff' : DataDiff) :
  diff_seq_step call rec context depth cwf xs ys chunk ddiff = Ok ddiff' ->
  header ddiff' = header ddiff.
Proof.
  unfold diff_seq_step.
  destruct (diff_seq_chunk _ _ _ _ _ _ _ _ _) as [[chunk_ddiff realy]|]; [|discriminate].
  cbn [bind]. intros [= <-]. destruct realy; [apply header_set_diffs|reflexivity].
Qed.

Lemma diff_dict_key_header (rec : differ) (depth : Z) (cwf : bool)
      (a b : list (value * value)) (key : value) (st st' : DataDiff * Z) :
  diff_dict_key call rec depth cwf a b key st = Ok st' ->
  header (fst st') = header (fst st).
Proof.
  destruct st as [d c]. unfold diff_dict_key, add_equal. intros H.
  case_split; try discriminate; injection H as <-; cbn [fst];
    unfold DD.insert, DD.delete, DD.equal, DD.nested, DD.multi;
    now rewrite ?header_append.
Qed.

Lemma diff_dict_insert_header (a b : list (value * value)) (key : value)
      (d d' : DataDiff) :
  diff_dict_insert a b key d = Ok d' -> header d' = header d.
Proof.
  unfold diff_dict_insert. intros H.
  case_split; try discriminate; injection H as <-; [reflexivity|].
  unfold DD.insert, DD.multi. apply header_append.
Qed.

(** X19.  The tree that [diff] returns for two values of one type carries
    that type, its delimiters ([[ ]] for lists, [( )] for tuples, [{ }] for
    dicts, [set([ ])] and [frozenset([ ])] for sets) and the two labels of
    the call: the loops of the differs change the entries only. *)
Theorem diff_tree_header (a b : value) (context depth : Z) (fromfile tofile : string)
        (cwf : bool) (d : DataDiff) :
  type_of a = type_of b ->
  diff call py_hash a b context depth fromfile tofile cwf = Ok (ODiff d) ->
  header d = (type_of a, fst (delimiters (type_of a)), snd (delimiters (type_of a)),
              fromfile, tofile).
Proof.
  intros Hty. rewrite diff_equation.
  assert (Hseq : forall xs ys,
            sequence_items a = Some xs -> sequence_items b = Some ys ->
            diff_body call py_hash (diff call py_hash) a b context depth fromfile tofile cwf
            = Ok (ODiff d) ->
            header d = (type_of a, fst (delimiters (type_of a)),
                        snd (delimiters (type_of a)), fromfile, tofile)).
  { intros xs ys Ha Hb.
    rewrite (diff_body_sequence call py_hash _ a b xs) by assumption.
    unfold try_diff_seq.
    destruct (diff_seq _ _ _ _ _ a b fromfile tofile) as [d'|e] eqn:Hd;
      [|destruct e; discriminate].
    intros [= ->]. revert Hd. unfold diff_seq. rewrite Ha, Hb.
    destruct (negb (has_iter_or_getitem a)); [discriminate|].
    destruct (hashable_all xs) as [hxs|]; [|discriminate].
    destruct (hashable_all ys) as [hys|]; [|discriminate].
    cbn [bind]. intros Hloop.
    match type of Hloop with
    | for_each _ _ ?init = _ =>
        assert (Hh : header d = header init)
    end.
    { revert Hloop.
      apply (for_each_invariant
               (diff_seq_step call (diff call py_hash) context depth cwf xs ys)
               (fun t => header t = header _)); [|reflexivity].
      intros chunk st st' Hst Hstep.
      now rewrite (diff_seq_step_header _ _ _ _ _ _ _ _ _ Hstep). }
    rewrite Hh.
    destruct a, b; try discriminate Ha; try discriminate Hb; try discriminate Hty;
      reflexivity. }
  destruct a as [ | n | s | xs | xs | kvs | xs | xs | f | m | i ],
           b as [ | n' | s' | ys | ys | kvs' | ys | ys | f' | m' | i' ];
    try discriminate Hty;
    try (cbn; discriminate);
    try (apply (Hseq xs ys); reflexivity).
  - unfold diff_body. destruct (has_newline s || has_newline s'); discriminate.
  - rewrite diff_body_dict. unfold diff_dict.
    destruct (for_each _ (map fst kvs) _) as [[ddiff budget]|] eqn:Hkeys; [|discriminate].
    cbn [bind].
    destruct (for_each _ (map fst kvs') ddiff) as [ddiff'|] eqn:Hins; [|discriminate].
    cbn [bind].
    destruct (sort_diffs py_hash (DD.diffs ddiff')) as [sorted|]; [|discriminate].
    cbn [bind]. intros [= <-].
    assert (H1 : header ddiff = header (DD.__init__ TDict (Some ("{", "}")) fromfile tofile)).
    { change ddiff with (fst (ddiff, budget)). revert Hkeys.
      apply (for_each_invariant _ (fun st => header (fst st) = header _));
        [|reflexivity].
      intros key st st' Hst Hkey.
      now rewrite (diff_dict_key_header _ _ _ _ _ _ _ _ Hkey). }
    assert (H2 : header ddiff' = header ddiff).
    { revert Hins.
      apply (for_each_invariant _ (fun t => header t = header ddiff)); [|reflexivity].
      intros key st st' Hst Hkey.
      now rewrite (diff_dict_insert_header _ _ _ _ _ Hkey). }
    destruct (budget <? 0); unfold DD.context_end_container;
      rewrite ?header_append, header_set_diffs, H2, H1; reflexivity.
  - cbn. unfold diff_set. intros [= <-].
    destruct (context <? _); reflexivity.
  - cbn. unfold diff_set. intros [= <-].
    destruct (context <? _); reflexivity.
Qed.

End Header.

(** ** A changed value of a dict *)

Section ChangedValue.
Variable call : string -> value -> value + value.
Variable py_hash : value -> Z.

(** The diff of two values that are not containers, the first not a
    callable that is called, raises an exception of the class
    [DiffTypeError]. *)
Lemma diff_of_scalars_raises (a b : value) (context depth : Z)
      (fromfile tofile : string) (cwf : bool) :
  has_iter_or_getitem a = false -> cwf && callable a = false ->
  exists e, diff call py_hash a b context depth fromfile tofile cwf = Err e
            /\ is_DiffTypeError e = true.
Proof.
  intros Ha Hcall. rewrite diff_equation. unfold diff_body.
  destruct (pytype_eqb (type_of a) (type_of b)) eqn:Hty.
  - destruct a, b; try discriminate Ha; try discriminate Hty;
      cbn; eexists; split; reflexivity.
  - destruct a; try discriminate Ha; cbn [negb]; rewrite ?Hty; cbn [negb];
      rewrite Hcall; eexists; split; reflexivity.
Qed.

(** X20.  A key of both dicts whose values differ and are not containers
    (two ints, two strings without a line break, an int and [None]) is
    shown as a [delete] entry of the item of [a] and an [insert] entry of
    the item of [b]: the error of the recursive [diff] is caught.  The
    value of [a] is not a callable that [compare_with_func] calls. *)
Theorem dict_changed_scalar_is_delete_insert (kvs kvs' : list (value * value))
        (key aval bval : value) (context depth : Z) (fromfile tofile : string)
        (cwf : bool) (r : obj) :
  In key (map fst kvs) -> lookup key kvs = Some aval -> lookup key kvs' = Some bval ->
  py_eq aval bval = false ->
  match aval with VStr s => has_newline s = false | _ => has_iter_or_getitem aval = false end ->
  match bval with VStr s => has_newline s = false | _ => True end ->
  cwf && callable aval = false ->
  diff call py_hash (VDict kvs) (VDict kvs') context depth fromfile tofile cwf = Ok r ->
  exists d,
    r = ODiff d
    /\ In (Multi CDelete [dictitem key aval]) (DD.diffs d)
    /\ In (Multi CInsert [dictitem key bval]) (DD.diffs d).
Proof.
  intros Hin Ha Hb Hne Hscalar Hline Hcall.
  assert (Hraise : forall c, exists e,
             diff call py_hash aval bval c (depth + 1) "a" "b" cwf = Err e
             /\ is_DiffTypeError e = true).
  { intros c. destruct (has_iter_or_getitem aval) eqn:Hiter.
    - destruct aval; try discriminate Hscalar; try discriminate Hiter.
      rewrite diff_equation. unfold diff_body.
      destruct bval; try (rewrite Hscalar, Hline; cbn);
        try (cbn; destruct cwf; cbn); eexists; split; reflexivity.
    - now apply diff_of_scalars_raises. }
  rewrite diff_equation, diff_body_dict. unfold diff_dict.
  destruct (for_each _ (map fst kvs) _) as [[ddiff budget]|] eqn:Hkeys; [|discriminate].
  cbn [bind].
  destruct (for_each _ (map fst kvs') ddiff) as [ddiff'|] eqn:Hins; [|discriminate].
  cbn [bind].
  destruct (sort_diffs py_hash (DD.diffs ddiff')) as [sorted|] eqn:Hsort; [|discriminate].
  cbn [bind]. intros [= <-]. eexists. split; [reflexivity|].
  assert (Hlast : forall e, In e (DD.diffs ddiff) ->
            In e (DD.diffs (if budget <? 0
                            then DD.context_end_container (DD.set_diffs ddiff' sorted)
                            else DD.set_diffs ddiff' sorted))).
  { intros e He.
    assert (He' : In e (DD.diffs ddiff')).
    { revert Hins. apply (for_each_invariant _ (fun d => In e (DD.diffs d))); [|exact He].
      intros k st st' Hst Hk. exact (diff_dict_insert_keeps kvs kvs' k st st' _ Hk Hst). }
    apply (Permutation_in _ (sort_diffs_permutation py_hash _ _ Hsort)) in He'.
    destruct (budget <? 0).
    - unfold DD.context_end_container. apply In_append_entry. now rewrite diffs_set_diffs.
    - now rewrite diffs_set_diffs. }
  assert (Hboth : In (Multi CDelete [dictitem key aval]) (DD.diffs ddiff)
                  /\ In (Multi CInsert [dictitem key bval]) (DD.diffs ddiff)).
  { change ddiff with (fst (ddiff, budget)). revert Hkeys.
    apply (for_each_establishes _
             (fun st => In (Multi CDelete [dictitem key aval]) (DD.diffs (fst st))
                        /\ In (Multi CInsert [dictitem key bval]) (DD.diffs (fst st)))
             key).
    - intros k st st' [H1 H2] Hk.
      split;
        [exact (diff_dict_key_keeps call _ depth cwf kvs kvs' k st st' _ Hk H1)
        |exact (diff_dict_key_keeps call _ depth cwf kvs kvs' k st st' _ Hk H2)].
    - intros [d c] st'. unfold diff_dict_key. rewrite Hb, Ha, Hne. cbn [negb].
      rewrite Hcall. destruct (Hraise c) as [e [-> ->]]. intros [= <-]. cbn [fst].
      unfold DD.insert, DD.delete, DD.multi. split.
      + apply In_append_entry, In_appended_entry.
      + apply In_appended_entry.
    - exact Hin. }
  destruct Hboth as [H1 H2]. split; now apply Hlast.
Qed.

End ChangedValue.


(** ** The sequence matcher on two sequences without a common element *)

Section MatcherApart.
Context {A : Type}.
Variable eqb : A -> A -> bool.
Variables a b : list A.
Hypothesis a_not_empty : a <> [].
Hypothesis b_not_empty : b <> [].
Hypothesis apart : forall x y, In x a -> In y b -> eqb x y = false /\ eqb y x = false.

Lemma setdefault_append_from (elt : A) (j : Z) (m : list (A * list Z)) (k : A) :
  In k (map fst (Difflib.setdefault_append eqb elt j m)) -> In k (map fst m) \/ k = elt.
Proof.
  induction m as [|[key idxs] rest IH]; simpl.
  - intros [<-|[]]. now right.
  - destruct (eqb key elt); simpl.
    + intros [<-|H]; auto.
    + intros [<-|H]; auto. destruct (IH H); auto.
Qed.

Lemma chain_from_from (ys : list A) (j : Z) (m : list (A * list Z)) (k : A) :
  In k (map fst (Difflib.chain_from eqb j ys m)) -> In k (map fst m) \/ In k ys.
Proof.
  revert j m. induction ys as [|y ys IH]; intros j m; simpl; [auto|].
  intros H. destruct (IH _ _ H) as [H1|H1]; [|auto].
  destruct (setdefault_append_from _ _ _ _ H1) as [H2| ->]; auto.
Qed.

Lemma chain_b_from (k : A) : In k (map fst (Difflib.chain_b eqb b)) -> In k b.
Proof.
  unfold Difflib.chain_b. intros H.
  assert (H' : In k (map fst (Difflib.chain_from eqb 0 b []))).
  { destruct (200 <=? len b); [|exact H].
    apply in_map_iff in H. destruct H as [e [<- He]].
    apply filter_In in He. apply in_map. tauto. }
  destruct (chain_from_from _ _ _ _ H') as [[]|Hb]. exact Hb.
Qed.

Lemma b2j_get_apart (x : A) :
  In x a -> Difflib.b2j_get eqb (Difflib.chain_b eqb b) x = [].
Proof.
  intros Hx. unfold Difflib.b2j_get.
  destruct (find _ _) as [e|] eqn:Hfind; [|reflexivity].
  apply find_some in Hfind. destruct Hfind as [He Heq].
  assert (Hb : In (fst e) b) by (apply chain_b_from; now apply in_map).
  destruct (apart x (fst e) Hx Hb) as [_ H]. congruence.
Qed.

Lemma item_In (xs : list A) (i : Z) (x : A) : Difflib.item xs i = Some x -> In x xs.
Proof.
  unfold Difflib.item. destruct (i <? 0); [discriminate|]. apply nth_error_In.
Qed.

Lemma flm_rows_apart (idxs : list Z) (blo bhi : Z) (j2len : list (Z * Z))
      (best : Difflib.block) :
  Difflib.flm_rows eqb a (Difflib.chain_b eqb b) idxs blo bhi j2len best = best.
Proof.
  revert j2len. induction idxs as [|i idxs IH]; intros j2len; simpl; [reflexivity|].
  destruct (Difflib.item a i) as [x|] eqn:Hx; simpl; [|apply IH].
  rewrite (b2j_get_apart x (item_In a i x Hx)). simpl. apply IH.
Qed.

Lemma same_at_apart (i j : Z) : Difflib.same_at eqb a b i j = false.
Proof.
  unfold Difflib.same_at.
  destruct (Difflib.item a i) as [x|] eqn:Hx; [|reflexivity].
  destruct (Difflib.item b j) as [y|] eqn:Hy; [|reflexivity].
  exact (proj1 (apart x y (item_In a i x Hx) (item_In b j y Hy))).
Qed.

Lemma extend_up_apart (n : nat) (junk : bool) (ahi bhi : Z) (best : Difflib.block) :
  Difflib.extend_up eqb a b n junk ahi bhi best = best.
Proof.
  destruct n as [|n]; [reflexivity|]. destruct best as [[besti bestj] bestsize].
  cbn [Difflib.extend_up]. now rewrite same_at_apart, andb_false_r.
Qed.

Lemma extend_down_apart (n : nat) (junk : bool) (alo blo : Z) (best : Difflib.block) :
  Difflib.extend_down eqb a b n junk alo blo best = best.
Proof.
  destruct n as [|n]; [reflexivity|]. destruct best as [[besti bestj] bestsize].
  cbn [Difflib.extend_down]. now rewrite same_at_apart, andb_false_r.
Qed.

Lemma find_longest_match_apart (alo ahi blo bhi : Z) :
  Difflib.find_longest_match eqb a b (Difflib.chain_b eqb b) alo ahi blo bhi
  = (alo, blo, 0).
Proof.
  unfold Difflib.find_longest_match. rewrite flm_rows_apart.
  repeat (cbv beta zeta iota; rewrite ?extend_down_apart, ?extend_up_apart).
  reflexivity.
Qed.

(** Nothing matches: the opcodes are one [replace] of all of [a] by all of
    [b], whatever the number of lines of context. *)
Lemma get_grouped_opcodes_apart (n : Z) :
  Difflib.get_grouped_opcodes eqb a b n
  = [[Difflib.Op Difflib.Replace 0 (len a) 0 (len b)]].
Proof.
  assert (Ha : (0 <? len a) = true).
  { apply Z.ltb_lt. unfold len. destruct a; [congruence|]. simpl. lia. }
  assert (Hb : (0 <? len b) = true).
  { apply Z.ltb_lt. unfold len. destruct b; [congruence|]. simpl. lia. }
  unfold Difflib.get_grouped_opcodes, Difflib.get_opcodes, Difflib.get_matching_blocks.
  cbn [Difflib.matching_loop]. rewrite find_longest_match_apart. cbn [Z.eqb].
  destruct (List.length a + List.length b)%nat; cbn [Difflib.matching_loop];
    cbn [Difflib.sort_blocks fold_right Difflib.collapse Z.eqb app Difflib.opcodes_from];
    rewrite Ha, Hb; cbn; reflexivity.
Qed.

End MatcherApart.


(** ** The [replace] opcode and the fates of its pairs *)

Lemma tree_of_header (d : DataDiff) (t : pytype) (s e f g : string) :
  header d = (t, s, e, f, g) -> d = mkDataDiff t s e f g (DD.diffs d).
Proof. destruct d. simpl. now intros [= -> -> -> -> ->]. Qed.

Section ReplaceFates.
Variable call : string -> value -> value + value.
Variable rec : differ.
Variables (context depth : Z) (cwf : bool).

(** The loop over the pairs does to the tree and to the buffers what the
    fates of the pairs say. *)
Lemma replace_loop_fates (pairs : list (value * value)) (st : replace_state) :
  match fates_of call rec context depth cwf pairs with
  | Ok fates =>
      exists st',
        for_each (replace_pair call rec context depth cwf) pairs st = Ok st'
        /\ rs_realy_diffs st' = rs_realy_diffs st || changes fates
        /\ header (rs_chunk st') = header (rs_chunk st)
        /\ forall tails,
             DD.diffs (rs_chunk st')
             ++ tails (consecutive_deletes st') (consecutive_inserts st')
             = DD.diffs (rs_chunk st)
               ++ replace_entries tails fates (consecutive_deletes st)
                                  (consecutive_inserts st)
  | Err e => for_each (replace_pair call rec context depth cwf) pairs st = Err e
  end.
Proof.
  revert st. induction pairs as [|[a2 b2] pairs IH]; intros st.
  - simpl. exists st. rewrite orb_false_r. auto.
  - cbn [fates_of for_each]. unfold fate_of, replace_pair.
    destruct (compares_with_func call a2 b2) as [[|]|e]; cbn [bind];
      [| |reflexivity].
    + specialize (IH st).
      destruct (fates_of call rec context depth cwf pairs) as [fates|e]; cbn [bind];
        [|exact IH].
      destruct IH as [st' [Hloop [Hrealy [Hhead Hentries]]]].
      exists st'. repeat split; assumption.
    + destruct (rec a2 b2 context (depth + 1) "a" "b" cwf) as [nested|e].
      * destruct (obj_bool nested); cbn [negb bind].
        -- match goal with
           | |- context [for_each _ pairs ?s] => specialize (IH s)
           end.
           destruct (fates_of call rec context depth cwf pairs) as [fates|e];
             cbn [bind]; [|exact IH].
           destruct IH as [st' [Hloop [Hrealy [Hhead Hentries]]]].
           exists st'. cbn [rs_realy_diffs rs_chunk consecutive_deletes
                             consecutive_inserts] in *.
           repeat split.
           ++ exact Hloop.
           ++ rewrite Hrealy. unfold changes. cbn [existsb snd]. now rewrite orb_true_r.
           ++ rewrite Hhead. unfold DD.nested, DD.insert_multi, DD.delete_multi, DD.multi.
              now rewrite !header_append.
           ++ intros tails. rewrite Hentries. cbn [replace_entries].
              unfold DD.nested, DD.insert_multi, DD.delete_multi, DD.multi.
              rewrite !diffs_append, <- !app_assoc. reflexivity.
        -- specialize (IH st).
           destruct (fates_of call rec context depth cwf pairs) as [fates|e];
             cbn [bind]; [|exact IH].
           destruct IH as [st' [Hloop [Hrealy [Hhead Hentries]]]].
           exists st'. repeat split; assumption.
      * destruct (is_DiffTypeError e); cbn [bind]; [|reflexivity].
        match goal with
        | |- context [for_each _ pairs ?s] => specialize (IH s)
        end.
        destruct (fates_of call rec context depth cwf pairs) as [fates|e'];
          cbn [bind]; [|exact IH].
        destruct IH as [st' [Hloop [Hrealy [Hhead Hentries]]]].
        exists st'. cbn [rs_realy_diffs rs_chunk consecutive_deletes
                          consecutive_inserts] in *.
        repeat split.
        -- exact Hloop.
        -- rewrite Hrealy. unfold changes. cbn [existsb snd]. now rewrite orb_true_r.
        -- exact Hhead.
        -- intros tails. now rewrite Hentries.
Qed.

(** [diff_seq_opcode] on a [replace] opcode. *)
Lemma diff_seq_opcode_replace (a b : list value) (i1 i2 j1 j2 : Z)
      (chunk_ddiff : DataDiff) (realy_diffs : bool) :
  match fates_of call rec context depth cwf (combine (slice a i1 i2) (slice b j1 j2)) with
  | Ok fates =>
      exists tree,
        diff_seq_opcode call rec context depth cwf a b
                        (Difflib.Op Difflib.Replace i1 i2 j1 j2) (chunk_ddiff, realy_diffs)
        = Ok (tree, realy_diffs || changes fates)
        /\ header tree = header chunk_ddiff
        /\ DD.diffs tree
           = DD.diffs chunk_ddiff
             ++ replace_entries (replace_tails a b i1 i2 j1 j2) fates [] []
  | Err e =>
      diff_seq_opcode call rec context depth cwf a b
                      (Difflib.Op Difflib.Replace i1 i2 j1 j2) (chunk_ddiff, realy_diffs)
      = Err e
  end.
Proof.
  cbn [diff_seq_opcode]. unfold diff_seq_replace.
  pose proof (replace_loop_fates (combine (slice a i1 i2) (slice b j1 j2))
                (ReplaceState [] [] chunk_ddiff realy_diffs)) as Hloop.
  destruct (fates_of call rec context depth cwf _) as [fates|e].
  - destruct Hloop as [st' [-> [Hrealy [Hhead Hentries]]]]. cbn [bind].
    eexists. split; [now rewrite Hrealy|].
    cbn [rs_chunk consecutive_deletes consecutive_inserts rs_realy_diffs] in *.
    split.
    + rewrite <- Hhead. unfold replace_finish, DD.insert_multi, DD.delete_multi, DD.multi.
      destruct (j2 - j1 <? i2 - i1), (i2 - i1 <? j2 - j1); now rewrite !header_append.
    + rewrite replace_finish_entries. rewrite <- Hentries. reflexivity.
  - now rewrite Hloop.
Qed.

End ReplaceFates.

(** ** [diff] on two sequences without a common element *)

Section SequencesApart.
Variable call : string -> value -> value + value.
Variable py_hash : value -> Z.

(** The tree of two sequences that [diff] takes for one [replace] opcode
    over all of [a] and all of [b]. *)
Lemma diff_seq_apart (rec : differ) (a b : value) (xs ys hxs hys : list value)
      (context depth : Z) (fromfile tofile : string) (cwf : bool) :
  sequence_items a = Some xs -> sequence_items b = Some ys ->
  type_of a = type_of b ->
  hashable_all xs = Ok hxs -> hashable_all ys = Ok hys ->
  xs <> [] -> ys <> [] -> no_common_element hxs hys ->
  diff_seq call rec context depth cwf a b fromfile tofile
  = match fates_of call rec context depth cwf (combine xs ys) with
    | Ok fates =>
        Ok (mkDataDiff (type_of a) (fst (delimiters (type_of a)))
                       (snd (delimiters (type_of a))) fromfile tofile
                       (if negb cwf || changes fates
                        then Context 0 (len xs - 1) 0 (len ys - 1)
                             :: replace_entries
                                  (replace_tails xs ys 0 (len xs) 0 (len ys)) fates [] []
                        else []))
    | Err e => Err e
    end.
Proof.
  intros Ha Hb Hty Hxs Hys Hx Hy Hapart.
  assert (Hhx : hxs <> []).
  { intros ->. apply hashable_all_length in Hxs. destruct xs; [congruence|discriminate]. }
  assert (Hhy : hys <> []).
  { intros ->. apply hashable_all_length in Hys. destruct ys; [congruence|discriminate]. }
  assert (Hlx : len hxs = len xs).
  { unfold len. now rewrite (hashable_all_length xs hxs Hxs). }
  assert (Hly : len hys = len ys).
  { unfold len. now rewrite (hashable_all_length ys hys Hys). }
  assert (Hpx : 1 <= len xs).
  { unfold len. destruct xs; [congruence|]. simpl. lia. }
  assert (Hpy : 1 <= len ys).
  { unfold len. destruct ys; [congruence|]. simpl. lia. }
  unfold diff_seq. rewrite Ha, Hb, Hxs, Hys.
  assert (Hiter : has_iter_or_getitem a = true)
    by (destruct a; try discriminate Ha; reflexivity).
  rewrite Hiter. cbn [negb bind].
  rewrite (get_grouped_opcodes_apart py_eq hxs hys Hhx Hhy Hapart context).
  cbn [for_each]. unfold diff_seq_step, diff_seq_chunk.
  cbn [List.last Difflib.op_i1 Difflib.op_i2 Difflib.op_j1 Difflib.op_j2 for_each].
  rewrite Hlx, Hly.
  match goal with
  | |- context [diff_seq_opcode _ _ _ _ _ _ _ _ (?chunk, ?realy)] =>
      pose proof (diff_seq_opcode_replace call rec context depth cwf xs ys
                    0 (len xs) 0 (len ys) chunk realy) as Hop
  end.
  rewrite !slice_all in Hop.
  destruct (fates_of call rec context depth cwf (combine xs ys)) as [fates|e].
  - destruct Hop as [tree [-> [Hhead Hentries]]]. cbn [bind].
    rewrite Z.ltb_irrefl. cbn [bind].
    replace (Z.max (0 - 1) 0) with 0 in * by lia.
    replace (Z.max (len xs - 1) 0) with (len xs - 1) in * by lia.
    replace (Z.max (len ys - 1) 0) with (len ys - 1) in * by lia.
    unfold DD.context in Hentries. rewrite diffs_clone_context in Hentries.
    f_equal.
    destruct (negb cwf || changes fates).
    + rewrite Hentries.
      destruct a, b; try discriminate Ha; try discriminate Hb; try discriminate Hty;
        reflexivity.
    + destruct a, b; try discriminate Ha; try discriminate Hb; try discriminate Hty;
        reflexivity.
  - rewrite Hop. reflexivity.
Qed.

(** The same through [try_diff_seq] and the body of [diff]. *)
Lemma diff_body_apart (rec : differ) (a b : value) (xs ys hxs hys : list value)
      (context depth : Z) (fromfile tofile : string) (cwf : bool) :
  sequence_items a = Some xs -> sequence_items b = Some ys ->
  type_of a = type_of b ->
  hashable_all xs = Ok hxs -> hashable_all ys = Ok hys ->
  xs <> [] -> ys <> [] -> no_common_element hxs hys ->
  diff_body call py_hash rec a b context depth fromfile tofile cwf
  = match fates_of call rec context depth cwf (combine xs ys) with
    | Ok fates =>
        Ok (ODiff (mkDataDiff (type_of a) (fst (delimiters (type_of a)))
                              (snd (delimiters (type_of a))) fromfile tofile
                              (if negb cwf || changes fates
                               then Context 0 (len xs - 1) 0 (len ys - 1)
                                    :: replace_entries
                                         (replace_tails xs ys 0 (len xs) 0 (len ys))
                                         fates [] []
                               else [])))
    | Err (NotHashable s) => Err (NotHashable s)
    | Err OutOfFuel => Err OutOfFuel
    | Err _ => Err (DiffNotImplementedForType (type_of a))
    end.
Proof.
  intros Ha Hb Hty Hxs Hys Hx Hy Hapart.
  rewrite (diff_body_sequence call py_hash rec a b xs) by assumption.
  unfold try_diff_seq.
  rewrite (diff_seq_apart rec a b xs ys hxs hys) by assumption.
  destruct (fates_of call rec context depth cwf (combine xs ys)) as [fates|e];
    [reflexivity|]. destruct e; reflexivity.
Qed.

End SequencesApart.


(** ** The [replace] opcode in [diff_seq_opcode] and in [diff] *)

Lemma fates_all_buffered (call : string -> value -> value + value) (rec : differ)
      (context depth : Z) (cwf : bool) (pairs : list (value * value)) :
  (forall x y, In (x, y) pairs ->
     compares_with_func call x y = Ok false
     /\ exists e, rec x y context (depth + 1) "a" "b" cwf = Err e
                  /\ is_DiffTypeError e = true) ->
  fates_of call rec context depth cwf pairs = Ok (map (fun p => (p, Buffered)) pairs).
Proof.
  induction pairs as [|[x y] pairs IH]; intros Hall; [reflexivity|].
  cbn [fates_of map]. unfold fate_of.
  destruct (Hall x y (or_introl eq_refl)) as [-> [e [-> ->]]]. cbn [bind].
  rewrite IH; [reflexivity|]. intros x' y' Hin. apply Hall. now right.
Qed.

Lemma replace_entries_buffered (tails : list value -> list value -> list entry)
      (pairs : list (value * value)) (deletes inserts : list value) :
  replace_entries tails (map (fun p => (p, Buffered)) pairs) deletes inserts
  = tails (deletes ++ map fst pairs) (inserts ++ map snd pairs).
Proof.
  revert deletes inserts. induction pairs as [|[x y] pairs IH]; intros deletes inserts.
  - simpl. now rewrite !app_nil_r.
  - cbn [map replace_entries fst snd]. rewrite IH, <- !app_assoc. reflexivity.
Qed.

Section ReplaceOpcode.
Variable call : string -> value -> value + value.
Variable py_hash : value -> Z.

(** C6.  A [replace] opcode over [a[i1:i2]] and [b[j1:j2]], as
    [diff_seq_opcode] handles it and as it shows in the result of [diff].
    - The loop visits [min(i2-i1, j2-j1)] pairs, the [k]-th being
      [(a[i1+k], b[j1+k])].
    - [diff_seq_opcode] appends to the tree the entries that the fates of
      the pairs give: nothing for a pair that the callable accepts or whose
      recursive diff is empty; for a pair whose diff is not empty the
      [delete] run and the [insert] run of the pairs buffered so far and
      then the nested diff; and at the end the [delete] run of the pairs
      that are still buffered, the tail of [a] as a [delete] run when [a]
      is the longer side, the [insert] run of the buffered pairs and the
      tail of [b] as an [insert] run when [b] is the longer side.  A pair is
      buffered when its recursive diff raises in the class
      [DiffTypeError].  The loop raises what the first pair raises that is
      not in that class.
    - Two sequences without a common element are one [replace] opcode
      over all of [a] and all of [b]: the tree that [diff] returns holds
      the [Context] entry and these entries, and none when
      [compare_with_func] is on and every pair was skipped. *)
Theorem replace_opcode_handling :
  (forall (rec : differ) (context depth : Z) (cwf : bool) (a b : list value)
          (i1 i2 j1 j2 : Z) (chunk_ddiff : DataDiff) (realy_diffs : bool),
      0 <= i1 <= i2 -> i2 <= len a -> 0 <= j1 <= j2 -> j2 <= len b ->
      let pairs := combine (slice a i1 i2) (slice b j1 j2) in
      let n := Z.min (i2 - i1) (j2 - j1) in
      let opcode := Difflib.Op Difflib.Replace i1 i2 j1 j2 in
      (len pairs = n
       /\ forall k, 0 <= k < n ->
            exists a2 b2,
              Difflib.item a (i1 + k) = Some a2 /\ Difflib.item b (j1 + k) = Some b2
              /\ nth_error pairs (Z.to_nat k) = Some (a2, b2))
      /\ match fates_of call rec context depth cwf pairs with
         | Ok fates =>
             exists tree,
               diff_seq_opcode call rec context depth cwf a b opcode
                               (chunk_ddiff, realy_diffs)
               = Ok (tree, realy_diffs || changes fates)
               /\ DD.diffs tree
                  = DD.diffs chunk_ddiff
                    ++ replace_entries (replace_tails a b i1 i2 j1 j2) fates [] []
         | Err e =>
             diff_seq_opcode call rec context depth cwf a b opcode
                             (chunk_ddiff, realy_diffs)
             = Err e
         end)
  /\ (forall (a b : value) (xs ys hxs hys : list value) (context depth : Z)
             (fromfile tofile : string) (cwf : bool)
             (fates : list (value * value * pair_fate)),
        sequence_items a = Some xs -> sequence_items b = Some ys ->
        type_of a = type_of b ->
        hashable_all xs = Ok hxs -> hashable_all ys = Ok hys ->
        xs <> [] -> ys <> [] -> no_common_element hxs hys ->
        fates_of call (diff call py_hash) context depth cwf (combine xs ys) = Ok fates ->
        diff call py_hash a b context depth fromfile tofile cwf
        = Ok (ODiff (mkDataDiff (type_of a) (fst (delimiters (type_of a)))
                                (snd (delimiters (type_of a))) fromfile tofile
                                (if negb cwf || changes fates
                                 then Context 0 (len xs - 1) 0 (len ys - 1)
                                      :: replace_entries
                                           (replace_tails xs ys 0 (len xs) 0 (len ys))
                                           fates [] []
                                 else [])))).
Proof.
  split.
  - intros rec context depth cwf a b i1 i2 j1 j2 chunk_ddiff realy_diffs
           Hi1 Hi2 Hj1 Hj2 pairs n opcode.
    split; [split|].
    + now apply zip_slices_length.
    + intros k Hk. now apply zip_slices_item.
    + pose proof (diff_seq_opcode_replace call rec context depth cwf a b i1 i2 j1 j2
                    chunk_ddiff realy_diffs) as Hop.
      fold pairs in Hop. fold opcode in Hop.
      destruct (fates_of call rec context depth cwf pairs) as [fates|e]; [|exact Hop].
      destruct Hop as [tree [Hop [_ Hentries]]]. exists tree. now split.
  - intros a b xs ys hxs hys context depth fromfile tofile cwf fates
           Ha Hb Hty Hxs Hys Hx Hy Hapart Hfates.
    rewrite diff_equation.
    rewrite (diff_body_apart call py_hash _ a b xs ys hxs hys) by assumption.
    now rewrite Hfates.
Qed.

End ReplaceOpcode.

(** ** [NotHashable] and the two recursive call sites *)

Lemma for_each_must_raise {A S : Type} (body : A -> S -> result S) (x0 : A)
      (xs : list A) :
  (forall st, exists e, body x0 st = Err e) -> In x0 xs ->
  forall st, exists e, for_each body xs st = Err e.
Proof.
  intros Hraise. induction xs as [|x xs IH]; [intros []|].
  intros Hin st. simpl.
  destruct (body x st) as [st1|e] eqn:Hx; cbn [bind]; [|eauto].
  destruct Hin as [->|Hin]; [|now apply IH].
  destruct (Hraise st) as [e He]. congruence.
Qed.

Section CallSites.
Variable call : string -> value -> value + value.
Variable py_hash : value -> Z.

(** What a turn of the loop over the keys of [a] raises is not in the
    class [DiffTypeError]. *)
Lemma diff_dict_key_error_class (rec : differ) (depth : Z) (cwf : bool)
      (a b : list (value * value)) (key : value) (st : DataDiff * Z) (e : exn) :
  diff_dict_key call rec depth cwf a b key st = Err e -> is_DiffTypeError e = false.
Proof.
  destruct st as [d c]. unfold diff_dict_key.
  destruct (lookup key b) as [bval|].
  - destruct (lookup key a) as [aval|]; [|now intros [= <-]].
    destruct (negb (py_eq aval bval)); [|discriminate].
    destruct (cwf && callable aval).
    + destruct (compares_with_func call aval bval) as [[|]|e'] eqn:Hcmp;
        try discriminate.
      destruct (compares_with_func_raises call aval bval e' Hcmp) as [v ->].
      discriminate.
    + destruct (rec aval bval c (depth + 1) "a" "b" cwf) as [nested|e'].
      * destruct (negb (obj_bool nested)); discriminate.
      * destruct (is_DiffTypeError e') eqn:He'; [discriminate|]. now intros [= <-].
  - destruct (lookup key a); [discriminate|]. now intros [= <-].
Qed.

(** C5.  [NotHashable] reaches the caller of [diff], and the two recursive
    call sites degrade the exceptions of the class [DiffTypeError] only.
    - Sequences: a [diff] of two lists or two tuples one of whose elements
      cannot be made hashable raises [NotHashable].
    - The pairing of a [replace] opcode does not catch [NotHashable]: when
      the recursive call for the first pair of two sequences without a
      common element raises it, the body of [diff] raises it, whatever
      function the recursive calls go to.
    - The pairing degrades a type mismatch: when the recursive [diff] of
      every pair raises in the class [DiffTypeError], [diff] returns the
      [delete] run of the paired elements of [a], the tail of the longer
      side, and the [insert] run of the paired elements of [b].
    - The value comparison of [diff_dict] does not catch [NotHashable]:
      when the turns of the loop for the keys before [key] return and the
      recursive [diff] of the two values of [key] raises [NotHashable],
      the [diff] of the two dicts raises that exception; and wherever the
      key stands, the [diff] of the two dicts raises an exception that is
      not in the class [DiffTypeError].
    - The value comparison degrades a type mismatch: when the recursive
      [diff] of the two values of a key raises in the class
      [DiffTypeError], a returned tree holds the [delete] entry of the item
      of [a] and the [insert] entry of the item of [b]. *)
Theorem not_hashable_propagates :
  (forall a b xs ys x e context depth fromfile tofile cwf,
      type_of a = type_of b ->
      sequence_items a = Some xs -> sequence_items b = Some ys ->
      In x (xs ++ ys) -> hashable x = Err e ->
      exists s, In s (xs ++ ys)
                /\ diff call py_hash a b context depth fromfile tofile cwf
                   = Err (NotHashable s))
  /\ (forall (rec : differ) a b x y xs ys hxs hys context depth fromfile tofile cwf s,
         sequence_items a = Some (x :: xs) -> sequence_items b = Some (y :: ys) ->
         type_of a = type_of b ->
         hashable_all (x :: xs) = Ok hxs -> hashable_all (y :: ys) = Ok hys ->
         no_common_element hxs hys ->
         compares_with_func call x y = Ok false ->
         rec x y context (depth + 1) "a" "b" cwf = Err (NotHashable s) ->
         diff_body call py_hash rec a b context depth fromfile tofile cwf
         = Err (NotHashable s))
  /\ (forall a b xs ys hxs hys context depth fromfile tofile cwf,
         sequence_items a = Some xs -> sequence_items b = Some ys ->
         type_of a = type_of b ->
         hashable_all xs = Ok hxs -> hashable_all ys = Ok hys ->
         xs <> [] -> ys <> [] -> no_common_element hxs hys ->
         (forall x y, In (x, y) (combine xs ys) ->
            compares_with_func call x y = Ok false
            /\ exists e, diff call py_hash x y context (depth + 1) "a" "b" cwf = Err e
                         /\ is_DiffTypeError e = true) ->
         diff call py_hash a b context depth fromfile tofile cwf
         = Ok (ODiff (mkDataDiff (type_of a) (fst (delimiters (type_of a)))
                                 (snd (delimiters (type_of a))) fromfile tofile
                                 (Context 0 (len xs - 1) 0 (len ys - 1)
                                  :: replace_tails xs ys 0 (len xs) 0 (len ys)
                                       (map fst (combine xs ys))
                                       (map snd (combine xs ys))))))
  /\ (forall before after key aval bval kvs' ddiff budget context depth
             fromfile tofile cwf s,
         let kvs := before ++ (key, aval) :: after in
         for_each (diff_dict_key call (diff call py_hash) depth cwf kvs kvs')
                  (map fst before)
                  (DD.__init__ TDict (Some ("{", "}")) fromfile tofile, context)
         = Ok (ddiff, budget) ->
         lookup key kvs = Some aval -> lookup key kvs' = Some bval ->
         py_eq aval bval = false -> cwf && callable aval = false ->
         diff call py_hash aval bval budget (depth + 1) "a" "b" cwf = Err (NotHashable s) ->
         diff call py_hash (VDict kvs) (VDict kvs') context depth fromfile tofile cwf
         = Err (NotHashable s))
  /\ (forall kvs kvs' key aval bval context depth fromfile tofile cwf s,
         In key (map fst kvs) ->
         lookup key kvs = Some aval -> lookup key kvs' = Some bval ->
         py_eq aval bval = false -> cwf && callable aval = false ->
         (forall budget,
             diff call py_hash aval bval budget (depth + 1) "a" "b" cwf
             = Err (NotHashable s)) ->
         exists e,
           diff call py_hash (VDict kvs) (VDict kvs') context depth fromfile tofile cwf
           = Err e
           /\ is_DiffTypeError e = false)
  /\ (forall kvs kvs' key aval bval context depth fromfile tofile cwf r,
         In key (map fst kvs) ->
         lookup key kvs = Some aval -> lookup key kvs' = Some bval ->
         py_eq aval bval = false -> cwf && callable aval = false ->
         (forall budget, exists e,
             diff call py_hash aval bval budget (depth + 1) "a" "b" cwf = Err e
             /\ is_DiffTypeError e = true) ->
         diff call py_hash (VDict kvs) (VDict kvs') context depth fromfile tofile cwf
         = Ok r ->
         exists d,
           r = ODiff d
           /\ In (Multi CDelete [dictitem key aval]) (DD.diffs d)
           /\ In (Multi CInsert [dictitem key bval]) (DD.diffs d)).
Proof.
  split; [|split; [|split; [|split; [|split]]]].
  - intros a b xs ys x e context depth fromfile tofile cwf Hty Ha Hb Hin Hx.
    destruct (diff_seq_unhashable call (diff call py_hash) context depth cwf
                a b xs ys x e fromfile tofile Ha Hb Hin Hx) as [s [Hs Hseq]].
    exists s. split; [exact Hs|].
    rewrite diff_equation.
    rewrite (diff_body_sequence call py_hash _ a b xs) by assumption.
    rewrite (try_diff_seq_not_hashable call _ _ _ _ _ _ _ _ _ Hseq). reflexivity.
  - intros rec a b x y xs ys hxs hys context depth fromfile tofile cwf s
           Ha Hb Hty Hxs Hys Hapart Hcmp Hrec.
    rewrite (diff_body_apart call py_hash rec a b (x :: xs) (y :: ys) hxs hys)
      by (assumption || discriminate).
    cbn [combine fates_of]. unfold fate_of. rewrite Hcmp. cbn [bind].
    rewrite Hrec. reflexivity.
  - intros a b xs ys hxs hys context depth fromfile tofile cwf
           Ha Hb Hty Hxs Hys Hx Hy Hapart Hall.
    rewrite diff_equation.
    rewrite (diff_body_apart call py_hash _ a b xs ys hxs hys) by assumption.
    rewrite (fates_all_buffered call _ context depth cwf _ Hall).
    rewrite replace_entries_buffered. cbn [app].
    assert (Hchanged : changes (map (fun p => (p, Buffered)) (combine xs ys)) = true).
    { destruct xs as [|x xs]; [congruence|]. destruct ys as [|y ys]; [congruence|].
      reflexivity. }
    now rewrite Hchanged, orb_true_r.
  - intros before after key aval bval kvs' ddiff budget context depth
           fromfile tofile cwf s kvs Hbefore Ha Hb Hne Hcall Hrec.
    rewrite diff_equation, diff_body_dict. unfold diff_dict.
    unfold kvs at 2. rewrite map_app. cbn [map fst].
    rewrite (for_each_raises _ (map fst before) (map fst after) key _ _
               (NotHashable s) Hbefore); [reflexivity|].
    rewrite (diff_dict_key_raises call _ depth cwf kvs kvs' key aval bval ddiff budget
               (NotHashable s) Ha Hb Hne Hcall Hrec).
    reflexivity.
  - intros kvs kvs' key aval bval context depth fromfile tofile cwf s
           Hin Ha Hb Hne Hcall Hrec.
    rewrite diff_equation, diff_body_dict. unfold diff_dict.
    destruct (for_each_must_raise
                (diff_dict_key call (diff call py_hash) depth cwf kvs kvs') key
                (map fst kvs)) with
      (st := (DD.__init__ TDict (Some ("{", "}")) fromfile tofile, context))
      as [e He].
    { intros [d c]. exists (NotHashable s).
      now rewrite (diff_dict_key_raises call _ depth cwf kvs kvs' key aval bval d c
                     (NotHashable s) Ha Hb Hne Hcall (Hrec c)). }
    { exact Hin. }
    exists e. rewrite He. split; [reflexivity|].
    apply for_each_err in He. destruct He as [k [st [_ Hk]]].
    exact (diff_dict_key_error_class _ depth cwf kvs kvs' k st e Hk).
  - intros kvs kvs' key aval bval context depth fromfile tofile cwf r
           Hin Ha Hb Hne Hcall Hraise.
    rewrite diff_equation, diff_body_dict. unfold diff_dict.
    destruct (for_each _ (map fst kvs) _) as [[ddiff budget]|] eqn:Hkeys; [|discriminate].
    cbn [bind].
    destruct (for_each _ (map fst kvs') ddiff) as [ddiff'|] eqn:Hins; [|discriminate].
    cbn [bind].
    destruct (sort_diffs py_hash (DD.diffs ddiff')) as [sorted|] eqn:Hsort; [|discriminate].
    cbn [bind]. intros [= <-]. eexists. split; [reflexivity|].
    assert (Hlast : forall e, In e (DD.diffs ddiff) ->
              In e (DD.diffs (if budget <? 0
                              then DD.context_end_container (DD.set_diffs ddiff' sorted)
                              else DD.set_diffs ddiff' sorted))).
    { intros e He.
      assert (He' : In e (DD.diffs ddiff')).
      { revert Hins.
        apply (for_each_invariant _ (fun d => In e (DD.diffs d))); [|exact He].
        intros k st st' Hst Hk. exact (diff_dict_insert_keeps kvs kvs' k st st' _ Hk Hst). }
      apply (Permutation_in _ (sort_diffs_permutation py_hash _ _ Hsort)) in He'.
      destruct (budget <? 0).
      - unfold DD.context_end_container. apply In_append_entry.
        now rewrite diffs_set_diffs.
      - now rewrite diffs_set_diffs. }
    assert (Hboth : In (Multi CDelete [dictitem key aval]) (DD.diffs ddiff)
                    /\ In (Multi CInsert [dictitem key bval]) (DD.diffs ddiff)).
    { change ddiff with (fst (ddiff, budget)). revert Hkeys.
      apply (for_each_establishes _
               (fun st => In (Multi CDelete [dictitem key aval]) (DD.diffs (fst st))
                          /\ In (Multi CInsert [dictitem key bval]) (DD.diffs (fst st)))
               key).
      - intros k st st' [H1 H2] Hk.
        split;
          [exact (diff_dict_key_keeps call _ depth cwf kvs kvs' k st st' _ Hk H1)
          |exact (diff_dict_key_keeps call _ depth cwf kvs kvs' k st st' _ Hk H2)].
      - intros [d c] st'. destruct (Hraise c) as [e [Hrec He]].
        rewrite (diff_dict_key_raises call _ depth cwf kvs kvs' key aval bval d c e
                   Ha Hb Hne Hcall Hrec), He.
        intros [= <-]. cbn [fst]. unfold DD.insert, DD.delete, DD.multi. split.
        + apply In_append_entry, In_appended_entry.
        + apply In_appended_entry.
      - exact Hin. }
    destruct Hboth as [H1 H2]. split; now apply Hlast.
Qed.

End CallSites.


(** ** The properties at sample inputs *)

Lemma single_line_text_refused_witness :
  has_newline "abc" = false
  /\ has_newline "abd" = false
  /\ diff sample_call sample_hash (VStr "abc") (VStr "abd") 3 0 "a" "b" false
     = Err (DiffNotImplementedForType TStr).
Proof.
  assert (H1 : has_newline "abc" = false) by reflexivity.
  assert (H2 : has_newline "abd" = false) by reflexivity.
  exact (conj H1 (conj H2 (proj1 (single_line_text_refused sample_call sample_hash
                                    "abc" "abd" 3 0 "a" "b" false H1 H2)))).
Defined.

Lemma variant_mismatch_fallback_witness :
  type_of (VFun "is_int") <> type_of (VInt 5)
  /\ diff sample_call sample_hash (VFun "is_int") (VInt 5) 3 0 "a" "b" true
     = Ok (ODiff (mkDataDiff TInt "int([" "])" "a" "b" [Multi CEqual [OVal (VInt 5)]])).
Proof.
  assert (Hty : type_of (VFun "is_int") <> type_of (VInt 5)) by discriminate.
  split; [exact Hty|].
  exact (proj1 (variant_mismatch_fallback sample_call sample_hash
                  (VFun "is_int") (VInt 5) 3 0 "a" "b" true Hty)
               "is_int" (VInt 1) eq_refl eq_refl eq_refl eq_refl).
Defined.

(** The two chunks of [seq20_a] and [seq20_b] with [context=1]. *)
Lemma seq20_chunks :
  Difflib.get_grouped_opcodes py_eq seq20_a seq20_b 1
  = [[Difflib.Op Difflib.Equal 1 2 1 2; Difflib.Op Difflib.Replace 2 3 2 3;
      Difflib.Op Difflib.Equal 3 4 3 4];
     [Difflib.Op Difflib.Equal 11 12 11 12; Difflib.Op Difflib.Replace 12 13 12 13;
      Difflib.Op Difflib.Equal 13 14 13 14]].
Proof. vm_compute. reflexivity. Qed.

Lemma seq20_diff :
  entries_of (diff sample_call sample_hash (VList seq20_a) (VList seq20_b) 1 0 "a" "b" false)
  = seq20_entries.
Proof. vm_compute. reflexivity. Qed.

(** C7, as stated, fails on two lists with two chunks: the last opcode ends
    at 14, before the end of [a], and the tree holds two markers, one at
    the end of each chunk. *)
Lemma two_chunks_two_markers :
  ~ one_trailing_marker seq20_a seq20_b 1
      (entries_of (diff sample_call sample_hash (VList seq20_a) (VList seq20_b)
                        1 0 "a" "b" false)).
Proof.
  intros H. specialize (H seq20_a seq20_b eq_refl eq_refl).
  rewrite seq20_diff, seq20_chunks in H. vm_compute in H. discriminate H.
Qed.

Lemma end_marker_per_chunk_witness :
  let rec := diff sample_call sample_hash in
  let ddiff := DD.__init__ TList (Some ("[", "]")) "a" "b" in
  let chunks := Difflib.get_grouped_opcodes py_eq seq20_a seq20_b 1 in
  exists tree,
    for_each (diff_seq_step sample_call rec 1 0 false seq20_a seq20_b) chunks ddiff = Ok tree
    /\ count_markers (DD.diffs tree)
       = (count_markers (DD.diffs ddiff)
          + List.length
              (filter (fun chunk =>
                         chunk_kept sample_call rec 1 0 false seq20_a seq20_b ddiff chunk
                         && ends_before seq20_a chunk) chunks))%nat.
Proof.
  intros rec ddiff chunks.
  assert (Hloop : for_each (diff_seq_step sample_call rec 1 0 false seq20_a seq20_b)
                           chunks ddiff
                  = Ok (mkDataDiff TList "[" "]" "a" "b" seq20_entries))
    by (vm_compute; reflexivity).
  exists (mkDataDiff TList "[" "]" "a" "b" seq20_entries). split; [exact Hloop|].
  exact (proj1 (end_marker_per_chunk sample_call rec 1 0 false seq20_a seq20_b
                  chunks ddiff _ Hloop)).
Defined.

(** ** Further properties at sample inputs *)

Lemma diff_same_list_is_empty_witness :
  let xs := [VInt 1; VList [VInt 2; VStr "x"]] in
  sequence_items (VTuple xs) = Some xs
  /\ forallb plain xs = true
  /\ 0 <= 3
  /\ match diff sample_call sample_hash (VTuple xs) (VTuple xs) 3 0 "a" "b" false with
     | Ok r => obj_bool r = false /\ exists d, r = ODiff d /\ DD.diffs d = []
     | Err e => exists s, In s xs /\ e = NotHashable s
     end.
Proof.
  intros xs.
  assert (H1 : sequence_items (VTuple xs) = Some xs) by reflexivity.
  assert (H2 : forallb plain xs = true) by reflexivity.
  assert (H3 : 0 <= 3) by lia.
  exact (conj H1 (conj H2 (conj H3
           (diff_same_list_is_empty sample_call sample_hash (VTuple xs) xs 3 0 "a" "b"
                                    false H1 H2 H3)))).
Defined.

Lemma diff_same_text_is_empty_witness :
  let s := String "a" (String "010" "b") in
  has_newline s = true
  /\ 0 <= 3
  /\ diff sample_call sample_hash (VStr s) (VStr s) 3 0 "a" "b" false = Ok (OVal (VStr "")).
Proof.
  intros s.
  assert (H1 : has_newline s = true) by reflexivity.
  assert (H2 : 0 <= 3) by lia.
  exact (conj H1 (conj H2
           (diff_same_text_is_empty sample_call sample_hash s 3 0 "a" "b" false H1 H2))).
Defined.

Lemma type_errors_are_about_the_arguments_witness :
  let e := DiffTypeError "a" "b" (VInt 1) (VStr "x") in
  diff sample_call sample_hash (VInt 1) (VStr "x") 3 0 "a" "b" false = Err e
  /\ is_DiffTypeError e = true
  /\ (e = DiffNotImplementedForType (type_of (VInt 1))
      \/ (e = DiffTypeError "a" "b" (VInt 1) (VStr "x")
          /\ type_of (VInt 1) <> type_of (VStr "x"))).
Proof.
  intros e.
  assert (H1 : diff sample_call sample_hash (VInt 1) (VStr "x") 3 0 "a" "b" false = Err e)
    by reflexivity.
  assert (H2 : is_DiffTypeError e = true) by reflexivity.
  exact (conj H1 (conj H2
           (type_errors_are_about_the_arguments sample_call sample_hash (VInt 1) (VStr "x")
              3 0 "a" "b" false e H1 H2))).
Defined.

Lemma diff_of_scalars_not_implemented_witness :
  has_iter_or_getitem (VInt 1) = false
  /\ type_of (VInt 1) = type_of (VInt 2)
  /\ diff sample_call sample_hash (VInt 1) (VInt 2) 3 0 "a" "b" false
     = Err (DiffNotImplementedForType (type_of (VInt 1))).
Proof.
  assert (H1 : has_iter_or_getitem (VInt 1) = false) by reflexivity.
  assert (H2 : type_of (VInt 1) = type_of (VInt 2)) by reflexivity.
  exact (conj H1 (conj H2
           (diff_of_scalars_not_implemented sample_call sample_hash (VInt 1) (VInt 2)
              3 0 "a" "b" false H1 H2))).
Defined.

(** The callable [boom] raises when [compares_with_func] calls it on the
    element it is paired with. *)
Lemma sequence_failure_is_not_implemented_witness :
  let a := VList [VFun "boom"] in
  let b := VList [VInt 1] in
  diff_seq sample_call (diff sample_call sample_hash) 3 0 false a b "a" "b"
  = Err (Raised (VExc "boom"))
  /\ diff sample_call sample_hash a b 3 0 "a" "b" false
     = Err (DiffNotImplementedForType (type_of a)).
Proof.
  intros a b.
  assert (H1 : sequence_items a = Some [VFun "boom"]) by reflexivity.
  assert (H2 : type_of a = type_of b) by reflexivity.
  assert (H3 : diff_seq sample_call (diff sample_call sample_hash) 3 0 false a b "a" "b"
               = Err (Raised (VExc "boom"))) by (vm_compute; reflexivity).
  assert (H4 : forall s, Raised (VExc "boom") <> NotHashable s) by (intros s; discriminate).
  exact (conj H3
           (sequence_failure_is_not_implemented sample_call sample_hash a b _ 3 0 "a" "b"
              false _ H1 H2 H3 H4)).
Defined.

Lemma diff_dict_reports_missing_keys_witness :
  let kvs := [(VStr "x", VInt 1); (VStr "k", VInt 0)] in
  let kvs' := [(VStr "k", VInt 0); (VStr "y", VInt 2)] in
  exists r,
    diff sample_call sample_hash (VDict kvs) (VDict kvs') 3 0 "a" "b" false = Ok r
    /\ exists d,
         r = ODiff d
         /\ (forall key aval,
                In key (map fst kvs) -> lookup key kvs = Some aval ->
                lookup key kvs' = None ->
                In (Multi CDelete [dictitem key aval]) (DD.diffs d))
         /\ (forall key bval,
                In key (map fst kvs') -> lookup key kvs' = Some bval ->
                lookup key kvs = None ->
                In (Multi CInsert [dictitem key bval]) (DD.diffs d)).
Proof.
  intros kvs kvs'. eexists.
  match goal with
  | |- ?A /\ _ => assert (H : A) by (vm_compute; reflexivity)
  end.
  exact (conj H
           (diff_dict_reports_missing_keys sample_call sample_hash kvs kvs' 3 0 "a" "b"
              false _ H)).
Defined.

Lemma dict_entries_are_items_witness :
  let kvs := [(VStr "x", VInt 1); (VStr "y", VList [VInt 2])] in
  let kvs' := [(VStr "x", VInt 1); (VStr "y", VList [VInt 3])] in
  exists r,
    diff sample_call sample_hash (VDict kvs) (VDict kvs') 3 0 "a" "b" false = Ok r
    /\ exists d, r = ODiff d /\ Forall (dict_entry_from kvs kvs') (DD.diffs d).
Proof.
  intros kvs kvs'. eexists.
  match goal with
  | |- ?A /\ _ => assert (H : A) by (vm_compute; reflexivity)
  end.
  exact (conj H
           (dict_entries_are_items sample_call sample_hash kvs kvs' 3 0 "a" "b" false _ H)).
Defined.

Lemma sequence_entries_from_inputs_witness :
  let xs := ints [1; 2; 3] in
  let ys := ints [1; 4; 3] in
  exists r,
    diff sample_call sample_hash (VList xs) (VList ys) 3 0 "a" "b" false = Ok r
    /\ exists d, r = ODiff d /\ Forall (entry_from xs ys) (DD.diffs d).
Proof.
  intros xs ys. eexists.
  match goal with
  | |- ?A /\ _ => assert (H : A) by (vm_compute; reflexivity)
  end.
  exact (conj H
           (sequence_entries_from_inputs sample_call sample_hash (VList xs) (VList ys)
              xs ys 3 0 "a" "b" false _ eq_refl eq_refl H)).
Defined.

Lemma sort_diffs_sorted_witness :
  let es := [Multi CEqual [dictitem (VStr "b") (VInt 1)];
             Multi CDelete [dictitem (VStr "a") (VInt 2)]] in
  let sorted := [Multi CDelete [dictitem (VStr "a") (VInt 2)];
                 Multi CEqual [dictitem (VStr "b") (VInt 1)]] in
  sort_diffs sample_hash es = Ok sorted
  /\ Permutation es sorted
  /\ exists keyed,
       with_keys sample_hash sorted = Ok keyed
       /\ Sorted (fun p q => sortkey_ltb (fst q) (fst p) = false) keyed.
Proof.
  intros es sorted.
  assert (H : sort_diffs sample_hash es = Ok sorted) by (vm_compute; reflexivity).
  exact (conj H (sort_diffs_sorted sample_hash es sorted H)).
Defined.

Lemma hashable_idempotent_witness :
  let s := VList [VInt 1; VList [VStr "x"]; VDict [(VStr "k", VList [VInt 2])]] in
  exists r,
    hashable s = Ok r /\ hash_ok r = true /\ hashable r = Ok r.
Proof.
  intros s. eexists.
  match goal with
  | |- ?A /\ _ => assert (H : A) by (vm_compute; reflexivity)
  end.
  exact (conj H (hashable_idempotent s _ H)).
Defined.

Lemma unhashable_leaf_fails_witness :
  let v := VList [VInt 1; VTuple [VObj "o"]] in
  has_unhashable_leaf v = true /\ hashable v = Err (NotHashable v).
Proof.
  intros v.
  assert (H : has_unhashable_leaf v = true) by reflexivity.
  exact (conj H (unhashable_leaf_fails v H)).
Defined.

Lemma diff_with_empty_list_witness :
  let ys := [VInt 1; VList [VInt 2]] in
  let hs := [VInt 1; VTuple [VInt 2]] in
  ys <> []
  /\ hashable_all ys = Ok hs
  /\ diff sample_call sample_hash (VList []) (VList ys) 3 0 "a" "b" false
     = Ok (ODiff (mkDataDiff TList "[" "]" "a" "b"
                             [Context 0 0 0 (len ys - 1); Multi CInsert (map OVal ys)]))
  /\ diff sample_call sample_hash (VList ys) (VList []) 3 0 "a" "b" false
     = Ok (ODiff (mkDataDiff TList "[" "]" "a" "b"
                             [Context 0 (len ys - 1) 0 0; Multi CDelete (map OVal ys)])).
Proof.
  intros ys hs.
  assert (H1 : ys <> []) by discriminate.
  assert (H2 : hashable_all ys = Ok hs) by reflexivity.
  exact (conj H1 (conj H2
           (diff_with_empty_list sample_call sample_hash ys hs 3 0 "a" "b" false H1 H2))).
Defined.

Lemma diff_list_markers_witness :
  let d := mkDataDiff TList "[" "]" "a" "b" seq20_entries in
  diff sample_call sample_hash (VList seq20_a) (VList seq20_b) 1 0 "a" "b" false
  = Ok (ODiff d)
  /\ exists ddiff,
       DD.diffs ddiff = []
       /\ count_markers (DD.diffs d)
          = List.length
              (filter (fun chunk =>
                         chunk_kept sample_call (diff sample_call sample_hash) 1 0 false
                                    seq20_a seq20_b ddiff chunk
                         && ends_before seq20_a chunk)
                      (Difflib.get_grouped_opcodes py_eq seq20_a seq20_b 1)).
Proof.
  intros d.
  assert (H1 : hashable_all seq20_a = Ok seq20_a) by reflexivity.
  assert (H2 : hashable_all seq20_b = Ok seq20_b) by reflexivity.
  assert (H3 : diff sample_call sample_hash (VList seq20_a) (VList seq20_b) 1 0 "a" "b" false
               = Ok (ODiff d)) by (vm_compute; reflexivity).
  exact (conj H3
           (diff_list_markers sample_call sample_hash seq20_a seq20_b seq20_a seq20_b
              1 0 "a" "b" false d H1 H2 H3)).
Defined.

Lemma diff_tree_header_witness :
  let a := VTuple (ints [1; 2]) in
  let b := VTuple (ints [1; 3]) in
  exists d,
    type_of a = type_of b
    /\ diff sample_call sample_hash a b 3 0 "old" "new" false = Ok (ODiff d)
    /\ header d = (type_of a, fst (delimiters (type_of a)), snd (delimiters (type_of a)),
                   "old", "new").
Proof.
  intros a b. eexists.
  assert (H1 : type_of a = type_of b) by reflexivity.
  split; [exact H1|].
  match goal with
  | |- ?A /\ _ => assert (H : A) by (vm_compute; reflexivity)
  end.
  exact (conj H (diff_tree_header sample_call sample_hash a b 3 0 "old" "new" false _ H1 H)).
Defined.

Lemma dict_changed_scalar_is_delete_insert_witness :
  let kvs := [(VStr "k", VInt 1); (VStr "s", VStr "x")] in
  let kvs' := [(VStr "k", VInt 2); (VStr "s", VStr "x")] in
  exists r,
    diff sample_call sample_hash (VDict kvs) (VDict kvs') 3 0 "a" "b" false = Ok r
    /\ exists d,
         r = ODiff d
         /\ In (Multi CDelete [dictitem (VStr "k") (VInt 1)]) (DD.diffs d)
         /\ In (Multi CInsert [dictitem (VStr "k") (VInt 2)]) (DD.diffs d).
Proof.
  intros kvs kvs'. eexists.
  match goal with
  | |- ?A /\ _ => assert (H : A) by (vm_compute; reflexivity)
  end.
  assert (H1 : In (VStr "k") (map fst kvs)) by (simpl; auto).
  exact (conj H
           (dict_changed_scalar_is_delete_insert sample_call sample_hash kvs kvs'
              (VStr "k") (VInt 1) (VInt 2) 3 0 "a" "b" false _
              H1 eq_refl eq_refl eq_refl eq_refl I eq_refl H)).
Defined.

(** C4, as stated, fails on a tree whose only entry nests a tree without
    entries: the embedded tree is empty, and [__bool__] counts the entry. *)
Lemma nested_empty_tree_counts : ~ emptiness_as_stated nested_empty_tree.
Proof. unfold emptiness_as_stated. vm_compute. discriminate. Qed.

Lemma emptiness_invariant_witness :
  let empty := mkDataDiff TList "[" "]" "a" "b" [] in
  In (Nested (ODiff empty)) (DD.diffs nested_empty_tree)
  /\ obj_bool (ODiff empty) = false
  /\ DD.__bool__ nested_empty_tree = true.
Proof.
  intros empty.
  assert (Hin : In (Nested (ODiff empty)) (DD.diffs nested_empty_tree)) by (simpl; auto).
  assert (Hb : obj_bool (ODiff empty) = false) by reflexivity.
  exact (conj Hin (conj Hb (proj2 (emptiness_invariant nested_empty_tree)
                                  (ODiff empty) Hin))).
Defined.

(** A list of three elements against a list of two: the first pair nests
    a diff, before which the two empty buffers are written, the second is
    buffered, and the third element of [a] is the tail. *)
Lemma replace_opcode_handling_witness :
  let xs := [VList [VInt 1]; VInt 5; VInt 9] in
  let ys := [VList [VInt 2]; VInt 6] in
  diff sample_call sample_hash (VList xs) (VList ys) 3 0 "a" "b" false
  = Ok (ODiff (mkDataDiff TList "[" "]" "a" "b"
                 [Context 0 2 0 1;
                  Multi CDelete []; Multi CInsert [];
                  Nested (ODiff (mkDataDiff TList "[" "]" "a" "b"
                                   [Context 0 0 0 0;
                                    Multi CDelete [OVal (VInt 1)];
                                    Multi CInsert [OVal (VInt 2)]]));
                  Multi CDelete [OVal (VInt 5)];
                  Multi CDelete [OVal (VInt 9)];
                  Multi CInsert [OVal (VInt 6)]])).
Proof.
  intros xs ys.
  assert (Hxs : hashable_all xs = Ok [VTuple [VInt 1]; VInt 5; VInt 9]) by reflexivity.
  assert (Hys : hashable_all ys = Ok [VTuple [VInt 2]; VInt 6]) by reflexivity.
  assert (Hx : xs <> []) by discriminate.
  assert (Hy : ys <> []) by discriminate.
  assert (Hapart : no_common_element [VTuple [VInt 1]; VInt 5; VInt 9]
                                     [VTuple [VInt 2]; VInt 6]).
  { intros x y Hin Hin'. simpl in Hin, Hin'.
    destruct Hin as [<-|[<-|[<-|[]]]]; destruct Hin' as [<-|[<-|[]]];
      split; reflexivity. }
  assert (Hfates : fates_of sample_call (diff sample_call sample_hash) 3 0 false
                            (combine xs ys)
                   = Ok [((VList [VInt 1], VList [VInt 2]),
                          Nests (ODiff (mkDataDiff TList "[" "]" "a" "b"
                                          [Context 0 0 0 0;
                                           Multi CDelete [OVal (VInt 1)];
                                           Multi CInsert [OVal (VInt 2)]])));
                         ((VInt 5, VInt 6), Buffered)])
    by (vm_compute; reflexivity).
  exact (proj2 (replace_opcode_handling sample_call sample_hash)
               (VList xs) (VList ys) xs ys _ _ 3 0 "a" "b" false _
               eq_refl eq_refl eq_refl Hxs Hys Hx Hy Hapart Hfates).
Defined.

(** A dict whose second key holds a list with an unhashable object, and a
    dict whose key holds two ints that differ. *)
Lemma not_hashable_propagates_witness :
  let before := [(VStr "a", VInt 1)] in
  let kvs := before ++ [(VStr "k", VList [VObj "o"])] in
  let kvs' := [(VStr "a", VInt 1); (VStr "k", VList [VInt 1])] in
  let ints1 := [(VStr "n", VInt 1)] in
  let ints2 := [(VStr "n", VInt 2)] in
  (diff sample_call sample_hash (VList [VObj "o"]) (VList [VInt 1]) 2 1 "a" "b" false
   = Err (NotHashable (VObj "o"))
   /\ diff sample_call sample_hash (VDict kvs) (VDict kvs') 3 0 "a" "b" false
      = Err (NotHashable (VObj "o")))
  /\ exists r,
       diff sample_call sample_hash (VDict ints1) (VDict ints2) 3 0 "a" "b" false = Ok r
       /\ exists d,
            r = ODiff d
            /\ In (Multi CDelete [dictitem (VStr "n") (VInt 1)]) (DD.diffs d)
            /\ In (Multi CInsert [dictitem (VStr "n") (VInt 2)]) (DD.diffs d).
Proof.
  intros before kvs kvs' ints1 ints2.
  assert (Hrec : diff sample_call sample_hash (VList [VObj "o"]) (VList [VInt 1])
                      2 1 "a" "b" false
                 = Err (NotHashable (VObj "o"))) by reflexivity.
  assert (Hbefore : for_each (diff_dict_key sample_call (diff sample_call sample_hash)
                                            0 false kvs kvs')
                             (map fst before)
                             (DD.__init__ TDict (Some ("{", "}")) "a" "b", 3)
                    = Ok (DD.equal (DD.__init__ TDict (Some ("{", "}")) "a" "b")
                                   (dictitem (VStr "a") (VInt 1)), 2))
    by reflexivity.
  assert (Hints : forall budget, exists e,
             diff sample_call sample_hash (VInt 1) (VInt 2) budget (0 + 1) "a" "b" false
             = Err e /\ is_DiffTypeError e = true)
    by (intros budget; eexists; split; reflexivity).
  assert (Hkey : In (VStr "n") (map fst ints1)) by (simpl; auto).
  split.
  - exact (conj Hrec
             (proj1 (proj2 (proj2 (proj2 (not_hashable_propagates sample_call
                                            sample_hash))))
                    before [] (VStr "k") (VList [VObj "o"]) (VList [VInt 1]) kvs'
                    _ 2 3 0 "a" "b" false (VObj "o")
                    Hbefore eq_refl eq_refl eq_refl eq_refl Hrec)).
  - eexists.
    match goal with
    | |- ?A /\ _ => assert (H : A) by (vm_compute; reflexivity)
    end.
    exact (conj H
             (proj2 (proj2 (proj2 (proj2 (proj2 (not_hashable_propagates sample_call
                                                   sample_hash)))))
                    ints1 ints2 (VStr "n") (VInt 1) (VInt 2) 3 0 "a" "b" false _
                    Hkey eq_refl eq_refl eq_refl eq_refl Hints H)).
Defined.

Lemma diff_set_marker_means_hidden_witness :
  let xs := ints [1; 2; 3] in
  let ys := ints [2; 3; 4] in
  0 <= 1
  /\ exists deleted inserted shown,
       DD.diffs (diff_set 1 TSet xs ys "a" "b")
       = [Multi CDelete (map OVal deleted); Multi CInsert (map OVal inserted);
          Multi CEqual (map OVal shown)]
         ++ (if 1 <? len (intersection xs ys) then [ContextEndContainer] else [])
       /\ (forall x, In x deleted <-> In x xs /\ member x ys = false)
       /\ (forall x, In x inserted <-> In x ys /\ member x xs = false)
       /\ (forall x, In x shown -> In x xs /\ member x ys = true)
       /\ len shown = Z.min 1 (len (intersection xs ys)).
Proof.
  intros xs ys.
  assert (H : 0 <= 1) by lia.
  exact (conj H (diff_set_marker_means_hidden TSet xs ys 1 "a" "b" H)).
Defined.
